(** * Vitess: SELECT planner entry, Binary vindex and StatefulConnection

    A shallow embedding of
    - go/vt/vtgate/planbuilder/select.go
    - go/vt/vtgate/vindexes/binary.go
    - go/vt/vttablet/tabletserver/stateful_connection.go
    with the properties stated about them.

    Go pointers that may be nil are [option]s, slices that are compared with
    nil are [option (list _)], a Go [(value, error)] pair is an [outcome], and
    a run-time panic (nil dereference, index out of range, failed type
    assertion) is the explicit outcome [Panic]. *)

From stdpp Require Import base strings list gmap.
From Stdlib Require Import ZArith Lia.
From Stdlib.Strings Require Import Byte.

Open Scope string_scope.
#[local] Set Warnings "-register-all".

(** ** Errors and outcomes *)

Module vtrpcpb.
(** The gRPC codes the modelled files use. *)
Inductive Code :=
| Code_CANCELED
| Code_INVALID_ARGUMENT
| Code_FAILED_PRECONDITION
| Code_ABORTED
| Code_UNIMPLEMENTED
| Code_UNKNOWN.
End vtrpcpb.

Module vterrors.
(** An error value.  [New] covers [vterrors.New] and [vterrors.Errorf]
    (the message already formatted), [VT12001] the error built by
    [vterrors.VT12001], [Wrap] is [vterrors.Wrap], [Errorf] is a plain
    [fmt.Errorf] error, and [Foreign] is an error produced by a
    collaborator outside the modelled files. *)
Inductive error :=
| New (code : vtrpcpb.Code) (msg : string)
| VT12001 (feature : string)
| Wrap (inner : error) (msg : string)
| Errorf (msg : string)
| Foreign (descr : string).

(** The code carried by an error; [Wrap] keeps the code of what it wraps,
    [VT12001] is an unsupported-construct error. *)
Fixpoint Code (e : error) : vtrpcpb.Code :=
  match e with
  | New c _ => c
  | VT12001 _ => vtrpcpb.Code_UNIMPLEMENTED
  | Wrap inner _ => Code inner
  | Errorf _ => vtrpcpb.Code_UNKNOWN
  | Foreign _ => vtrpcpb.Code_UNKNOWN
  end.
End vterrors.

(** The three ways a Go call ends. *)
Inductive outcome (A : Type) :=
| Ok (a : A)
| Err (e : vterrors.error)
| Panic (why : string).
Arguments Ok {A} a.
Arguments Err {A} e.
Arguments Panic {A} why.

Definition obind {A B} (m : outcome A) (k : A -> outcome B) : outcome B :=
  match m with
  | Ok a => k a
  | Err e => Err e
  | Panic w => Panic w
  end.

Definition is_some {A} (o : option A) : bool :=
  match o with Some _ => true | None => false end.

(** A call that reads and writes a state [S]: it gives back the state as it
    leaves it, with the way it ended. *)
Definition stateful (S A : Type) : Type := S -> S * outcome A.

Definition sret {S A} (a : A) : stateful S A := fun st => (st, Ok a).
Definition sfail {S A} (e : vterrors.error) : stateful S A :=
  fun st => (st, Err e).
Definition spanic {S A} (w : string) : stateful S A :=
  fun st => (st, Panic w).
Definition slift {S A} (r : outcome A) : stateful S A := fun st => (st, r).
Definition sget {S} : stateful S S := fun st => (st, Ok st).
Definition sput {S} (st : S) : stateful S unit := fun _ => (st, Ok tt).
Definition sbind {S A B} (m : stateful S A) (k : A -> stateful S B)
    : stateful S B :=
  fun st =>
    match m st with
    | (st1, Ok a) => k a st1
    | (st1, Err e) => (st1, Err e)
    | (st1, Panic w) => (st1, Panic w)
    end.

Notation "'do' x <- m ; k" := (sbind m (fun x => k))
  (at level 10, x name, m at level 100, k at level 200).
Notation "'do' ' p <- m ; k" :=
  (sbind m (fun x => match x with p => k end))
  (at level 10, p pattern, m at level 100, k at level 200).

(** ** The parts of the SQL AST the planner entry reads and writes *)

Module sqlparser.

Inductive ValType :=
| StrVal | IntVal | DecimalVal | FloatVal | HexNum | HexVal | BitNum.

Inductive LockingFuncType :=
| GetLock | IsFreeLock | IsUsedLock | ReleaseAllLocks | ReleaseLock.

(** [*LockingFunc], over the expression type. *)
Record LockingFuncOf (E : Type) := mkLockingFunc {
  lf_Type : LockingFuncType;
  lf_Name : option E;
  lf_Timeout : option E;
}.
Arguments mkLockingFunc {E}.
Arguments lf_Type {E}.
Arguments lf_Name {E}.
Arguments lf_Timeout {E}.

Inductive Expr :=
| Literal (Typ : ValType) (Val : string)
| Argument (Name : string)
| ColName (Name : string)
| CountStar
| LockingFuncExpr (f : LockingFuncOf Expr)
| FuncExpr (Name : string) (Args : list Expr).

Definition LockingFunc := LockingFuncOf Expr.

Inductive SelectExpr :=
| AliasedExpr (e : Expr) (As : string)
| StarExpr (Table : string)
| Nextval (e : Expr).

Inductive SimpleTableExpr (S : Type) :=
| TableName (Name Qualifier : string)
| DerivedTable (Select : S).
Arguments TableName {S}.
Arguments DerivedTable {S}.

Inductive TableExpr (S : Type) :=
| AliasedTableExpr (e : SimpleTableExpr S) (As : string)
| JoinTableExpr (LeftExpr RightExpr : TableExpr S)
| ParenTableExpr (Exprs : list (TableExpr S)).
Arguments AliasedTableExpr {S}.
Arguments JoinTableExpr {S}.
Arguments ParenTableExpr {S}.

Record LimitT := mkLimit {
  Offset : option Expr;
  Rowcount : option Expr;
}.

(** [*Select], over the statement type a derived table holds. *)
Record SelectOf (S : Type) := mkSelect {
  SQLCalcFoundRows : bool;
  SelectExprs : list SelectExpr;
  From : list (TableExpr S);
  Where : option Expr;
  GroupBy : option (list Expr);
  Having : option Expr;
  OrderBy : option (list Expr);
  Limit : option LimitT;
}.
Arguments mkSelect {S}.
Arguments SQLCalcFoundRows {S}.
Arguments SelectExprs {S}.
Arguments From {S}.
Arguments Where {S}.
Arguments GroupBy {S}.
Arguments Having {S}.
Arguments OrderBy {S}.
Arguments Limit {S}.

(** [SelectStatement]: a simple [Select] or a set operation. *)
Inductive SelectStatement :=
| SelectStmt (sel : SelectOf SelectStatement)
| UnionStmt (Left Right : SelectStatement).

Definition Select := SelectOf SelectStatement.

(** [Statement]: what the parser and [RewritePredicate] hand back. *)
Inductive Statement :=
| StmtSelect (s : SelectStatement)
| StmtOther (text : string).

(** Field writes through the [*Select] pointer. *)
Definition set_SQLCalcFoundRows (b : bool) (s : Select) : Select :=
  mkSelect b (SelectExprs s) (From s) (Where s) (GroupBy s) (Having s)
           (OrderBy s) (Limit s).
Definition set_OrderBy (o : option (list Expr)) (s : Select) : Select :=
  mkSelect (SQLCalcFoundRows s) (SelectExprs s) (From s) (Where s)
           (GroupBy s) (Having s) o (Limit s).
Definition set_Limit (l : option LimitT) (s : Select) : Select :=
  mkSelect (SQLCalcFoundRows s) (SelectExprs s) (From s) (Where s)
           (GroupBy s) (Having s) (OrderBy s) l.
(** [SetSelectExprs(exprs...)] replaces the whole select-list. *)
Definition SetSelectExprs (es : list SelectExpr) (s : Select) : Select :=
  mkSelect (SQLCalcFoundRows s) es (From s) (Where s) (GroupBy s)
           (Having s) (OrderBy s) (Limit s).
(** [GetColumns] returns the select-list. *)
Definition GetColumns (s : Select) : list SelectExpr := SelectExprs s.

End sqlparser.

Module evalengine.
(** A translated expression; its inside belongs to the evalengine. *)
Inductive Expr := Compiled (id : N).

(** [evalengine.Config], the two fields the planner fills in. *)
Record Config := mkConfig {
  Collation : N;
  Environment : N;
}.
End evalengine.

Module key.
(** [[]byte] that may be nil. *)
Definition bytes := option (list byte).

Inductive ShardDestination :=
| DestinationKeyspaceID (ksid : bytes)
| DestinationKeyRange (Start End_ : bytes).
End key.

Module sqltypes.
(** [querypb.Type], the members the sources name and some neighbours. *)
Inductive Type_ :=
| Null | Int64 | Uint64 | Float64 | VarChar | VarBinary | Binary_
| HexNum | HexVal | BitNum | Expression.

(** [sqltypes.Value]: a type tag and the raw bytes. *)
Record Value := mkValue {
  typ : Type_;
  val : key.bytes;
}.

(** [MakeTrusted(typ, val)] for a type other than [Null]. *)
Definition MakeTrusted (t : Type_) (v : key.bytes) : Value := mkValue t v.

(** Modelled from the spec: [Value.ToBytes] is not among the sources;
    the spec has the Binary vindex hash to "the value's raw bytes", and
    the conversion has no bytes to give for an expression. *)
Definition rawToBytes (v : Value) : key.bytes * option vterrors.error :=
  match typ v with
  | Expression =>
      (None, Some (vterrors.New vtrpcpb.Code_INVALID_ARGUMENT
                     "expression cannot be converted to bytes"))
  | _ => (val v, None)
  end.
End sqltypes.

(** ** go/vt/vtgate/vindexes/binary.go *)

Module vindexes.
(** [Keyspace{Name, Sharded}]. *)
Record Keyspace := mkKeyspace {
  Name : string;
  Sharded : bool;
}.

Record Binary := mkBinary {
  name : string;
  unknownParams : list string;
}.

Definition String (vind : Binary) : string := name vind.
Definition Cost (vind : Binary) : Z := 0.
Definition IsUnique (vind : Binary) : bool := true.
Definition NeedsVCursor (vind : Binary) : bool := false.
Definition UnknownParams (vind : Binary) : list string := unknownParams vind.

Section binary_go.
(** [sqltypes.Value.ToBytes], which binary.go calls and does not define:
    the bytes (nil or not) and the error. *)
Variable ToBytes : sqltypes.Value -> key.bytes * option vterrors.error.

Definition Hash (vind : Binary) (id : sqltypes.Value)
    : key.bytes * option vterrors.error :=
  ToBytes id.

(** The loop of [Map]; it returns what it has gathered with the error. *)
Fixpoint MapFrom (vind : Binary) (ids : list sqltypes.Value)
    (out : list key.ShardDestination)
    : list key.ShardDestination * option vterrors.error :=
  match ids with
  | [] => (out, None)
  | id :: rest =>
      match Hash vind id with
      | (_, Some err) => (out, Some err)
      | (idBytes, None) =>
          MapFrom vind rest (out ++ [key.DestinationKeyspaceID idBytes])
      end
  end.

Definition Map (vind : Binary) (ids : list sqltypes.Value)
    : list key.ShardDestination * option vterrors.error :=
  MapFrom vind ids [].

(** The loop of [ReverseMap] from row [rownum] on. *)
Fixpoint ReverseMapFrom (ksids : list key.bytes) (rownum : nat)
    (reverseIds : list sqltypes.Value) : outcome (list sqltypes.Value) :=
  match ksids with
  | [] => Ok reverseIds
  | None :: _ => Err (vterrors.Errorf "Binary.ReverseMap: keyspaceId is nil")
  | Some keyspaceID :: rest =>
      ReverseMapFrom rest (S rownum)
        (<[rownum := sqltypes.MakeTrusted sqltypes.VarBinary
                       (Some keyspaceID)]> reverseIds)
  end.

Definition ReverseMap (ksids : list key.bytes)
    : outcome (list sqltypes.Value) :=
  ReverseMapFrom ksids 0
    (replicate (length ksids) (sqltypes.mkValue sqltypes.Null None)).

(** [key.NewKeyRange(start, end)] is kept as the pair of its ends. *)
Definition RangeMap (vind : Binary) (startId endId : sqltypes.Value)
    : outcome (list key.ShardDestination) :=
  match Hash vind startId with
  | (_, Some err) => Err err
  | (startKsId, None) =>
      match Hash vind endId with
      | (_, Some err) => Err err
      | (endKsId, None) => Ok [key.DestinationKeyRange startKsId endKsId]
      end
  end.

(** The conversion [[]byte(d)] of a [DestinationKeyspaceID] back to the
    keyspace id it wraps. *)
Definition keyspaceID (d : key.ShardDestination) : option key.bytes :=
  match d with
  | key.DestinationKeyspaceID ksid => Some ksid
  | key.DestinationKeyRange _ _ => None
  end.
(** [bytes.Equal]: the same bytes in the same order, a nil slice counting
    as an empty one. *)
Fixpoint sameBytes (a b : list byte) : bool :=
  match a, b with
  | [], [] => true
  | x :: a', y :: b' => Byte.eqb x y && sameBytes a' b'
  | _, _ => false
  end.

Definition bytesEqual (a b : key.bytes) : bool :=
  sameBytes (default [] a) (default [] b).

(** The loop of [Verify] from index [i] on.  The result is the pair that
    [Verify] returns, unless [ksids[i]] is out of range. *)
Fixpoint VerifyFrom (vind : Binary) (ids : list sqltypes.Value)
    (ksids : list key.bytes) (i : nat) (out : list bool)
    : outcome (list bool * option vterrors.error) :=
  match ids with
  | [] => Ok (out, None)
  | id :: rest =>
      match Hash vind id with
      | (_, Some err) => Ok (out, Some err)
      | (idBytes, None) =>
          match ksids !! i with
          | Some ksid =>
              VerifyFrom vind rest ksids (S i)
                         (out ++ [bytesEqual idBytes ksid])
          | None => Panic "index out of range"
          end
      end
  end.

Definition Verify (vind : Binary) (ids : list sqltypes.Value)
    (ksids : list key.bytes)
    : outcome (list bool * option vterrors.error) :=
  VerifyFrom vind ids ksids 0 [].
End binary_go.
End vindexes.

(** ** The engine primitives the planner entry builds or inspects *)

Module engine.

Inductive RouteOpcode :=
| Unsharded | EqualUnique | Equal | IN | MultiEqual | SubShard | Scatter
| Next | DBA | Reference | None_ | ByDestination.

Record Route := mkRoute {
  Opcode : RouteOpcode;
  SysTableTableSchema : list evalengine.Expr;
  SysTableTableName : list (string * evalengine.Expr);
  NoRoutesSpecialHandling : bool;
  Query : string;
}.

Definition set_NoRoutesSpecialHandling (b : bool) (r : Route) : Route :=
  mkRoute (Opcode r) (SysTableTableSchema r) (SysTableTableName r) b (Query r).

Record LockFunc := mkLockFunc {
  Typ : sqlparser.LockingFunc;
  Name : option evalengine.Expr;
}.

Inductive Primitive :=
| PRoute (r : Route)
| PVindexLookup (SendTo : Route)
| PProjection (Exprs : list (option evalengine.Expr)) (Cols : list string)
              (Input : Primitive)
| PSingleRow
| PSQLCalcFoundRows (LimitPrimitive CountPrimitive : Primitive)
| PLock (Keyspace : option vindexes.Keyspace) (TargetDestination : key.ShardDestination)
        (FieldQuery : string) (LockFunctions : list LockFunc)
| POther (descr : string).

End engine.

(** ** go/vt/vtgate/planbuilder/select.go *)

Module planbuilder.
Import sqlparser.

Inductive PlannerVersion := Gen4 | Gen4GreedyOnly | Gen4Left2Right.

(** [*sqlparser.ReservedVars] as [NewReservedVars(prefix, known)] makes it. *)
Record ReservedVars := NewReservedVars {
  rv_prefix : string;
  rv_reserved : gset string;
}.

(** The [plancontext.VSchema] interface, as the answers its methods give
    during one planning call.  A keyspace-and-error result keeps both
    halves, since the callers test them separately. *)
Record VSchema := mkVSchema {
  SelectedKeyspace : option vindexes.Keyspace * option vterrors.error;
  FirstSortedKeyspace : option vindexes.Keyspace * option vterrors.error;
  ConnCollation : N;
  Environment : N;
  (** [Environment().Parser().Parse2] *)
  Parse2 : string -> outcome (Statement * gset string);
}.

(** What [plancontext.CreatePlanningContext] hands back, as far as
    [newBuildSelectPlan] looks into it. *)
Record PlanningContext := mkPlanningContext {
  (** [SemTable.CanTakeSelectUnshardedShortcut()]: [(ks, ok)] *)
  CanTakeSelectUnshardedShortcut : option vindexes.Keyspace;
  (** [SemTable.NotUnshardedErr] *)
  NotUnshardedErr : option vterrors.error;
  ctx_id : N;
}.

Inductive Operator := Op (id : N).

(** A call that may write through the statement pointer it was given:
    it takes the statement as it stands and gives back the statement as it
    leaves it, with its result. *)
Definition onStmt (A : Type) : Type := stateful SelectStatement A.

(** What [sqlparser.RewritePredicate] returns: the node it was given,
    rewritten in place, or another node. *)
Inductive Rewritten :=
| SameNode
| OtherNode (s : Statement).

(** The functions of other packages that select.go calls. *)
Record Collaborators := mkCollaborators {
  (** [evalengine.Translate] *)
  Translate : Expr -> evalengine.Config -> outcome evalengine.Expr;
  (** [sqlparser.String] on an expression and on a select expression *)
  String_Expr : Expr -> string;
  String_SelectExpr : SelectExpr -> string;
  (** [NewTrackedBuffer(FormatImpossibleQuery).WriteNode(sel).String()] *)
  FormatImpossibleQuery : Select -> string;
  (** [SelectExprs.AllAggregation] *)
  AllAggregation : list SelectExpr -> bool;
  (** [sqlparser.RewritePredicate] *)
  RewritePredicate : onStmt Rewritten;
  (** [semantics.Analyze(sel, ksName, vschema)]: the warning of the
      semantic table, or an error *)
  Analyze : string -> onStmt string;
  CreatePlanningContext :
    ReservedVars -> VSchema -> PlannerVersion -> onStmt PlanningContext;
  selectUnshardedShortcut :
    PlanningContext -> vindexes.Keyspace ->
    onStmt (engine.Primitive * list string);
  setCommentDirectivesOnPlan :
    engine.Primitive -> SelectStatement -> engine.Primitive;
  queryRewrite : PlanningContext -> onStmt unit;
  PlanQuery : PlanningContext -> onStmt Operator;
  transformToPrimitive :
    PlanningContext -> Operator -> outcome engine.Primitive;
  (** [operators.TablesUsed] *)
  TablesUsed : Operator -> list string;
}.

Record planResult := newPlanResult {
  primitive : engine.Primitive;
  tables : list string;
}.

Section select_go.
Variable X : Collaborators.
Variable vschema : VSchema.

(** The LIMIT block of [isOnlyDual]: [Some b] is an early [return b],
    [None] is falling through to the test of the table. *)
Definition limitReturns (sel : Select) : option bool :=
  match Limit sel with
  | Some limit =>
      if is_some (Offset limit) then Some false
      else
        match Rowcount limit with
        | None => None
        | Some (Literal _ val) =>
            if (val =? "0")%string then Some false else None
        | Some _ => Some false
        end
  | None => None
  end.

Definition isOnlyDual (sel : Select) : outcome bool :=
  if is_some (Where sel) || is_some (GroupBy sel)
     || is_some (Having sel) || is_some (OrderBy sel)
  then Ok false
  else
    match limitReturns sel with
    | Some b => Ok b
    | None =>
        if (1 <? length (From sel))%nat then Ok false
        else
          match From sel with
          | [] => Panic "index out of range [0] with length 0"
          | AliasedTableExpr (TableName name qualifier) _ :: _ =>
              Ok ((name =? "dual")%string && (qualifier =? "")%string)
          | _ :: _ => Ok false
          end
    end.

Definition shouldRetryAfterPredicateRewriting
    (plan : engine.Primitive) : bool :=
  match plan with
  | engine.PRoute eroute =>
      match engine.Opcode eroute with
      | engine.DBA =>
          (length (engine.SysTableTableName eroute) =? 0)%nat
          && (length (engine.SysTableTableSchema eroute) =? 0)%nat
      | _ => false
      end
  | _ => false
  end.

Definition buildLockingPrimitive (sel : Select)
    (lockFunctions : list engine.LockFunc) : outcome engine.Primitive :=
  match FirstSortedKeyspace vschema with
  | (_, Some err) => Err err
  | (ks, None) =>
      Ok (engine.PLock ks
            (key.DestinationKeyspaceID (Some [x00]))
            (FormatImpossibleQuery X sel)
            lockFunctions)
  end.

Definition translateConfig : evalengine.Config :=
  evalengine.mkConfig (ConnCollation vschema) (Environment vschema).

(** The accumulators of the loop over the columns. *)
Record dualLoop := mkDualLoop {
  exprs : list (option evalengine.Expr);
  cols : list string;
  lockFunctions : list engine.LockFunc;
}.

(** The [engine.LockFunc] made for a locking function: its name
    argument, when it has one, is translated. *)
Definition lockElem (lFunc : LockingFunc) : outcome engine.LockFunc :=
  match lf_Name lFunc with
  | Some name =>
      obind (Translate X name translateConfig)
            (fun n => Ok (engine.mkLockFunc lFunc (Some n)))
  | None => Ok (engine.mkLockFunc lFunc None)
  end.

Definition mixedLockError (expr : SelectExpr) : vterrors.error :=
  vterrors.VT12001
    ("LOCK function and other expression: ["
       ++ String_SelectExpr X expr ++ "] in same select query").

(** The loop of [handleDualSelects] from index [i] on.  [Ok None] is
    the early [return nil, nil]; [Ok (Some _)] is the loop running to
    its end. *)
Fixpoint dualColumns (columns : list SelectExpr) (i : nat)
    (acc : dualLoop) : outcome (option dualLoop) :=
  match columns with
  | [] => Ok (Some acc)
  | AliasedExpr (LockingFuncExpr lFunc) _ :: rest =>
      obind (lockElem lFunc)
        (fun elem =>
           dualColumns rest (S i)
             (mkDualLoop (exprs acc) (cols acc)
                         (lockFunctions acc ++ [elem])))
  | AliasedExpr e alias :: rest =>
      if (0 <? length (lockFunctions acc))%nat
      then Err (mixedLockError (AliasedExpr e alias))
      else
        match Translate X e translateConfig with
        | Ok ee =>
            let col := if (alias =? "")%string then String_Expr X e
                       else alias in
            dualColumns rest (S i)
              (mkDualLoop (<[i := Some ee]> (exprs acc))
                          (<[i := col]> (cols acc))
                          (lockFunctions acc))
        | Err _ => Ok None
        | Panic w => Panic w
        end
  | _ :: _ => Ok None
  end.

Definition handleDualSelects (sel : Select)
    : outcome (option engine.Primitive) :=
  obind (isOnlyDual sel) (fun onlyDual =>
  if negb onlyDual then Ok None
  else
    let columns := GetColumns sel in
    let size := length columns in
    obind (dualColumns columns 0
             (mkDualLoop (replicate size None) (replicate size "") []))
      (fun done =>
         match done with
         | None => Ok None
         | Some acc =>
             if (0 <? length (lockFunctions acc))%nat
             then obind (buildLockingPrimitive sel (lockFunctions acc))
                        (fun p => Ok (Some p))
             else Ok (Some (engine.PProjection (exprs acc) (cols acc)
                                               engine.PSingleRow))
         end)).

Definition createSelectOperator (ctx : PlanningContext)
    : onStmt Operator :=
  do _ <- queryRewrite X ctx;
  PlanQuery X ctx.

(** [newBuildSelectPlan(selStmt, reservedVars, vschema, version)], run
    on the statement [selStmt] points to. *)
Definition newBuildSelectPlan (reservedVars : ReservedVars)
    (version : PlannerVersion) : onStmt (engine.Primitive * list string) :=
  do ctx <- CreatePlanningContext X reservedVars vschema version;
  match CanTakeSelectUnshardedShortcut ctx with
  | Some ks =>
      do ' (plan, tablesUsed) <- selectUnshardedShortcut X ctx ks;
      do selStmt <- sget;
      sret (setCommentDirectivesOnPlan X plan selStmt, tablesUsed)
  | None =>
      match NotUnshardedErr ctx with
      | Some e => sfail e
      | None =>
          do op <- createSelectOperator ctx;
          do plan <- slift (transformToPrimitive X ctx op);
          sret (plan, TablesUsed X op)
      end
  end.

(** [gen4PredicateRewrite(stmt, getPlan)], run on the statement [stmt]
    points to.  [None] is the [nil, nil] return. *)
Definition gen4PredicateRewrite
    (getPlan : onStmt (engine.Primitive * list string))
    : onStmt (option (engine.Primitive * list string)) :=
  let useIfBetter (r : outcome (engine.Primitive * list string)) :=
    match r with
    | Ok (plan2, op) =>
        if negb (shouldRetryAfterPredicateRewriting plan2)
        then sret (Some (plan2, op))
        else sret None
    | Err _ => sret None
    | Panic w => slift (Panic w)
    end in
  do r <- RewritePredicate X;
  match r with
  | SameNode =>
      fun stmt => let (stmt', res) := getPlan stmt in useIfBetter res stmt'
  | OtherNode (StmtSelect rewritten) =>
      useIfBetter (snd (getPlan rewritten))
  | OtherNode (StmtOther _) => sret None
  end.

Definition countStar : SelectExpr := AliasedExpr CountStar "".

(** The count half of the split, from the re-parsed select. *)
Definition countSelect (parsed : Select) : Select :=
  let sel2 :=
    set_Limit None (set_OrderBy None (set_SQLCalcFoundRows false parsed)) in
  if negb (is_some (GroupBy sel2)) && negb (is_some (Having sel2))
  then SetSelectExprs [countStar] sel2
  else mkSelect false [countStar]
         [AliasedTableExpr (DerivedTable (SelectStmt sel2)) "t"]
         None None None None None.

(** [rb.NoRoutesSpecialHandling = true] when the plan is a [*Route]. *)
Definition markRoute (p : engine.Primitive) : engine.Primitive :=
  match p with
  | engine.PRoute rb =>
      engine.PRoute (engine.set_NoRoutesSpecialHandling true rb)
  | _ => p
  end.

(** [buildSQLCalcFoundRowsPlan(originalQuery, sel, reservedVars, vschema)],
    run on the statement [sel] points to. *)
Definition buildSQLCalcFoundRowsPlan (originalQuery : string)
    (reservedVars : ReservedVars)
    : onStmt (engine.Primitive * list string) :=
  do ' (limitPlan, _) <- newBuildSelectPlan reservedVars Gen4;
  do ' (statement2, reserved2) <- slift (Parse2 vschema originalQuery);
  match statement2 with
  | StmtSelect (SelectStmt parsed) =>
      let sel2 := countSelect parsed in
      let reservedVars2 := NewReservedVars "vtg" reserved2 in
      do ' (countPlan, tablesUsed) <-
        slift (snd (newBuildSelectPlan reservedVars2 Gen4 (SelectStmt sel2)));
      sret (engine.PSQLCalcFoundRows limitPlan (markRoute countPlan),
            tablesUsed)
  | _ =>
      slift (Panic "interface conversion: Statement is not *sqlparser.Select")
  end.

(** [gen4planSQLCalcFoundRows], run on the statement [sel] points to.
    The call [vschema.PlannerWarning(semTable.Warning)] only hands the
    warning text to the vschema. *)
Definition gen4planSQLCalcFoundRows (query : string)
    (reservedVars : ReservedVars) : onStmt planResult :=
  let ksName :=
    match fst (SelectedKeyspace vschema) with
    | Some ks => vindexes.Name ks
    | None => ""
    end in
  do _ <- Analyze X ksName;
  do ' (plan, tablesUsed) <- buildSQLCalcFoundRowsPlan query reservedVars;
  sret (newPlanResult plan tablesUsed).

(** The switch that sets [NoRoutesSpecialHandling] on the outermost
    route. *)
Definition markNoRoutes (plan : engine.Primitive) : engine.Primitive :=
  match plan with
  | engine.PRoute prim =>
      engine.PRoute (engine.set_NoRoutesSpecialHandling true prim)
  | engine.PVindexLookup sendTo =>
      engine.PVindexLookup (engine.set_NoRoutesSpecialHandling true sendTo)
  | _ => plan
  end.

(** The name recorded as used by the dual shortcut. *)
Definition dualUsed : outcome string :=
  match SelectedKeyspace vschema with
  | (_, Some _) => Ok "dual"
  | (Some keyspace, None) => Ok (vindexes.Name keyspace ++ ".dual")
  | (None, None) => Panic "nil pointer dereference"
  end.

(** Lines 65 to 99 of [gen4SelectStmtPlanner]: the build, the retry
    after the predicate rewrite and the guard for the empty result.
    Whether [stmt] is a [*Select] does not change during the call, so
    the test of [isSel] reads the statement as it stands then. *)
Definition planWithRetry (plannerVersion : PlannerVersion)
    (reservedVars : ReservedVars) : onStmt planResult :=
  let getPlan := newBuildSelectPlan reservedVars plannerVersion in
  do ' (plan, tablesUsed) <- getPlan;
  do better <-
    (if shouldRetryAfterPredicateRewriting plan
     then gen4PredicateRewrite getPlan
     else sret None);
  match better with
  | Some (prim2, tablesUsed2) => sret (newPlanResult prim2 tablesUsed2)
  | None =>
      do stmt <- sget;
      match stmt with
      | UnionStmt _ _ => sret (newPlanResult plan tablesUsed)
      | SelectStmt sel =>
          do onlyDual <- slift (isOnlyDual sel);
          if onlyDual
             || (negb (is_some (GroupBy sel))
                 && AllAggregation X (SelectExprs sel))
          then sret (newPlanResult (markNoRoutes plan) tablesUsed)
          else sret (newPlanResult plan tablesUsed)
      end
  end.

(** [gen4SelectStmtPlanner(query, plannerVersion, stmt, reservedVars,
    vschema)], run on the statement [stmt] points to: the result comes
    with the caller's statement as the call leaves it. *)
Definition gen4SelectStmtPlanner (query : string)
    (plannerVersion : PlannerVersion) (reservedVars : ReservedVars)
    : onStmt planResult :=
  fun stmt =>
    match stmt with
    | SelectStmt sel =>
        match handleDualSelects sel with
        | Err err => (stmt, Err err)
        | Panic w => (stmt, Panic w)
        | Ok (Some p) =>
            (stmt, obind dualUsed (fun used => Ok (newPlanResult p [used])))
        | Ok None =>
            if SQLCalcFoundRows sel && is_some (Limit sel)
            then gen4planSQLCalcFoundRows query reservedVars stmt
            else planWithRetry plannerVersion reservedVars
                   (SelectStmt (set_SQLCalcFoundRows false sel))
        end
    | UnionStmt _ _ => planWithRetry plannerVersion reservedVars stmt
    end.

End select_go.
End planbuilder.

(** ** go/vt/vttablet/tabletserver/stateful_connection.go *)

Module callerid.
Record CallerID := mkCallerID {
  Principal : string;
  Component : string;
  Subcomponent : string;
}.

Record VTGateCallerID := mkVTGateCallerID {
  Username : string;
  Groups : list string;
}.

(** Modelled from the spec: the getters of package callerid are not among
    the sources; the spec reads them as "principal of EffectiveCaller if
    non-empty, else username of ImmediateCaller", an absent caller id
    giving the empty name. *)
Definition GetPrincipal (ef : option CallerID) : string :=
  match ef with Some c => Principal c | None => "" end.
Definition GetUsername (im : option VTGateCallerID) : string :=
  match im with Some c => Username c | None => "" end.
End callerid.

Module tabletserver.

Definition ConnID := Z.
(** [time.Time] and [time.Duration] in nanoseconds. *)
Definition Time := Z.
Definition Duration := Z.

(** [context.Context], as far as the connection reads it. *)
Record Context := mkContext {
  Done : bool;
  ImmediateCallerIDFromContext : option callerid.VTGateCallerID;
  EffectiveCallerIDFromContext : option callerid.CallerID;
}.

(** [*smartconnpool.Setting], compared by address. *)
Definition Setting := option N.

(** [tx.Properties], the fields read here. *)
Record tx_Properties := mk_tx_Properties {
  tx_EffectiveCaller : option callerid.CallerID;
  tx_ImmediateCaller : option callerid.VTGateCallerID;
  tx_StartTime : Time;
  tx_EndTime : Time;
  Conclusion : string;
}.

(** [*servenv.TimingsWrapper], by name. *)
Definition TimingsWrapper := string.

Record Properties := mkProperties {
  EffectiveCaller : option callerid.CallerID;
  ImmediateCaller : option callerid.VTGateCallerID;
  StartTime : Time;
  Stats : TimingsWrapper;
}.

(** [*connpool.PooledConn]: what the backend connection answers. *)
Record PooledConn := mkPooledConn {
  conn_IsClosed : bool;
  conn_Setting : Setting;
  conn_ID : Z;
  conn_Current : string;
  conn_IsUnixSocket : bool;
  conn_Tainted : bool;
}.

Record StatefulConnection := mkStatefulConnection {
  (** [pool] is present or nil; the pool itself is seen through the calls
      made to it. *)
  pool : bool;
  dbConn : option PooledConn;
  ConnID_ : ConnID;
  (** [env.Config().SkipUserMetrics]; the counters of [env.Stats()] are
      in the [World] below *)
  SkipUserMetrics : bool;
  txProps : option tx_Properties;
  reservedProps : option Properties;
  tainted : bool;
  enforceTimeout : bool;
  timeout : Duration;
  expiryTime : Time;
}.

(** [tabletenv.Stats], the three reserved-connection counters. *)
Record StatsT := mkStats {
  UserActiveReservedCount : gmap string Z;
  UserReservedCount : gmap string Z;
  UserReservedTimesNs : gmap string Z;
}.

(** [CountersWithSingleLabel.Add(name, value)]. *)
Definition Add (c : gmap string Z) (label : string) (value : Z)
    : gmap string Z :=
  <[label := (default 0 (c !! label) + value)%Z]> c.

(** Calls that leave the connection object. *)
Inductive Call :=
| unregister (id : ConnID) (reason : string)
| markAsNotInUse (id : ConnID) (updateTime : bool)
| Recycle (c : PooledConn)
| CheckMySQL
| TimingsRecord (w : TimingsWrapper) (name : string) (start : Time).

(** The connection with what it shares with its surroundings. *)
Record World := mkWorld {
  sc : StatefulConnection;
  stats : StatsT;
  calls : list Call;
}.

Definition conn (A : Type) : Type := stateful World A.

Definition setConn (f : StatefulConnection -> StatefulConnection)
    : conn unit :=
  fun w => (mkWorld (f (sc w)) (stats w) (calls w), Ok tt).
Definition setStats (f : StatsT -> StatsT) : conn unit :=
  fun w => (mkWorld (sc w) (f (stats w)) (calls w), Ok tt).
Definition call (c : Call) : conn unit :=
  fun w => (mkWorld (sc w) (stats w) (calls w ++ [c]), Ok tt).
Definition getConn : conn StatefulConnection := fun w => (w, Ok (sc w)).

Definition set_dbConn (d : option PooledConn) (s : StatefulConnection) :=
  mkStatefulConnection (pool s) d (ConnID_ s) (SkipUserMetrics s)
    (txProps s) (reservedProps s) (tainted s) (enforceTimeout s)
    (timeout s) (expiryTime s).
Definition set_txProps (t : option tx_Properties) (s : StatefulConnection) :=
  mkStatefulConnection (pool s) (dbConn s) (ConnID_ s) (SkipUserMetrics s)
    t (reservedProps s) (tainted s) (enforceTimeout s)
    (timeout s) (expiryTime s).
Definition set_reserved (t : bool) (p : option Properties)
    (s : StatefulConnection) :=
  mkStatefulConnection (pool s) (dbConn s) (ConnID_ s) (SkipUserMetrics s)
    (txProps s) p t (enforceTimeout s) (timeout s) (expiryTime s).
Definition set_timeout (d : Duration) (e : Time) (s : StatefulConnection) :=
  mkStatefulConnection (pool s) (dbConn s) (ConnID_ s) (SkipUserMetrics s)
    (txProps s) (reservedProps s) (tainted s) (enforceTimeout s) d e.

Definition set_conn_IsClosed (b : bool) (c : PooledConn) :=
  mkPooledConn b (conn_Setting c) (conn_ID c) (conn_Current c)
    (conn_IsUnixSocket c) (conn_Tainted c).
Definition set_conn_Tainted (b : bool) (c : PooledConn) :=
  mkPooledConn (conn_IsClosed c) (conn_Setting c) (conn_ID c)
    (conn_Current c) (conn_IsUnixSocket c) b.

Definition set_UserActiveReservedCount (m : gmap string Z) (s : StatsT) :=
  mkStats m (UserReservedCount s) (UserReservedTimesNs s).
Definition set_UserReservedCount (m : gmap string Z) (s : StatsT) :=
  mkStats (UserActiveReservedCount s) m (UserReservedTimesNs s).
Definition set_UserReservedTimesNs (m : gmap string Z) (s : StatsT) :=
  mkStats (UserActiveReservedCount s) (UserReservedCount s) m.

Definition nilDeref : string :=
  "invalid memory address or nil pointer dereference".

(** The result of a query, as the backend gives it. *)
Record Result := mkResult {
  Rows : list (list sqltypes.Value);
  SessionStateChanges : string;
}.

(** The backend connection and the pool, which the file calls and does
    not define.  A call on the backend gives the backend connection as it
    leaves it. *)
Record Backend := mkBackend {
  ExecOnce : Context -> string -> Z -> bool -> PooledConn ->
             PooledConn * outcome Result;
  Exec_ : Context -> string -> Z -> bool -> PooledConn ->
          PooledConn * outcome Result;
  FetchNext_ : Context -> Z -> bool -> PooledConn ->
               PooledConn * outcome Result;
  Kill_ : string -> Duration -> PooledConn ->
          PooledConn * option vterrors.error;
  ApplySetting_ : Context -> Setting -> PooledConn ->
                  PooledConn * option vterrors.error;
  (** [sqlerror.IsConnErr] *)
  IsConnErr : vterrors.error -> bool;
  (** [pool.renewConn(sc)]: the connection as renewed, or an error *)
  renewConn : StatefulConnection ->
              StatefulConnection * option vterrors.error;
}.

Section stateful_connection_go.
Variable B : Backend.
(** The label constant, declared elsewhere in the package. *)
Variable userLabelDisabled : string.

(** [dbConn.Close()] closes the backend connection. *)
Definition Close : conn unit :=
  do s <- getConn;
  match dbConn s with
  | Some c => setConn (set_dbConn (Some (set_conn_IsClosed true c)))
  | None => sret tt
  end.

Definition IsClosed (s : StatefulConnection) : bool :=
  match dbConn s with
  | None => true
  | Some c => conn_IsClosed c
  end.

Definition IsInTransaction (s : StatefulConnection) : bool :=
  is_some (txProps s).

Definition ElapsedTimeout (now : Time) (s : StatefulConnection) : bool :=
  if negb (enforceTimeout s) then false
  else if (timeout s <=? 0)%Z then false
  else (expiryTime s <? now)%Z.

Definition Exec (ctx : Context) (query : string) (maxrows : Z)
    (wantfields : bool) : conn Result :=
  do s <- getConn;
  if IsClosed s then
    if IsInTransaction s then
      match txProps s with
      | Some tp =>
          sfail (vterrors.New vtrpcpb.Code_ABORTED
                   ("transaction was aborted: " ++ Conclusion tp))
      | None => spanic nilDeref
      end
    else
      sfail (vterrors.New vtrpcpb.Code_ABORTED "connection was aborted")
  else
    match dbConn s with
    | None => spanic nilDeref
    | Some c =>
        let (c', r) := ExecOnce B ctx query maxrows wantfields c in
        do _ <- setConn (set_dbConn (Some c'));
        match r with
        | Ok res => sret res
        | Err err =>
            if IsConnErr B err
            then do _ <- (if Done ctx then sret tt else call CheckMySQL);
                 sfail err
            else sfail err
        | Panic w => spanic w
        end
    end.

Definition execWithRetry (ctx : Context) (query : string) (maxrows : Z)
    (wantfields : bool) : conn string :=
  do s <- getConn;
  if IsClosed s then
    sfail (vterrors.New vtrpcpb.Code_CANCELED "connection is closed")
  else
    match dbConn s with
    | None => spanic nilDeref
    | Some c =>
        let (c', r) := Exec_ B ctx query maxrows wantfields c in
        do _ <- setConn (set_dbConn (Some c'));
        do res <- slift r;
        sret (SessionStateChanges res)
    end.

Definition FetchNext (ctx : Context) (maxrows : Z) (wantfields : bool)
    : conn Result :=
  do s <- getConn;
  if IsClosed s then
    sfail (vterrors.New vtrpcpb.Code_CANCELED "connection is closed")
  else
    match dbConn s with
    | None => spanic nilDeref
    | Some c =>
        let (c', r) := FetchNext_ B ctx maxrows wantfields c in
        do _ <- setConn (set_dbConn (Some c'));
        slift r
    end.

Definition getUsername : conn string :=
  do s <- getConn;
  match reservedProps s with
  | None => spanic nilDeref
  | Some rp =>
      let username := callerid.GetPrincipal (EffectiveCaller rp) in
      if negb (username =? "")%string then sret username
      else sret (callerid.GetUsername (ImmediateCaller rp))
  end.

(** [logReservedConn(reason)]; [now] is the clock [time.Since] reads. *)
Definition logReservedConn (reason : string) (now : Time) : conn unit :=
  do s <- getConn;
  match reservedProps s with
  | None => sret tt
  | Some rp =>
      do _ <- call (TimingsRecord (Stats rp) reason (StartTime rp));
      if SkipUserMetrics s then
        setStats (fun st =>
          set_UserActiveReservedCount
            (Add (UserActiveReservedCount st) userLabelDisabled (-1)) st)
      else
        do username <- getUsername;
        do _ <- setStats (fun st =>
          set_UserActiveReservedCount
            (Add (UserActiveReservedCount st) username (-1)) st);
        do _ <- setStats (fun st =>
          set_UserReservedCount (Add (UserReservedCount st) username 1) st);
        setStats (fun st =>
          set_UserReservedTimesNs
            (Add (UserReservedTimesNs st) username (now - StartTime rp)) st)
  end.

Definition ReleaseString (reason : string) (now : Time) : conn unit :=
  do s <- getConn;
  match dbConn s with
  | None => sret tt
  | Some c =>
      do _ <- (if pool s then call (unregister (ConnID_ s) reason)
               else sret tt);
      do _ <- call (Recycle c);
      do _ <- setConn (set_dbConn None);
      logReservedConn reason now
  end.

(** [tx.ReleaseReason], by the text [String()] gives. *)
Definition Release (reasonString : string) (now : Time) : conn unit :=
  ReleaseString reasonString now.

(** [Releasef], with the reason already formatted. *)
Definition Releasef (formatted : string) (now : Time) : conn unit :=
  ReleaseString formatted now.

(** A call through [sc.pool] needs the pool. *)
Definition unlock (updateTime : bool) (now : Time) : conn unit :=
  do s <- getConn;
  match dbConn s with
  | None => sret tt
  | Some c =>
      if conn_IsClosed c then ReleaseString "unlocked closed connection" now
      else if pool s then call (markAsNotInUse (ConnID_ s) updateTime)
      else spanic nilDeref
  end.

Definition Unlock (now : Time) : conn unit :=
  do s <- getConn;
  let updateTime := negb (IsInTransaction s) in
  unlock updateTime now.

Definition UnlockUpdateTime (now : Time) : conn unit :=
  unlock true now.

Definition Renew : conn unit :=
  do s <- getConn;
  if negb (pool s) then spanic nilDeref
  else
    let (s', err) := renewConn B s in
    do _ <- setConn (fun _ => s');
    match err with
    | Some e =>
        do _ <- Close;
        sfail (vterrors.Wrap e "connection renew failed")
    | None => sret tt
    end.

Definition Current : conn string :=
  do s <- getConn;
  match dbConn s with
  | None => spanic nilDeref
  | Some c => sret (conn_Current c)
  end.

Definition ID : conn Z :=
  do s <- getConn;
  match dbConn s with
  | None => spanic nilDeref
  | Some c => sret (conn_ID c)
  end.

Definition Kill (reason : string) (elapsed : Duration) : conn unit :=
  do s <- getConn;
  match dbConn s with
  | None => spanic nilDeref
  | Some c =>
      let (c', err) := Kill_ B reason elapsed c in
      do _ <- setConn (set_dbConn (Some c'));
      match err with
      | Some e => sfail e
      | None => sret tt
      end
  end.

Definition TxProperties (s : StatefulConnection) : option tx_Properties :=
  txProps s.
Definition ReservedID (s : StatefulConnection) : ConnID := ConnID_ s.
Definition UnderlyingDBConn (s : StatefulConnection) : option PooledConn :=
  dbConn s.
Definition IsTainted (s : StatefulConnection) : bool := tainted s.

Definition CleanTxState : conn unit := setConn (set_txProps None).

(** [Taint(ctx, stats)]; [now] is the clock [time.Now] reads. *)
Definition Taint (ctx : Context) (stats : TimingsWrapper) (now : Time)
    : conn unit :=
  do s <- getConn;
  match dbConn s with
  | None =>
      sfail (vterrors.New vtrpcpb.Code_FAILED_PRECONDITION
               "connection is closed")
  | Some c =>
      if tainted s then
        sfail (vterrors.New vtrpcpb.Code_FAILED_PRECONDITION
                 "connection is already reserved")
      else
        let immediateCaller := ImmediateCallerIDFromContext ctx in
        let effectiveCaller := EffectiveCallerIDFromContext ctx in
        do _ <- setConn (set_reserved true
                  (Some (mkProperties effectiveCaller immediateCaller
                                      now stats)));
        do _ <- setConn (set_dbConn (Some (set_conn_Tainted true c)));
        if SkipUserMetrics s then
          setStats (fun st =>
            set_UserActiveReservedCount
              (Add (UserActiveReservedCount st) userLabelDisabled 1) st)
        else
          do username <- getUsername;
          setStats (fun st =>
            set_UserActiveReservedCount
              (Add (UserActiveReservedCount st) username 1) st)
  end.

Definition resetExpiryTime (now : Time) : conn unit :=
  setConn (fun s => set_timeout (timeout s) (now + timeout s)%Z s).

Definition SetTimeout (d : Duration) (now : Time) : conn unit :=
  do _ <- setConn (fun s => set_timeout d (expiryTime s) s);
  resetExpiryTime now.

(** [ApplySetting] returns its flag together with the error. *)
Definition ApplySetting (ctx : Context) (setting : Setting)
    : conn (bool * option vterrors.error) :=
  do s <- getConn;
  match dbConn s with
  | None => spanic nilDeref
  | Some c =>
      if bool_decide (conn_Setting c = setting) then sret (false, None)
      else
        let (c', err) := ApplySetting_ B ctx setting c in
        do _ <- setConn (set_dbConn (Some c'));
        sret (true, err)
  end.

Definition IsUnixSocket : conn bool :=
  do s <- getConn;
  match dbConn s with
  | None => spanic nilDeref
  | Some c => sret (conn_IsUnixSocket c)
  end.

End stateful_connection_go.

End tabletserver.

(** ** A small instance of the collaborators, for running the planner *)

Module demo.
Import sqlparser planbuilder.

Definition mainKs : vindexes.Keyspace := vindexes.mkKeyspace "main" true.

Definition tableT : TableExpr SelectStatement :=
  AliasedTableExpr (TableName "t" "") "".

Definition limit10 : LimitT := mkLimit None (Some (Literal IntVal "10")).

(** [SELECT a FROM t], with or without the directive and a limit. *)
Definition selectA (calc : bool) (limit : option LimitT) : Select :=
  mkSelect calc [AliasedExpr (ColName "a") ""] [tableT]
           None None None None limit.

Definition foundRowsQuery : string :=
  "select sql_calc_found_rows a from t limit 10".

Definition parse (q : string) : outcome (Statement * gset string) :=
  if (q =? foundRowsQuery)%string
  then Ok (StmtSelect (SelectStmt (selectA true (Some limit10))), ∅)
  else Err (vterrors.Foreign "syntax error").

Definition vschema : VSchema :=
  mkVSchema (Some mainKs, None) (Some mainKs, None) 255 0 parse.

Definition translate (e : Expr) (cfg : evalengine.Config)
    : outcome evalengine.Expr :=
  match e with
  | Literal _ v => Ok (evalengine.Compiled (N.of_nat (String.length v)))
  | ColName _ => Err (vterrors.Foreign "column outside of a table")
  | _ => Ok (evalengine.Compiled 0)
  end.

Definition printExpr (e : Expr) : string :=
  match e with
  | Literal _ v => v
  | Argument n => ":" ++ n
  | ColName n => n
  | CountStar => "count(*)"
  | LockingFuncExpr _ => "lock()"
  | FuncExpr n _ => n ++ "()"
  end.

Definition printSelectExpr (e : SelectExpr) : string :=
  match e with
  | AliasedExpr e "" => printExpr e
  | AliasedExpr e a => printExpr e ++ " as " ++ a
  | StarExpr _ => "*"
  | Nextval _ => "next value"
  end.

Definition allAggregation (es : list SelectExpr) : bool :=
  forallb (fun e => match e with
                    | AliasedExpr CountStar _ => true
                    | _ => false
                    end) es.

(** The statement with its WHERE clause marked as normalised. *)
Definition markWhere (st : SelectStatement) : SelectStatement :=
  match st with
  | SelectStmt sel =>
      SelectStmt
        (mkSelect (SQLCalcFoundRows sel) (SelectExprs sel) (From sel)
           (match Where sel with
            | Some w => Some (FuncExpr "cnf" [w])
            | None => None
            end)
           (GroupBy sel) (Having sel) (OrderBy sel) (Limit sel))
  | UnionStmt _ _ => st
  end.

(** A rewrite that works in place, and one that returns a copy. *)
Definition rewriteInPlace : onStmt Rewritten :=
  fun st => (markWhere st, Ok SameNode).
Definition rewriteCopy : onStmt Rewritten :=
  fun st => (st, Ok (OtherNode (StmtSelect (markWhere st)))).

(** Operator 0 scatters; operator 1 is a system-table query whose filters
    were not found; operator 2 is one whose table name was found. *)
Definition planQuery (ctx : PlanningContext) : onStmt Operator :=
  fun st =>
    (st,
     Ok (Op (match st with
             | SelectStmt sel =>
                 match Where sel with
                 | Some (FuncExpr name _) =>
                     if (name =? "cnf")%string then 2 else 1
                 | Some _ => 1
                 | None => 0
                 end
             | UnionStmt _ _ => 0
             end))).

Definition transform (ctx : PlanningContext) (op : Operator)
    : outcome engine.Primitive :=
  match op with
  | Op 1 => Ok (engine.PRoute (engine.mkRoute engine.DBA [] [] false "is"))
  | Op 2 =>
      Ok (engine.PRoute
            (engine.mkRoute engine.DBA []
               [("table_name", evalengine.Compiled 1)] false "is"))
  | Op _ =>
      Ok (engine.PRoute (engine.mkRoute engine.Scatter [] [] false "scatter"))
  end.

Definition collaborators (rewrite : onStmt Rewritten) : Collaborators :=
  mkCollaborators translate printExpr printSelectExpr
    (fun _ => "select 1 from dual where 1 != 1")
    allAggregation rewrite
    (fun _ => sret "")
    (fun _ _ _ => sret (mkPlanningContext None None 0))
    (fun _ _ => sfail (vterrors.Foreign "no unsharded shortcut"))
    (fun plan _ => plan)
    (fun _ => sret tt)
    planQuery transform
    (fun _ => ["main.t"]).

(** [SELECT a FROM t WHERE b], which the demo build takes for a query on
    the system tables. *)
Definition selectWhere : Select :=
  mkSelect false [AliasedExpr (ColName "a") ""] [tableT]
           (Some (ColName "b")) None None None None.

Definition X : Collaborators := collaborators rewriteInPlace.
Definition Xcopy : Collaborators := collaborators rewriteCopy.

Definition reservedVars : ReservedVars := NewReservedVars "vtg" ∅.

(** [GET_LOCK('x', 0)] and [SELECT 1, GET_LOCK('x', 0) FROM dual]. *)
Definition getLockX : LockingFunc :=
  mkLockingFunc GetLock (Some (Literal StrVal "x"))
                (Some (Literal IntVal "0")).

Definition selectOneThenLock : Select :=
  mkSelect false
    [AliasedExpr (Literal IntVal "1") "";
     AliasedExpr (LockingFuncExpr getLockX) ""]
    [AliasedTableExpr (TableName "dual" "") ""]
    None None None None None.

Definition scatter (flag : bool) : engine.Primitive :=
  engine.PRoute (engine.mkRoute engine.Scatter [] [] flag "scatter").

End demo.

(** ** Vocabulary of the statements below *)

Module vocabulary.
Import sqlparser planbuilder.

(** A select with nothing but a select-list, the table [dual] and the
    given limit. *)
Definition dualSelect (exprs : list SelectExpr) (alias : string)
    (limit : option LimitT) : Select :=
  mkSelect false exprs [AliasedTableExpr (TableName "dual" "") alias]
           None None None None limit.

(** The statement [getPlan] is run on for the retry. *)
Definition retryTarget (afterRewrite : SelectStatement) (r : Rewritten)
    : option SelectStatement :=
  match r with
  | SameNode => Some afterRewrite
  | OtherNode (StmtSelect rewritten) => Some rewritten
  | OtherNode (StmtOther _) => None
  end.


Definition isLockingFunc (e : Expr) : bool :=
  match e with
  | LockingFuncExpr _ => true
  | _ => false
  end.

(** A column that is an aliased expression, and one that is an aliased
    locking function. *)
Definition plainColumn (c : Expr * string) : SelectExpr :=
  AliasedExpr (fst c) (snd c).
Definition lockColumn (c : LockingFunc * string) : SelectExpr :=
  AliasedExpr (LockingFuncExpr (fst c)) (snd c).

(** A call that leaves the state it runs on as it found it. *)
Definition keeps {S A} (m : stateful S A) : Prop :=
  forall st, fst (m st) = st.

(** Collaborators that do not write to the statement they are given. *)
Record readOnly (X : Collaborators) : Prop := mkReadOnly {
  ro_RewritePredicate : keeps (RewritePredicate X);
  ro_Analyze : forall ks, keeps (Analyze X ks);
  ro_CreatePlanningContext :
    forall rv vs ver, keeps (CreatePlanningContext X rv vs ver);
  ro_selectUnshardedShortcut :
    forall ctx ks, keeps (selectUnshardedShortcut X ctx ks);
  ro_queryRewrite : forall ctx, keeps (queryRewrite X ctx);
  ro_PlanQuery : forall ctx, keeps (PlanQuery X ctx);
}.

End vocabulary.
Import vocabulary.

(** ** A small instance of a connection and its backend *)

Module demoConn.
Import tabletserver.

Definition liveConn : PooledConn :=
  mkPooledConn false None 7%Z "" false false.

(** A backend on which every call succeeds. *)
Definition backend : Backend :=
  mkBackend
    (fun _ _ _ _ c => (c, Ok (mkResult [] "")))
    (fun _ _ _ _ c => (c, Ok (mkResult [] "")))
    (fun _ _ _ c => (c, Ok (mkResult [] "")))
    (fun _ _ c => (set_conn_IsClosed true c, None))
    (fun _ setting c =>
       (mkPooledConn (conn_IsClosed c) setting (conn_ID c) (conn_Current c)
                     (conn_IsUnixSocket c) (conn_Tainted c), None))
    (fun _ => false)
    (fun s => (s, None)).

Definition userLabelDisabled : string := "UserLabelDisabled".

(** A connection in use, registered with its pool, with no transaction and
    not reserved. *)
Definition connection (skipUserMetrics : bool) : StatefulConnection :=
  mkStatefulConnection true (Some liveConn) 42%Z skipUserMetrics
                       None None false false 0%Z 0%Z.

Definition world (skipUserMetrics : bool) : World :=
  mkWorld (connection skipUserMetrics) (mkStats ∅ ∅ ∅) [].

Definition ctx : Context :=
  mkContext false (Some (callerid.mkVTGateCallerID "alice" []))
            (Some (callerid.mkCallerID "bob" "" "")).

End demoConn.

(** ** Vocabulary of the statements on connections *)

Module connVocabulary.
Import tabletserver.

(** The user of a set of properties: the principal of the effective caller
    when it has one, else the username of the immediate caller. *)
Definition userOf (p : Properties) : string :=
  if negb (callerid.GetPrincipal (EffectiveCaller p) =? "")%string
  then callerid.GetPrincipal (EffectiveCaller p)
  else callerid.GetUsername (ImmediateCaller p).

(** The label the reserved-connection counters are kept under. *)
Definition reservedLabel (userLabelDisabled : string)
    (s : StatefulConnection) (p : Properties) : string :=
  if SkipUserMetrics s then userLabelDisabled else userOf p.

(** The calls a release makes, in order. *)
Definition releaseCalls (reason : string) (c : PooledConn)
    (s : StatefulConnection) : list Call :=
  ((if pool s then [unregister (ConnID_ s) reason] else [])
     ++ [Recycle c]
     ++ match reservedProps s with
        | Some rp => [TimingsRecord (Stats rp) reason (StartTime rp)]
        | None => []
        end)%list.

Definition isUnregister (id : ConnID) (c : Call) : bool :=
  match c with
  | unregister id' _ => (id' =? id)%Z
  | _ => false
  end.

(** How often [unregister] was called for a connection id. *)
Definition unregisterCount (id : ConnID) (cs : list Call) : nat :=
  length (List.filter (isUnregister id) cs).

(** The counters after a release of a connection [s]. *)
Definition releasedStats (userLabelDisabled : string) (now : Time)
    (s : StatefulConnection) (st : StatsT) : StatsT :=
  match reservedProps s with
  | None => st
  | Some rp =>
      if SkipUserMetrics s
      then mkStats (Add (UserActiveReservedCount st) userLabelDisabled (-1))
                   (UserReservedCount st) (UserReservedTimesNs st)
      else mkStats (Add (UserActiveReservedCount st) (userOf rp) (-1))
                   (Add (UserReservedCount st) (userOf rp) 1)
                   (Add (UserReservedTimesNs st) (userOf rp)
                        (now - StartTime rp))
  end.

(** A counter read at a label; a label never added to reads 0. *)
Definition valueAt (c : gmap string Z) (label : string) : Z :=
  default 0%Z (c !! label).

End connVocabulary.
Import connVocabulary.

(** ** A few values for running the Binary vindex *)

Module demoBinary.
Definition vindex : vindexes.Binary := vindexes.mkBinary "binary" [].
Definition valueA : sqltypes.Value :=
  sqltypes.mkValue sqltypes.VarBinary (Some [x61]).
Definition valueB : sqltypes.Value :=
  sqltypes.mkValue sqltypes.Int64 (Some [x31; x32]).
(** A value that has no bytes to give. *)
Definition expression : sqltypes.Value :=
  sqltypes.mkValue sqltypes.Expression (Some [x3f]).
Definition noBytes : vterrors.error :=
  vterrors.New vtrpcpb.Code_INVALID_ARGUMENT
               "expression cannot be converted to bytes".
End demoBinary.

(** ** Further vocabulary for the planner *)

Module planVocabulary.
Import sqlparser planbuilder.

(** A LIMIT clause with which a select on dual still returns its row, as
    [isOnlyDual] sees it: no clause, or no offset and a rowcount that is
    absent or a literal other than "0". *)
Definition limitKeepsRow (limit : option LimitT) : Prop :=
  limit = None
  \/ exists lim, limit = Some lim /\ Offset lim = None
       /\ (Rowcount lim = None
           \/ exists t v, Rowcount lim = Some (Literal t v) /\ v <> "0").

(** The name of a projected column: its alias, or the printed expression
    when it has none. *)
Definition columnName (X : Collaborators) (c : Expr * string) : string :=
  if (snd c =? "")%string then String_Expr X (fst c) else snd c.

(** [SELECT count( * ) FROM t WHERE b]. *)
Definition selectCountWhere : Select :=
  mkSelect false [AliasedExpr CountStar ""] [demo.tableT]
           (Some (ColName "b")) None None None None.

(** [SELECT 1, 'ab' AS two FROM dual], [SELECT 1, a, GET_LOCK('x', 0) FROM
    dual] and [SELECT GET_LOCK('x', 0), 1 FROM dual]. *)
Definition selectTwoConstants : Select :=
  dualSelect [AliasedExpr (Literal IntVal "1") "";
              AliasedExpr (Literal StrVal "ab") "two"] "" None.
Definition selectWithColumn : Select :=
  dualSelect [AliasedExpr (Literal IntVal "1") "";
              AliasedExpr (ColName "a") "";
              AliasedExpr (LockingFuncExpr demo.getLockX) ""] "" None.
Definition selectLockThenOne : Select :=
  dualSelect [AliasedExpr (LockingFuncExpr demo.getLockX) "";
              AliasedExpr (Literal IntVal "1") ""] "" None.

(** The demo collaborators with a transformation step that fails. *)
Definition cannotTransform : vterrors.error :=
  vterrors.Foreign "cannot transform the operator".
Definition failingX : Collaborators :=
  mkCollaborators (Translate demo.X) (String_Expr demo.X)
    (String_SelectExpr demo.X) (FormatImpossibleQuery demo.X)
    (AllAggregation demo.X) (RewritePredicate demo.X) (Analyze demo.X)
    (CreatePlanningContext demo.X) (selectUnshardedShortcut demo.X)
    (setCommentDirectivesOnPlan demo.X) (queryRewrite demo.X)
    (PlanQuery demo.X) (fun _ _ => Err cannotTransform) (TablesUsed demo.X).


(** [SELECT a, GET_LOCK('x', 0) FROM dual]: the column [a] does not
    translate. *)
Definition selectColumnThenLock : Select :=
  dualSelect [AliasedExpr (ColName "a") "";
              AliasedExpr (LockingFuncExpr demo.getLockX) ""] "" None.

(** [SELECT count( * ) FROM t]. *)
Definition selectCount : Select :=
  mkSelect false [AliasedExpr CountStar ""] [demo.tableT]
           None None None None None.

End planVocabulary.
Import planVocabulary.

(** ** The log of a transaction *)

Module txlog.
Import tabletserver.

(** What [LogTransaction] hands out, in order: the time added to the
    timings of the transaction ([txProps.Stats], taken to be present), the
    additions to the two transaction counters of [tabletenv.Stats], each
    with the labels and the value it is given, and the connection sent to
    [tabletenv.TxLogger], as it stands when it is sent.  What the counters
    make of their labels is theirs. *)
Inductive TxEvent :=
| TimingsAdd (name : string) (duration : Duration)
| UserTransactionCountAdd (names : list string) (value : Z)
| UserTransactionTimesNsAdd (names : list string) (value : Z)
| TxLoggerSend (s : StatefulConnection).

Record TxWorld := mkTxWorld {
  txConn : StatefulConnection;
  events : list TxEvent;
}.

Definition set_Conclusion (endTime : Time) (conclusion : string)
    (tp : tx_Properties) : tx_Properties :=
  mk_tx_Properties (tx_EffectiveCaller tp) (tx_ImmediateCaller tp)
                   (tx_StartTime tp) endTime conclusion.

(** [LogTransaction(reason)], with the reason by the text [Name()] gives;
    [now] is the clock [time.Now] reads. *)
Definition LogTransaction (reasonName : string) (now : Time)
    (w : TxWorld) : TxWorld :=
  match txProps (txConn w) with
  | None => w
  | Some tp =>
      let tp' := set_Conclusion now reasonName tp in
      let s' := set_txProps (Some tp') (txConn w) in
      let username :=
        if (callerid.GetPrincipal (tx_EffectiveCaller tp') =? "")%string
        then callerid.GetUsername (tx_ImmediateCaller tp')
        else callerid.GetPrincipal (tx_EffectiveCaller tp') in
      let duration := (tx_EndTime tp' - tx_StartTime tp')%Z in
      mkTxWorld s'
        (events w
         ++ [TimingsAdd reasonName duration]
         ++ (if negb (SkipUserMetrics s')
             then [UserTransactionCountAdd [username; reasonName] 1;
                   UserTransactionTimesNsAdd [username; reasonName] duration]
             else [])
         ++ [TxLoggerSend s'])%list
  end.

(** The user a transaction is counted under. *)
Definition txUser (tp : tx_Properties) : string :=
  if (callerid.GetPrincipal (tx_EffectiveCaller tp) =? "")%string
  then callerid.GetUsername (tx_ImmediateCaller tp)
  else callerid.GetPrincipal (tx_EffectiveCaller tp).

(** A connection with a transaction of bob's, begun at time 10. *)
Definition bobsTx : tx_Properties :=
  mk_tx_Properties (Some (callerid.mkCallerID "bob" "" ""))
                   (Some (callerid.mkVTGateCallerID "alice" []))
                   10%Z 0%Z "".
Definition inTx : TxWorld :=
  mkTxWorld (set_txProps (Some bobsTx) (demoConn.connection false)) [].

End txlog.
Import txlog.

(** ** Sequences of operations on a connection *)

Module lifecycle.
Import tabletserver.

(** One call of a method that writes to the connection or reaches beyond
    it ([Release] and [Releasef] go through [ReleaseString]).  [Renew] is
    left out: what it does to the connection is the pool's [renewConn],
    which is not in this file. *)
Inductive Op :=
| DoExec (ctx : Context) (query : string) (maxrows : Z) (wantfields : bool)
| DoExecWithRetry (ctx : Context) (query : string) (maxrows : Z)
                  (wantfields : bool)
| DoFetchNext (ctx : Context) (maxrows : Z) (wantfields : bool)
| DoUnlock (now : Time)
| DoUnlockUpdateTime (now : Time)
| DoRelease (reason : string) (now : Time)
| DoClose
| DoKill (reason : string) (elapsed : Duration)
| DoTaint (ctx : Context) (stats : TimingsWrapper) (now : Time)
| DoCleanTxState
| DoSetTimeout (d : Duration) (now : Time)
| DoApplySetting (ctx : Context) (setting : Setting)
| DoLogTransaction (reasonName : string) (now : Time)
| DoResetExpiryTime (now : Time).

(** The world after a call, whatever it returned; [None] when the call
    panicked. *)
Definition after {A} (r : World * outcome A) : option World :=
  match r with
  | (_, Panic _) => None
  | (w, _) => Some w
  end.

(** [LogTransaction] writes to the connection and to the transaction
    counters and logger, which are not part of this world: its step keeps
    what it writes to the connection. *)
Definition step (B : Backend) (userLabelDisabled : string) (op : Op)
    (w : World) : option World :=
  match op with
  | DoExec ctx query maxrows wantfields =>
      after (Exec B ctx query maxrows wantfields w)
  | DoExecWithRetry ctx query maxrows wantfields =>
      after (execWithRetry B ctx query maxrows wantfields w)
  | DoFetchNext ctx maxrows wantfields =>
      after (FetchNext B ctx maxrows wantfields w)
  | DoUnlock now => after (Unlock userLabelDisabled now w)
  | DoUnlockUpdateTime now => after (UnlockUpdateTime userLabelDisabled now w)
  | DoRelease reason now => after (ReleaseString userLabelDisabled reason now w)
  | DoClose => after (Close w)
  | DoKill reason elapsed => after (Kill B reason elapsed w)
  | DoTaint ctx stats now => after (Taint userLabelDisabled ctx stats now w)
  | DoCleanTxState => after (CleanTxState w)
  | DoSetTimeout d now => after (SetTimeout d now w)
  | DoApplySetting ctx setting => after (ApplySetting B ctx setting w)
  | DoLogTransaction reasonName now =>
      Some (mkWorld
              (txConn (LogTransaction reasonName now (mkTxWorld (sc w) [])))
              (stats w) (calls w))
  | DoResetExpiryTime now => after (resetExpiryTime now w)
  end.

(** A sequence of calls, up to the first panic. *)
Fixpoint steps (B : Backend) (userLabelDisabled : string) (ops : list Op)
    (w : World) : option World :=
  match ops with
  | [] => Some w
  | op :: rest =>
      match step B userLabelDisabled op w with
      | Some w' => steps B userLabelDisabled rest w'
      | None => None
      end
  end.

Definition isRecycle (c : Call) : bool :=
  match c with
  | Recycle _ => true
  | _ => false
  end.

(** How often a backend connection was handed back. *)
Definition recycleCount (cs : list Call) : nat :=
  length (List.filter isRecycle cs).

(** Calls that neither unregister the connection nor hand its backend
    connection back. *)
Definition quietCall (c : Call) : bool :=
  match c with
  | CheckMySQL | markAsNotInUse _ _ => true
  | _ => false
  end.

(** What one call can have done to the world, in five kinds: nothing; work
    on the backend connection, with quiet calls at most; a release; a first
    taint; a write to the transaction state or the timeout. *)
Inductive Transition (userLabelDisabled : string) (w w' : World) : Prop :=
| T_same : w' = w -> Transition userLabelDisabled w w'
| T_backend (c c' : PooledConn) (extra : list Call) :
    dbConn (sc w) = Some c ->
    sc w' = set_dbConn (Some c') (sc w) ->
    stats w' = stats w ->
    calls w' = (calls w ++ extra)%list ->
    Forall (fun x => quietCall x = true) extra ->
    Transition userLabelDisabled w w'
| T_release (c : PooledConn) (reason : string) (now : Time) :
    dbConn (sc w) = Some c ->
    sc w' = set_dbConn None (sc w) ->
    stats w' = connVocabulary.releasedStats userLabelDisabled now (sc w)
                                            (stats w) ->
    calls w' = (calls w ++ connVocabulary.releaseCalls reason c (sc w))%list ->
    Transition userLabelDisabled w w'
| T_taint (c : PooledConn) (rp : Properties) :
    dbConn (sc w) = Some c ->
    tainted (sc w) = false ->
    sc w' = set_dbConn (Some (set_conn_Tainted true c))
                       (set_reserved true (Some rp) (sc w)) ->
    stats w' = set_UserActiveReservedCount
                 (Add (UserActiveReservedCount (stats w))
                      (connVocabulary.reservedLabel userLabelDisabled
                                                    (sc w) rp) 1)
                 (stats w) ->
    calls w' = calls w ->
    Transition userLabelDisabled w w'
| T_fields (tp : option tx_Properties) (d : Duration) (e : Time) :
    sc w' = set_timeout d e (set_txProps tp (sc w)) ->
    stats w' = stats w ->
    calls w' = calls w ->
    Transition userLabelDisabled w w'.

(** What a connection adds to the active counter at a label: one, while it
    is reserved and has its backend connection, at its reservation label. *)
Definition heldAt (userLabelDisabled : string) (label : string)
    (s : StatefulConnection) : Z :=
  match reservedProps s, dbConn s with
  | Some rp, Some _ =>
      if bool_decide
           (label = connVocabulary.reservedLabel userLabelDisabled s rp)
      then 1%Z else 0%Z
  | _, _ => 0%Z
  end.

(** What a connection adds to the count of reserved connections served at a
    label: one, once it was reserved and is released, at its user, unless
    user metrics are skipped. *)
Definition servedAt (label : string) (s : StatefulConnection) : Z :=
  match reservedProps s, dbConn s with
  | Some rp, None =>
      if SkipUserMetrics s then 0%Z
      else if bool_decide (label = connVocabulary.userOf rp)
           then 1%Z else 0%Z
  | _, _ => 0%Z
  end.

(** A backend that has lost its server: every query fails with a connection
    error and closes the backend connection, and a renewal fails. *)
Definition lostConnection : vterrors.error :=
  vterrors.Foreign "lost connection to server".
Definition brokenBackend : Backend :=
  mkBackend
    (fun _ _ _ _ c => (set_conn_IsClosed true c, Err lostConnection))
    (fun _ _ _ _ c => (set_conn_IsClosed true c, Err lostConnection))
    (fun _ _ _ c => (set_conn_IsClosed true c, Err lostConnection))
    (fun _ _ c => (c, Some lostConnection))
    (fun _ _ c => (c, Some lostConnection))
    (fun _ => true)
    (fun s => (s, Some lostConnection)).

(** A session on a reserved connection: it is reserved, queried, given a
    timeout and parked; then it is closed, so that the next unlock releases
    it; the calls after that come too late. *)
Definition session : list Op :=
  [DoTaint demoConn.ctx "reserved" 100%Z;
   DoExec demoConn.ctx "select 1" 10%Z true;
   DoSetTimeout 30%Z 110%Z;
   DoUnlock 120%Z;
   DoClose;
   DoUnlock 130%Z;
   DoRelease "again" 140%Z;
   DoTaint demoConn.ctx "reserved" 150%Z].

(** The world the session leaves, and the one a second run of it leaves. *)
Definition sessionEnd : World :=
  default (demoConn.world false)
    (steps demoConn.backend demoConn.userLabelDisabled session
           (demoConn.world false)).
Definition sessionAgain : World :=
  default sessionEnd
    (steps demoConn.backend demoConn.userLabelDisabled session sessionEnd).

End lifecycle.
Import lifecycle.

(** * Properties *)

(** ** The dual-table predicate *)

Section isOnlyDual_props.
Import sqlparser planbuilder.

Lemma isOnlyDual_on_dual (sel : Select) (alias : string) :
  Where sel = None -> GroupBy sel = None -> Having sel = None ->
  OrderBy sel = None ->
  From sel = [AliasedTableExpr (TableName "dual" "") alias] ->
  isOnlyDual sel =
    Ok (match Limit sel with
        | None => true
        | Some lim =>
            match Offset lim, Rowcount lim with
            | None, None => true
            | None, Some (Literal _ val) => negb (val =? "0")%string
            | _, _ => false
            end
        end).
Proof.
  intros Hw Hg Hh Ho Hf. unfold isOnlyDual, limitReturns.
  rewrite Hw, Hg, Hh, Ho, Hf. cbn [is_some orb].
  destruct (Limit sel) as [[off row]|]; cbn; [|reflexivity].
  destruct off; [reflexivity|].
  destruct row as [e|]; [|reflexivity].
  destruct e; try reflexivity.
  destruct (Val =? "0")%string; reflexivity.
Qed.

(** The predicate returns a boolean unless [From] is empty: it never
    returns an error. *)
Lemma isOnlyDual_no_error (sel : Select) e : isOnlyDual sel <> Err e.
Proof.
  unfold isOnlyDual.
  destruct (is_some (Where sel) || is_some (GroupBy sel)
            || is_some (Having sel) || is_some (OrderBy sel));
    [discriminate|].
  destruct (limitReturns sel); [discriminate|].
  destruct (1 <? length (From sel))%nat; [discriminate|].
  destruct (From sel) as [|[[n q|d] a|l r|es] rest]; try discriminate.
Qed.

(** C1 (as stated, refuted): on [SELECT 1 FROM dual LIMIT 0] the predicate
    answers false, and on [SELECT 1 FROM dual LIMIT 1] it answers true:
    the literal "0" is the one that disqualifies. *)
Lemma isOnlyDual_limit_zero_disqualifies :
  let one := [AliasedExpr (Literal IntVal "1") ""] in
  isOnlyDual
    (dualSelect one "" (Some (mkLimit None (Some (Literal IntVal "0")))))
    = Ok false
  /\ isOnlyDual
    (dualSelect one "" (Some (mkLimit None (Some (Literal IntVal "1")))))
    = Ok true.
Proof. split; reflexivity. Qed.

(** C1 (amended): for a simple select on [dual] with no WHERE, GROUP BY,
    HAVING or ORDER BY and a LIMIT with nil offset whose rowcount is a
    literal, [isOnlyDual] answers false when the literal is "0" and true
    for every other literal. *)
Theorem isOnlyDual_limit_literal
    (sel : Select) (alias : string) (t : ValType) (v : string) :
  Where sel = None -> GroupBy sel = None -> Having sel = None ->
  OrderBy sel = None ->
  From sel = [AliasedTableExpr (TableName "dual" "") alias] ->
  Limit sel = Some (mkLimit None (Some (Literal t v))) ->
  (v = "0" -> isOnlyDual sel = Ok false)
  /\ (v <> "0" -> isOnlyDual sel = Ok true).
Proof.
  intros Hw Hg Hh Ho Hf Hl.
  rewrite (isOnlyDual_on_dual sel alias Hw Hg Hh Ho Hf), Hl. cbn.
  split; intros Hv.
  - subst v. reflexivity.
  - apply String.eqb_neq in Hv. rewrite Hv. reflexivity.
Qed.

Lemma isOnlyDual_limit_literal_witness :
  isOnlyDual
    (dualSelect [AliasedExpr (Literal IntVal "1") ""] "d"
       (Some (mkLimit None (Some (Literal IntVal "10")))))
  = Ok true.
Proof.
  refine (proj2 (isOnlyDual_limit_literal
            (dualSelect [AliasedExpr (Literal IntVal "1") ""] "d"
               (Some (mkLimit None (Some (Literal IntVal "10")))))
            "d" IntVal "10" _ _ _ _ _ _) _);
    first [reflexivity | discriminate].
Defined.

End isOnlyDual_props.

(** ** The retry after the predicate rewrite *)

Section retry_props.
Import sqlparser planbuilder.
Variable X : Collaborators.
Variable vschema : VSchema.

Lemma shouldRetry_iff (plan : engine.Primitive) :
  shouldRetryAfterPredicateRewriting plan = true <->
  exists r, plan = engine.PRoute r
            /\ engine.Opcode r = engine.DBA
            /\ engine.SysTableTableName r = []
            /\ engine.SysTableTableSchema r = [].
Proof.
  split.
  - destruct plan as [r| | | | | |]; cbn; try discriminate.
    destruct r as [op schema tname flag q]; cbn.
    destruct op; try discriminate.
    destruct tname, schema; cbn; try discriminate.
    intros _. eexists. repeat split; reflexivity.
  - intros (r & -> & Hop & Hn & Hs). cbn. rewrite Hop, Hn, Hs. reflexivity.
Qed.

Lemma gen4PredicateRewrite_adopts getPlan stmt stmt' p t :
  gen4PredicateRewrite X getPlan stmt = (stmt', Ok (Some (p, t))) ->
  shouldRetryAfterPredicateRewriting p = false
  /\ exists st1 r rewritten st2,
       RewritePredicate X stmt = (st1, Ok r)
       /\ retryTarget st1 r = Some rewritten
       /\ getPlan rewritten = (st2, Ok (p, t)).
Proof.
  unfold gen4PredicateRewrite, sbind.
  destruct (RewritePredicate X stmt) as [st1 [r|e|w]] eqn:Hrw;
    try discriminate.
  destruct r as [|[rewritten|txt]]; cbn.
  - destruct (getPlan st1) as [st2 [[p2 t2]|e|w]] eqn:Hg; cbn;
      try discriminate.
    destruct (shouldRetryAfterPredicateRewriting p2) eqn:Hs; cbn;
      intros [= <- <- <-].
    split; [assumption|]. exists st1, SameNode, st1, st2. auto.
  - destruct (getPlan rewritten) as [st2 [[p2 t2]|e|w]] eqn:Hg; cbn;
      try discriminate.
    destruct (shouldRetryAfterPredicateRewriting p2) eqn:Hs; cbn;
      intros [= <- <- <-].
    split; [assumption|].
    exists st1, (OtherNode (StmtSelect rewritten)), rewritten, st2. auto.
  - discriminate.
Qed.

Lemma gen4PredicateRewrite_keeps getPlan stmt st1 r rewritten st2 res :
  RewritePredicate X stmt = (st1, Ok r) ->
  retryTarget st1 r = Some rewritten ->
  getPlan rewritten = (st2, res) ->
  (exists e, res = Err e)
  \/ (exists p t, res = Ok (p, t)
                  /\ shouldRetryAfterPredicateRewriting p = true) ->
  snd (gen4PredicateRewrite X getPlan stmt) = Ok None.
Proof.
  intros Hrw Ht Hg Hres.
  unfold gen4PredicateRewrite, sbind. rewrite Hrw.
  destruct r as [|[rw|txt]]; cbn in Ht; try discriminate;
    injection Ht as <-; rewrite Hg; cbn;
    destruct Hres as [[e ->]|(p & t & -> & Hs)]; cbn;
    try rewrite Hs; reflexivity.
Qed.

Lemma planWithRetry_result version rv stmt st1 plan tablesUsed stmt' res :
  let getPlan := newBuildSelectPlan X vschema rv version in
  getPlan stmt = (st1, Ok (plan, tablesUsed)) ->
  planWithRetry X vschema version rv stmt = (stmt', Ok res) ->
  (tables res = tablesUsed
   /\ (primitive res = plan \/ primitive res = markNoRoutes plan)
   /\ (shouldRetryAfterPredicateRewriting plan = true ->
       snd (gen4PredicateRewrite X getPlan st1) = Ok None))
  \/ (shouldRetryAfterPredicateRewriting plan = true
      /\ exists st2,
           gen4PredicateRewrite X getPlan st1
           = (st2, Ok (Some (primitive res, tables res)))).
Proof.
  intros getPlan Hb. unfold planWithRetry. fold getPlan.
  unfold sbind at 1. rewrite Hb. unfold sbind at 1.
  assert (Hguard : forall st (keep : Prop), keep ->
    (match st with
     | UnionStmt _ _ => sret (newPlanResult plan tablesUsed)
     | SelectStmt sel =>
         do onlyDual <- slift (isOnlyDual sel);
         if onlyDual
            || (negb (is_some (GroupBy sel))
                && AllAggregation X (SelectExprs sel))
         then sret (newPlanResult (markNoRoutes plan) tablesUsed)
         else sret (newPlanResult plan tablesUsed)
     end) st = (stmt', Ok res) ->
    tables res = tablesUsed
    /\ (primitive res = plan \/ primitive res = markNoRoutes plan)
    /\ keep).
  { intros st keep Hk. destruct st as [sel|l r]; cbn.
    - unfold sbind, slift. destruct (isOnlyDual sel) as [b|e|w];
        try discriminate.
      destruct (b || _); cbn; intros [= <- <-]; cbn; auto.
    - intros [= <- <-]; cbn; auto. }
  destruct (shouldRetryAfterPredicateRewriting plan) eqn:Hs.
  - destruct (gen4PredicateRewrite X getPlan st1)
      as [st2 [[[p2 t2]|]|e|w]] eqn:Hr; try discriminate.
    + cbn. intros [= <- <-]. right. split; [reflexivity|].
      exists st2. reflexivity.
    + unfold sbind, sget. intros H. left.
      apply (Hguard st2 (true = true -> Ok None = Ok None)); auto.
  - cbn. unfold sbind, sget. intros H. left.
    apply (Hguard st1 (false = true -> _)); [discriminate|assumption].
Qed.

(** A rebuilt plan that is not eligible itself is the one
    [gen4PredicateRewrite] gives back. *)
Lemma gen4PredicateRewrite_better getPlan stmt st1 r rewritten st2 p t :
  RewritePredicate X stmt = (st1, Ok r) ->
  retryTarget st1 r = Some rewritten ->
  getPlan rewritten = (st2, Ok (p, t)) ->
  shouldRetryAfterPredicateRewriting p = false ->
  snd (gen4PredicateRewrite X getPlan stmt) = Ok (Some (p, t)).
Proof.
  intros Hrw Ht Hg Hs.
  unfold gen4PredicateRewrite, sbind. rewrite Hrw.
  destruct r as [|[rw|txt]]; cbn in Ht; try discriminate;
    injection Ht as <-; rewrite Hg; cbn; rewrite Hs; reflexivity.
Qed.

(** C5: a plan is eligible for the retry exactly when it is a [Route]
    with opcode [DBA] and both sys-table filters empty.  When the first
    plan is eligible, the predicates are rewritten and the plan is rebuilt:
    a rebuilt plan that is not eligible itself is the plan returned, with
    its own tables; a plan other than the first is returned only in that
    case; and the first plan is kept (up to the flag the empty-set guard
    sets on it) when the rebuild fails or gives a plan that is still
    eligible, the error of the rebuild never being returned. *)
Theorem retry_adopts_only_improved :
  (forall plan,
     shouldRetryAfterPredicateRewriting plan = true <->
     exists r, plan = engine.PRoute r
               /\ engine.Opcode r = engine.DBA
               /\ engine.SysTableTableName r = []
               /\ engine.SysTableTableSchema r = [])
  /\ (forall version rv stmt st1 plan tablesUsed st1' r rewritten st2
             plan2 tablesUsed2,
        let getPlan := newBuildSelectPlan X vschema rv version in
        getPlan stmt = (st1, Ok (plan, tablesUsed)) ->
        shouldRetryAfterPredicateRewriting plan = true ->
        RewritePredicate X st1 = (st1', Ok r) ->
        retryTarget st1' r = Some rewritten ->
        getPlan rewritten = (st2, Ok (plan2, tablesUsed2)) ->
        shouldRetryAfterPredicateRewriting plan2 = false ->
        snd (planWithRetry X vschema version rv stmt)
        = Ok (newPlanResult plan2 tablesUsed2))
  /\ (forall version rv stmt st1 plan tablesUsed stmt' res,
        let getPlan := newBuildSelectPlan X vschema rv version in
        getPlan stmt = (st1, Ok (plan, tablesUsed)) ->
        planWithRetry X vschema version rv stmt = (stmt', Ok res) ->
        primitive res <> plan ->
        primitive res <> markNoRoutes plan ->
        shouldRetryAfterPredicateRewriting plan = true
        /\ shouldRetryAfterPredicateRewriting (primitive res) = false
        /\ exists st1' r rewritten st2,
             RewritePredicate X st1 = (st1', Ok r)
             /\ retryTarget st1' r = Some rewritten
             /\ getPlan rewritten = (st2, Ok (primitive res, tables res)))
  /\ (forall version rv stmt st1 plan tablesUsed st1' r rewritten st2 res2
             stmt' res,
        let getPlan := newBuildSelectPlan X vschema rv version in
        getPlan stmt = (st1, Ok (plan, tablesUsed)) ->
        shouldRetryAfterPredicateRewriting plan = true ->
        RewritePredicate X st1 = (st1', Ok r) ->
        retryTarget st1' r = Some rewritten ->
        getPlan rewritten = (st2, res2) ->
        (exists e, res2 = Err e)
        \/ (exists p t, res2 = Ok (p, t)
                        /\ shouldRetryAfterPredicateRewriting p = true) ->
        planWithRetry X vschema version rv stmt = (stmt', Ok res) ->
        tables res = tablesUsed
        /\ (primitive res = plan \/ primitive res = markNoRoutes plan))
  /\ (forall version rv stmt st1 plan tablesUsed st1' r rewritten st2 res2,
        let getPlan := newBuildSelectPlan X vschema rv version in
        getPlan stmt = (st1, Ok (plan, tablesUsed)) ->
        shouldRetryAfterPredicateRewriting plan = true ->
        RewritePredicate X st1 = (st1', Ok r) ->
        retryTarget st1' r = Some rewritten ->
        getPlan rewritten = (st2, res2) ->
        (exists e, res2 = Err e)
        \/ (exists p t, res2 = Ok (p, t)
                        /\ shouldRetryAfterPredicateRewriting p = true) ->
        forall e, snd (planWithRetry X vschema version rv stmt) = Err e ->
                  False).
Proof.
  split; [exact shouldRetry_iff|]. split; [|split; [|split]].
  - intros version rv stmt st1 plan tablesUsed st1' r rewritten st2
           plan2 tablesUsed2 getPlan Hb Hs Hrw Ht Hg Hs2.
    pose proof (gen4PredicateRewrite_better getPlan _ _ _ _ _ _ _
                  Hrw Ht Hg Hs2) as Hbetter.
    unfold planWithRetry. fold getPlan. unfold sbind at 1. rewrite Hb.
    unfold sbind at 1. rewrite Hs.
    destruct (gen4PredicateRewrite X getPlan st1) as [st3 res3].
    cbn [snd] in Hbetter. subst res3. reflexivity.
  - intros version rv stmt st1 plan tablesUsed stmt' res getPlan Hb Hp Hn1 Hn2.
    destruct (planWithRetry_result _ _ _ _ _ _ _ _ Hb Hp)
      as [(_ & [Hk|Hk] & _)|(Hs & st2 & Hr)]; try contradiction.
    split; [assumption|].
    apply gen4PredicateRewrite_adopts in Hr. exact Hr.
  - intros version rv stmt st1 plan tablesUsed st1' r rewritten st2 res2
           stmt' res getPlan Hb Hs Hrw Ht Hg Hres Hp.
    pose proof (gen4PredicateRewrite_keeps getPlan _ _ _ _ _ _ Hrw Ht Hg Hres)
      as Hnone.
    destruct (planWithRetry_result _ _ _ _ _ _ _ _ Hb Hp)
      as [(Htab & Hk & _)|(_ & st3 & Hr)]; [auto|].
    fold getPlan in Hr. rewrite Hr in Hnone. discriminate.
  - intros version rv stmt st1 plan tablesUsed st1' r rewritten st2 res2
           getPlan Hb Hs Hrw Ht Hg Hres e.
    pose proof (gen4PredicateRewrite_keeps getPlan _ _ _ _ _ _ Hrw Ht Hg Hres)
      as Hnone.
    unfold planWithRetry. fold getPlan. unfold sbind at 1. rewrite Hb.
    unfold sbind at 1. rewrite Hs.
    destruct (gen4PredicateRewrite X getPlan st1) as [st3 res3].
    cbn [snd] in Hnone. subst res3. unfold sbind, sget.
    destruct st3 as [sel|l r0]; [|discriminate].
    unfold slift. destruct (isOnlyDual sel) as [b|e3|w] eqn:Hd;
      [destruct (b || _); discriminate| |discriminate].
    exfalso. eapply isOnlyDual_no_error. exact Hd.
Qed.

End retry_props.

(** ** The SQL_CALC_FOUND_ROWS split *)

Section found_rows_props.
Import sqlparser planbuilder.
Variable X : Collaborators.
Variable vschema : VSchema.







End found_rows_props.



(** ** Writes to the caller's statement *)

Section statement_props.
Import sqlparser planbuilder.

Lemma keeps_sret {S A} (a : A) : keeps (@sret S A a).
Proof. intros st. reflexivity. Qed.

Lemma keeps_slift {S A} (r : outcome A) : keeps (@slift S A r).
Proof. intros st. reflexivity. Qed.

Lemma keeps_sfail {S A} e : keeps (@sfail S A e).
Proof. intros st. reflexivity. Qed.

Lemma keeps_sget {S} : keeps (@sget S).
Proof. intros st. reflexivity. Qed.

Lemma keeps_sbind {S A B} (m : stateful S A) (k : A -> stateful S B) :
  keeps m -> (forall a, keeps (k a)) -> keeps (sbind m k).
Proof.
  intros Hm Hk st. unfold sbind. specialize (Hm st).
  destruct (m st) as [st1 [a|e|w]]; cbn in *; subst; auto. apply Hk.
Qed.

Variable X : Collaborators.
Variable vschema : VSchema.
Hypothesis HX : readOnly X.

Local Ltac keeps_step :=
  first [ apply keeps_sret | apply keeps_slift | apply keeps_sfail
        | apply keeps_sget
        | apply keeps_sbind; [|intros ?] ].

Lemma keeps_newBuildSelectPlan rv version :
  keeps (newBuildSelectPlan X vschema rv version).
Proof.
  destruct HX. unfold newBuildSelectPlan, createSelectOperator.
  apply keeps_sbind; [auto|intros ctx].
  destruct (CanTakeSelectUnshardedShortcut ctx).
  - apply keeps_sbind; [auto|intros [plan t]]. repeat keeps_step.
  - destruct (NotUnshardedErr ctx); [apply keeps_sfail|].
    apply keeps_sbind; [|intros op; repeat keeps_step].
    apply keeps_sbind; auto.
Qed.

Lemma keeps_gen4PredicateRewrite getPlan :
  keeps getPlan -> keeps (gen4PredicateRewrite X getPlan).
Proof.
  intros Hg. destruct HX. unfold gen4PredicateRewrite.
  apply keeps_sbind; [auto|intros r].
  assert (Huse : forall res : outcome (engine.Primitive * list string),
    keeps (match res with
           | Ok (plan2, op) =>
               if negb (shouldRetryAfterPredicateRewriting plan2)
               then sret (Some (plan2, op))
               else sret None
           | Err _ => sret None
           | Panic w => slift (Panic w)
           end : onStmt (option (engine.Primitive * list string)))).
  { intros [[p t]|e|w]; [destruct (negb _)| |]; repeat keeps_step. }
  destruct r as [|[rw|txt]].
  - intros st. specialize (Hg st). destruct (getPlan st) as [st' res].
    cbn in Hg. subst st'. apply Huse.
  - apply Huse.
  - apply keeps_sret.
Qed.

Lemma keeps_planWithRetry version rv :
  keeps (planWithRetry X vschema version rv).
Proof.
  unfold planWithRetry.
  apply keeps_sbind; [apply keeps_newBuildSelectPlan|intros [plan t]].
  apply keeps_sbind.
  - destruct (shouldRetryAfterPredicateRewriting plan);
      [apply keeps_gen4PredicateRewrite, keeps_newBuildSelectPlan
      |apply keeps_sret].
  - intros [[p2 t2]|]; [apply keeps_sret|].
    apply keeps_sbind; [apply keeps_sget|intros [sel|l r]];
      [|apply keeps_sret].
    apply keeps_sbind; [apply keeps_slift|intros b].
    destruct (b || _); apply keeps_sret.
Qed.

Lemma keeps_gen4planSQLCalcFoundRows query rv :
  keeps (gen4planSQLCalcFoundRows X vschema query rv).
Proof.
  unfold gen4planSQLCalcFoundRows, buildSQLCalcFoundRowsPlan.
  apply keeps_sbind; [apply HX|intros _].
  apply keeps_sbind; [|intros [plan t]; apply keeps_sret].
  apply keeps_sbind; [apply keeps_newBuildSelectPlan|intros [lp lt]].
  apply keeps_sbind; [apply keeps_slift|intros [st2 r2]].
  destruct st2 as [[parsed|l r]|txt]; try apply keeps_slift.
  apply keeps_sbind; [apply keeps_slift|intros [cp ct]; apply keeps_sret].
Qed.

(** C7 (amended): the planner works on the statement it is handed, with no
    clone.  With collaborators that do not write to it, the statement the
    caller holds after the call is the one it passed, except that on a
    simple select which the dual shortcut does not answer and which does
    not carry both the directive and a limit the [SQLCalcFoundRows] flag
    has been cleared in place. *)
Theorem planner_clears_flag_in_place query version rv stmt :
  fst (gen4SelectStmtPlanner X vschema query version rv stmt) =
    match stmt with
    | SelectStmt sel =>
        match handleDualSelects X vschema sel with
        | Ok None =>
            if SQLCalcFoundRows sel && is_some (Limit sel) then stmt
            else SelectStmt (set_SQLCalcFoundRows false sel)
        | _ => stmt
        end
    | UnionStmt _ _ => stmt
    end.
Proof.
  unfold gen4SelectStmtPlanner. destruct stmt as [sel|l r].
  - destruct (handleDualSelects X vschema sel) as [[p|]|e|w]; try reflexivity.
    destruct (SQLCalcFoundRows sel && is_some (Limit sel)).
    + apply keeps_gen4planSQLCalcFoundRows.
    + apply keeps_planWithRetry.
  - apply keeps_planWithRetry.
Qed.

(** Whatever the collaborators do, the statement the build is run on is
    the caller's own, with the flag cleared on it. *)
Lemma gen4SelectStmtPlanner_builds_on_cleared query version rv sel :
  handleDualSelects X vschema sel = Ok None ->
  SQLCalcFoundRows sel && is_some (Limit sel) = false ->
  gen4SelectStmtPlanner X vschema query version rv (SelectStmt sel)
  = planWithRetry X vschema version rv
      (SelectStmt (set_SQLCalcFoundRows false sel)).
Proof.
  intros Hd Hl. unfold gen4SelectStmtPlanner. rewrite Hd, Hl. reflexivity.
Qed.

End statement_props.

Lemma demo_readOnly : readOnly demo.Xcopy.
Proof. constructor; cbn; intros; intros st; reflexivity. Qed.

(** C7 (as stated, refuted): planning [SELECT SQL_CALC_FOUND_ROWS a FROM t]
    succeeds and leaves the caller's statement with the flag cleared, so the
    statement is not what the caller passed. *)
Lemma planner_writes_to_caller_statement :
  let stmt := sqlparser.SelectStmt (demo.selectA true None) in
  let run :=
    planbuilder.gen4SelectStmtPlanner demo.Xcopy demo.vschema
      "select sql_calc_found_rows a from t" planbuilder.Gen4
      demo.reservedVars stmt in
  run = (sqlparser.SelectStmt (demo.selectA false None),
         Ok (planbuilder.newPlanResult (demo.scatter false) ["main.t"]))
  /\ (fst run = stmt -> False).
Proof. split; [reflexivity|discriminate]. Qed.

Lemma planner_clears_flag_in_place_witness :
  fst (planbuilder.gen4SelectStmtPlanner demo.Xcopy demo.vschema
         "select sql_calc_found_rows a from t" planbuilder.Gen4
         demo.reservedVars (sqlparser.SelectStmt (demo.selectA true None)))
  = sqlparser.SelectStmt (demo.selectA false None).
Proof.
  exact (planner_clears_flag_in_place demo.Xcopy demo.vschema demo_readOnly
           "select sql_calc_found_rows a from t" planbuilder.Gen4
           demo.reservedVars (sqlparser.SelectStmt (demo.selectA true None))).
Defined.

(** ** Locking functions in a select on dual *)

Section dual_lock_props.
Import sqlparser planbuilder.
Variable X : Collaborators.
Variable vschema : VSchema.


(** One step over a column that is not a locking function. *)
Lemma dualColumns_plain_step e a rest i acc :
  isLockingFunc e = false ->
  dualColumns X vschema (AliasedExpr e a :: rest) i acc =
    if (0 <? length (lockFunctions acc))%nat
    then Err (mixedLockError X (AliasedExpr e a))
    else
      match Translate X e (translateConfig vschema) with
      | Ok ee =>
          dualColumns X vschema rest (S i)
            (mkDualLoop (<[i := Some ee]> (exprs acc))
               (<[i := if (a =? "")%string then String_Expr X e else a]>
                  (cols acc))
               (lockFunctions acc))
      | Err _ => Ok None
      | Panic w => Panic w
      end.
Proof. destruct e; cbn; intros; try discriminate; reflexivity. Qed.

Lemma dualColumns_lock_step f a rest i acc :
  dualColumns X vschema (AliasedExpr (LockingFuncExpr f) a :: rest) i acc =
    obind (lockElem X vschema f)
      (fun elem =>
         dualColumns X vschema rest (S i)
           (mkDualLoop (exprs acc) (cols acc)
                       (lockFunctions acc ++ [elem]))).
Proof. reflexivity. Qed.

(** Over a run of plain columns met before any locking function, the
    loop falls through, panics in the translation, or goes on with still
    no locking function gathered. *)
Lemma dualColumns_plain_run pre : forall rest i acc,
  lockFunctions acc = [] ->
  Forall (fun c => isLockingFunc (fst c) = false) pre ->
  dualColumns X vschema (map plainColumn pre ++ rest) i acc = Ok None
  \/ (exists w, dualColumns X vschema (map plainColumn pre ++ rest) i acc = Panic w)
  \/ (exists acc', lockFunctions acc' = []
        /\ dualColumns X vschema (map plainColumn pre ++ rest) i acc
           = dualColumns X vschema rest (i + length pre) acc').
Proof.
  induction pre as [|[e a] pre IH]; intros rest i acc Hacc Hpre.
  - right. right. exists acc. cbn. rewrite Nat.add_0_r. auto.
  - inversion Hpre as [|? ? He Hpre']; subst. cbn in He.
    cbn [map app length]. change (plainColumn (e, a)) with (AliasedExpr e a).
    rewrite (dualColumns_plain_step _ _ _ _ _ He), Hacc. cbn.
    destruct (Translate X e (translateConfig vschema)) as [ee|err|w]; [|auto|eauto].
    replace (i + S (length pre)) with (S i + length pre) by lia.
    apply IH; auto.
Qed.

Lemma dualColumns_plain_run_ok pre : forall rest i acc,
  lockFunctions acc = [] ->
  Forall (fun c => isLockingFunc (fst c) = false) pre ->
  Forall (fun c => exists ee, Translate X (fst c) (translateConfig vschema) = Ok ee) pre ->
  exists acc', lockFunctions acc' = []
    /\ dualColumns X vschema (map plainColumn pre ++ rest) i acc
       = dualColumns X vschema rest (i + length pre) acc'.
Proof.
  induction pre as [|[e a] pre IH]; intros rest i acc Hacc Hpre Htr.
  - exists acc. cbn. rewrite Nat.add_0_r. auto.
  - inversion Hpre as [|? ? He Hpre']; subst. cbn in He.
    inversion Htr as [|? ? [ee Hee] Htr']; subst. cbn in Hee.
    cbn [map app length]. change (plainColumn (e, a)) with (AliasedExpr e a).
    rewrite (dualColumns_plain_step _ _ _ _ _ He), Hacc, Hee. cbn.
    replace (i + S (length pre)) with (S i + length pre) by lia.
    apply IH; auto.
Qed.

(** Over a run of locking functions the loop can only fail in the
    translation of a name. *)
Lemma dualColumns_lock_run_err locks : forall i acc e,
  dualColumns X vschema (map lockColumn locks) i acc = Err e ->
  exists f name, In f (map fst locks) /\ lf_Name f = Some name
                 /\ Translate X name (translateConfig vschema) = Err e.
Proof.
  induction locks as [|[f a] locks IH]; intros i acc e; cbn [map fst].
  - discriminate.
  - change (lockColumn (f, a)) with (AliasedExpr (LockingFuncExpr f) a).
    rewrite dualColumns_lock_step. unfold lockElem at 1.
    destruct (lf_Name f) as [name|] eqn:Hn; cbn.
    + destruct (Translate X name (translateConfig vschema)) as [n|e'|w] eqn:Ht; cbn.
      * intros H. destruct (IH _ _ _ H) as (f' & name' & Hin & Hrest).
        exists f', name'. split; [right; exact Hin|exact Hrest].
      * intros [= ->]. exists f, name. split; [left; reflexivity|auto].
      * discriminate.
    + intros H. destruct (IH _ _ _ H) as (f' & name' & Hin & Hrest).
      exists f', name'. split; [right; exact Hin|exact Hrest].
Qed.

Lemma dualColumns_lock_run_ok locks : forall elems i acc,
  Forall2 (fun c elem => lockElem X vschema (fst c) = Ok elem) locks elems ->
  dualColumns X vschema (map lockColumn locks) i acc
  = Ok (Some (mkDualLoop (exprs acc) (cols acc)
                         (lockFunctions acc ++ elems))).
Proof.
  induction locks as [|[f a] locks IH]; intros elems i acc H;
    inversion H as [|? elem ? elems' Hf Hrest]; subst; cbn [map].
  - cbn. rewrite app_nil_r. destruct acc; reflexivity.
  - change (lockColumn (f, a)) with (AliasedExpr (LockingFuncExpr f) a).
    cbn in Hf. rewrite dualColumns_lock_step, Hf. cbn [obind].
    rewrite (IH elems' _ _ Hrest). cbn. rewrite <- app_assoc. reflexivity.
Qed.

Lemma lockElem_Typ f elem :
  lockElem X vschema f = Ok elem -> engine.Typ elem = f.
Proof.
  unfold lockElem. destruct (lf_Name f); cbn.
  - destruct (Translate X _ (translateConfig vschema)); cbn; try discriminate.
    intros [= <-]. reflexivity.
  - intros [= <-]. reflexivity.
Qed.

Lemma lockElems_Typ (locks : list (LockingFunc * string)) elems :
  Forall2 (fun c elem => lockElem X vschema (fst c) = Ok elem) locks elems ->
  map engine.Typ elems = map fst locks.
Proof.
  induction 1 as [|c elem locks elems Hc _ IH]; cbn; [reflexivity|].
  rewrite (lockElem_Typ _ _ Hc), IH. reflexivity.
Qed.

(** The error of the mixed-expression check leaves the loop only at a
    plain column that comes after a locking function (one gathered
    before, or one earlier in the columns), unless the translation of a
    name returned such an error itself. *)
Lemma dualColumns_mixed columns : forall i acc msg,
  dualColumns X vschema columns i acc = Err (vterrors.VT12001 msg) ->
  (exists before e a after,
      columns = (before ++ AliasedExpr e a :: after)%list
      /\ isLockingFunc e = false
      /\ (lockFunctions acc <> []
          \/ exists f a0, In (AliasedExpr (LockingFuncExpr f) a0) before))
  \/ (exists name,
        Translate X name (translateConfig vschema)
        = Err (vterrors.VT12001 msg)).
Proof.
  induction columns as [|c rest IH]; intros i acc msg; [discriminate|].
  destruct c as [e a|t|e]; [|discriminate|discriminate].
  destruct (isLockingFunc e) eqn:He.
  - destruct e; try discriminate. rewrite dualColumns_lock_step.
    unfold lockElem at 1. destruct (lf_Name f) as [name|]; cbn.
    + destruct (Translate X name _) as [n|e'|w] eqn:Ht; cbn;
        [|intros [= ->]; right; eauto|discriminate].
      intros H. destruct (IH _ _ _ H)
        as [(before & e' & a' & after & -> & He' & _)|Hr]; [left|auto].
      exists (AliasedExpr (LockingFuncExpr f) a :: before), e', a', after.
      repeat split; auto. right. exists f, a. left. reflexivity.
    + intros H. destruct (IH _ _ _ H)
        as [(before & e' & a' & after & -> & He' & _)|Hr]; [left|auto].
      exists (AliasedExpr (LockingFuncExpr f) a :: before), e', a', after.
      repeat split; auto. right. exists f, a. left. reflexivity.
  - rewrite (dualColumns_plain_step _ _ _ _ _ He).
    destruct (lockFunctions acc) as [|l ls] eqn:Hl; cbn.
    + destruct (Translate X e _) as [ee|e'|w]; try discriminate.
      intros H. destruct (IH _ _ _ H)
        as [(before & e' & a' & after & -> & He' & Hc)|Hr]; [left|auto].
      exists (AliasedExpr e a :: before), e', a', after.
      repeat split; auto. cbn in Hc.
      destruct Hc as [Hc|(f & a0 & Hin)]; [congruence|].
      right. exists f, a0. right. exact Hin.
    + intros _. left. exists [], e, a, rest. repeat split; auto.
Qed.

(** C10 (amended): in a select on dual only whose columns are plain
    aliased expressions followed by locking functions, no error comes from
    the mixed-expression check: an error can only be the one of
    translating a lock name or of looking up the first keyspace.  When
    every plain expression translates, and the lock names and the keyspace
    lookup succeed, the result is a [Lock] primitive whose [LockFunctions]
    are made of the locking functions alone, the translated plain
    expressions being dropped.  When a plain expression fails to translate,
    those before it translating, no [Lock] is built: the result is no plan
    and no error.  In any select, the VT12001 error of the check needs a
    plain expression placed after a locking function. *)
Theorem dual_lock_after_plain
    (sel : Select) (pre : list (Expr * string))
    (locks : list (LockingFunc * string)) :
  isOnlyDual sel = Ok true ->
  GetColumns sel = (map plainColumn pre ++ map lockColumn locks)%list ->
  locks <> [] ->
  Forall (fun c => isLockingFunc (fst c) = false) pre ->
  (forall e,
     handleDualSelects X vschema sel = Err e ->
     (exists f name, In f (map fst locks) /\ lf_Name f = Some name
                     /\ Translate X name (translateConfig vschema) = Err e)
     \/ snd (FirstSortedKeyspace vschema) = Some e)
  /\ (forall elems ks,
        Forall (fun c => exists ee,
                  Translate X (fst c) (translateConfig vschema) = Ok ee) pre ->
        Forall2 (fun c elem => lockElem X vschema (fst c) = Ok elem)
                locks elems ->
        FirstSortedKeyspace vschema = (ks, None) ->
        handleDualSelects X vschema sel
        = Ok (Some (engine.PLock ks
                      (key.DestinationKeyspaceID (Some [x00]))
                      (FormatImpossibleQuery X sel) elems))
        /\ map engine.Typ elems = map fst locks)
  /\ (forall done e a rest err,
        pre = (done ++ (e, a) :: rest)%list ->
        Forall (fun c => exists ee,
                  Translate X (fst c) (translateConfig vschema) = Ok ee)
               done ->
        Translate X e (translateConfig vschema) = Err err ->
        handleDualSelects X vschema sel = Ok None)
  /\ (forall sel' msg,
        handleDualSelects X vschema sel' = Err (vterrors.VT12001 msg) ->
        (exists before f a mid e a' after,
            GetColumns sel'
            = (before ++ AliasedExpr (LockingFuncExpr f) a
                      :: mid ++ AliasedExpr e a' :: after)%list
            /\ isLockingFunc e = false)
        \/ (exists name,
              Translate X name (translateConfig vschema)
              = Err (vterrors.VT12001 msg))
        \/ snd (FirstSortedKeyspace vschema)
           = Some (vterrors.VT12001 msg)).
Proof.
  intros Hdual Hcols Hlocks Hpre. split; [|split; [|split]].
  - intros e. unfold handleDualSelects. rewrite Hdual. cbn [obind negb].
    rewrite Hcols.
    match goal with
    | |- context [dualColumns X vschema _ 0 ?a] => set (acc0 := a)
    end.
    destruct (dualColumns_plain_run pre (map lockColumn locks) 0 acc0
                eq_refl Hpre) as [->|[[w ->]|(acc' & Hacc' & ->)]];
      try discriminate.
    destruct (dualColumns X vschema (map lockColumn locks) _ acc')
      as [[acc''|]|e'|w] eqn:Hrun; cbn [obind]; try discriminate.
    + destruct (0 <? length (lockFunctions acc''))%nat;
        [|discriminate].
      unfold buildLockingPrimitive.
      destruct (FirstSortedKeyspace vschema) as [ks [err|]]; cbn [obind];
        [|discriminate].
      intros [= ->]. right. reflexivity.
    + intros [= ->]. left. eapply dualColumns_lock_run_err. exact Hrun.
  - intros elems ks Htr Hel Hks. split; [|eapply lockElems_Typ; eauto].
    unfold handleDualSelects. rewrite Hdual. cbn [obind negb].
    rewrite Hcols.
    match goal with
    | |- context [dualColumns X vschema _ 0 ?a] => set (acc0 := a)
    end.
    destruct (dualColumns_plain_run_ok pre (map lockColumn locks) 0 acc0
                eq_refl Hpre Htr) as (acc' & Hacc' & ->).
    rewrite (dualColumns_lock_run_ok _ _ _ _ Hel). cbn. rewrite Hacc'. cbn.
    destruct elems as [|elem elems].
    { inversion Hel; subst. contradiction. }
    cbn. unfold buildLockingPrimitive. rewrite Hks. reflexivity.
  - intros done e a rest err Hsplit Htr Herr. subst pre.
    apply Forall_app in Hpre as [Hdone Hrest].
    inversion Hrest as [|? ? He _]; subst. cbn in He.
    unfold handleDualSelects. rewrite Hdual. cbn [obind negb].
    rewrite Hcols, map_app, <- app_assoc. cbn [map app].
    match goal with
    | |- context [dualColumns X vschema _ 0 ?a] => set (acc0 := a)
    end.
    destruct (dualColumns_plain_run_ok done
                (plainColumn (e, a)
                 :: map plainColumn rest ++ map lockColumn locks)%list
                0 acc0 eq_refl Hdone Htr) as (acc' & Hacc' & ->).
    change (plainColumn (e, a)) with (AliasedExpr e a).
    rewrite (dualColumns_plain_step e a _ _ _ He), Hacc', Herr.
    reflexivity.
  - intros sel' msg. unfold handleDualSelects.
    destruct (isOnlyDual sel') as [[|]|e|w] eqn:Hd; cbn [obind negb];
      try discriminate; [|exfalso; eapply isOnlyDual_no_error; exact Hd].
    match goal with
    | |- context [dualColumns X vschema _ 0 ?a] => set (acc0 := a)
    end.
    destruct (dualColumns X vschema (GetColumns sel') 0 acc0)
      as [[acc'|]|e|w] eqn:Hrun; cbn [obind]; try discriminate.
    + destruct (0 <? length (lockFunctions acc'))%nat; [|discriminate].
      unfold buildLockingPrimitive.
      destruct (FirstSortedKeyspace vschema) as [ks [err|]]; cbn [obind];
        [|discriminate].
      intros [= ->]. right. right. reflexivity.
    + intros [= ->]. apply dualColumns_mixed in Hrun.
      destruct Hrun as [(before & e' & a' & after & Hc & He' & Hcond)|Hr];
        [|right; left; exact Hr].
      left. destruct Hcond as [Hcond|(f & a0 & Hin)];
        [exfalso; apply Hcond; reflexivity|].
      apply in_split in Hin. destruct Hin as (b1 & b2 & ->).
      exists b1, f, a0, b2, e', a', after. split; [|exact He'].
      rewrite Hc, <- app_assoc. reflexivity.
Qed.

End dual_lock_props.

(** C10 (as stated, refuted): [SELECT a, GET_LOCK('x', 0) FROM dual] is a
    select on dual only with a plain column before a locking function, and
    no [Lock] is built for it: the column does not translate, and the
    result is no plan and no error. *)
Lemma untranslated_column_before_lock_gives_no_plan :
  planbuilder.isOnlyDual selectColumnThenLock = Ok true
  /\ sqlparser.GetColumns selectColumnThenLock
     = (map plainColumn [(sqlparser.ColName "a", "")]
        ++ map lockColumn [(demo.getLockX, "")])%list
  /\ planbuilder.handleDualSelects demo.X demo.vschema selectColumnThenLock
     = Ok None.
Proof. repeat split. Qed.

Lemma dual_lock_after_plain_witness :
  planbuilder.handleDualSelects demo.X demo.vschema demo.selectOneThenLock
  = Ok (Some (engine.PLock (Some demo.mainKs)
                (key.DestinationKeyspaceID (Some [x00]))
                "select 1 from dual where 1 != 1"
                [engine.mkLockFunc demo.getLockX
                   (Some (evalengine.Compiled 1))])).
Proof.
  refine (proj1 (proj1 (proj2
            (dual_lock_after_plain demo.X demo.vschema demo.selectOneThenLock
               [(sqlparser.Literal sqlparser.IntVal "1", "")]
               [(demo.getLockX, "")] _ _ _ _))
            [engine.mkLockFunc demo.getLockX (Some (evalengine.Compiled 1))]
            (Some demo.mainKs) _ _ _)).
  - reflexivity.
  - reflexivity.
  - discriminate.
  - repeat constructor.
  - constructor; [|constructor]. eexists. reflexivity.
  - repeat constructor.
  - reflexivity.
Defined.

(** ** The Binary vindex *)

Section binary_props.
Import vindexes.
Local Open Scope list_scope.
Variable ToBytes : sqltypes.Value -> key.bytes * option vterrors.error.

Lemma MapFrom_hashed vind ids : forall bs out,
  Forall2 (fun id b => ToBytes id = (b, None)) ids bs ->
  MapFrom ToBytes vind ids out
  = ((out ++ map key.DestinationKeyspaceID bs)%list, None).
Proof.
  induction ids as [|id ids IH]; intros bs out H;
    inversion H as [|? b ? bs' Hb Hrest]; subst; cbn.
  - rewrite app_nil_r. reflexivity.
  - unfold Hash. rewrite Hb, (IH _ _ Hrest), <- app_assoc. reflexivity.
Qed.

Lemma keyspaceID_of_Map (bs : list key.bytes) :
  omap keyspaceID (map key.DestinationKeyspaceID bs) = bs.
Proof. induction bs as [|b bs IH]; cbn; [|rewrite IH]; reflexivity. Qed.

(** The rows written so far are kept, and each keyspace id met is
    written at its row as a VarBinary value. *)
Lemma ReverseMapFrom_present (bs : list (list byte)) :
  forall (done : list sqltypes.Value) (z : sqltypes.Value),
  ReverseMapFrom (map Some bs) (length done)
                 (done ++ replicate (length bs) z)
  = Ok (done ++ map (fun b => sqltypes.MakeTrusted sqltypes.VarBinary (Some b))
                    bs)%list.
Proof.
  induction bs as [|b bs IH]; intros done z; cbn.
  - reflexivity.
  - replace (S (length done)) with (length (done ++ [sqltypes.MakeTrusted
               sqltypes.VarBinary (Some b)])) by (rewrite length_app; cbn; lia).
    replace (<[length done := sqltypes.MakeTrusted sqltypes.VarBinary (Some b)]>
               (done ++ z :: replicate (length bs) z))
      with ((done ++ [sqltypes.MakeTrusted sqltypes.VarBinary (Some b)])
              ++ replicate (length bs) z)%list.
    + rewrite IH, <- app_assoc. reflexivity.
    + rewrite <- app_assoc. cbn.
      replace (length done) with (length done + 0) at 1 by lia.
      rewrite insert_app_r. reflexivity.
Qed.

Lemma ReverseMap_present (bs : list (list byte)) :
  ReverseMap (map Some bs)
  = Ok (map (fun b => sqltypes.MakeTrusted sqltypes.VarBinary (Some b)) bs).
Proof.
  unfold ReverseMap. rewrite length_map.
  exact (ReverseMapFrom_present bs [] _).
Qed.

Lemma ReverseMapFrom_nil (ksids : list key.bytes) : forall n acc,
  In None ksids ->
  ReverseMapFrom ksids n acc
  = Err (vterrors.Errorf "Binary.ReverseMap: keyspaceId is nil").
Proof.
  induction ksids as [|[b|] ksids IH]; intros n acc Hin; cbn.
  - destruct Hin.
  - apply IH. destruct Hin as [Hin|Hin]; [discriminate|exact Hin].
  - reflexivity.
Qed.

(** C6 (amended): for values whose [ToBytes] gives bytes that are not
    nil, [Map] wraps those bytes as keyspace ids and [ReverseMap] of these
    gives, for each, the VarBinary value of the bytes; this is the value
    started from exactly when that value is itself the VarBinary value of
    those bytes.  [ReverseMap] of a list holding a nil keyspace id fails. *)
Theorem binary_reverse_of_map :
  (forall vind (ids : list sqltypes.Value) (bs : list (list byte)),
     Forall2 (fun id b => ToBytes id = (Some b, None)) ids bs ->
     Map ToBytes vind ids
     = (map (fun b => key.DestinationKeyspaceID (Some b)) bs, None)
     /\ ReverseMap (omap keyspaceID (fst (Map ToBytes vind ids)))
        = Ok (map (fun b => sqltypes.MakeTrusted sqltypes.VarBinary (Some b))
                  bs))
  /\ (forall vind (v : sqltypes.Value) (b : list byte),
        ToBytes v = (Some b, None) ->
        (ReverseMap (omap keyspaceID (fst (Map ToBytes vind [v]))) = Ok [v]
         <-> v = sqltypes.mkValue sqltypes.VarBinary (Some b)))
  /\ (forall ksids : list key.bytes,
        In None ksids ->
        ReverseMap ksids
        = Err (vterrors.Errorf "Binary.ReverseMap: keyspaceId is nil")).
Proof.
  assert (Hlist : forall vind (ids : list sqltypes.Value)
                         (bs : list (list byte)),
     Forall2 (fun id b => ToBytes id = (Some b, None)) ids bs ->
     Map ToBytes vind ids
     = (map (fun b => key.DestinationKeyspaceID (Some b)) bs, None)
     /\ ReverseMap (omap keyspaceID (fst (Map ToBytes vind ids)))
        = Ok (map (fun b => sqltypes.MakeTrusted sqltypes.VarBinary (Some b))
                  bs)).
  { intros vind ids bs H.
    assert (Hm : Map ToBytes vind ids
                 = (map key.DestinationKeyspaceID (map Some bs), None)).
    { unfold Map. rewrite (MapFrom_hashed vind ids (map Some bs) []);
        [reflexivity|].
      clear -H. induction H; cbn; constructor; auto. }
    rewrite Hm. cbn [fst]. rewrite keyspaceID_of_Map, ReverseMap_present.
    rewrite map_map. split; reflexivity. }
  split; [exact Hlist|]. split.
  - intros vind v b Hv.
    destruct (Hlist vind [v] [b]) as [_ ->]; [repeat constructor; exact Hv|].
    cbn. unfold sqltypes.MakeTrusted. split.
    + intros [= <-]. reflexivity.
    + intros ->. reflexivity.
  - intros ksids Hin. unfold ReverseMap. apply ReverseMapFrom_nil. exact Hin.
Qed.

End binary_props.

(** C6 (as stated, refuted): the INT64 value "1" has the bytes "1", which
    are not nil; mapping it and reversing gives the VARBINARY value "1",
    which is another value. *)
Lemma binary_reverse_of_map_changes_type :
  let v := sqltypes.mkValue sqltypes.Int64 (Some [x31]) in
  let back :=
    vindexes.ReverseMap
      (omap vindexes.keyspaceID
         (fst (vindexes.Map sqltypes.rawToBytes (vindexes.mkBinary "binary" [])
                 [v]))) in
  sqltypes.rawToBytes v = (Some [x31], None)
  /\ back = Ok [sqltypes.mkValue sqltypes.VarBinary (Some [x31])]
  /\ (back = Ok [v] -> False).
Proof. repeat split. discriminate. Qed.

(** ** The stateful connection *)

Section connection_props.
Import tabletserver.
Variable B : Backend.
Variable userLabelDisabled : string.

Lemma valueAt_Add (c : gmap string Z) (label : string) (v : Z) :
  valueAt (Add c label v) label = (valueAt c label + v)%Z.
Proof. unfold valueAt, Add. rewrite lookup_insert_eq. reflexivity. Qed.

Lemma valueAt_Add_ne (c : gmap string Z) (label other : string) (v : Z) :
  label <> other -> valueAt (Add c label v) other = valueAt c other.
Proof.
  intros Hne. unfold valueAt, Add. rewrite lookup_insert_ne by exact Hne.
  reflexivity.
Qed.

Lemma ReleaseString_released reason now (w : World) :
  dbConn (sc w) = None ->
  ReleaseString userLabelDisabled reason now w = (w, Ok tt).
Proof.
  intros H. unfold ReleaseString, sbind, getConn. rewrite H. reflexivity.
Qed.

(** A release of a connection that has its backend connection: the calls
    it makes, the counters it moves, and the connection it leaves. *)
Lemma ReleaseString_live reason now (w : World) (c : PooledConn) :
  dbConn (sc w) = Some c ->
  ReleaseString userLabelDisabled reason now w
  = (mkWorld (set_dbConn None (sc w))
             (releasedStats userLabelDisabled now (sc w) (stats w))
             (calls w ++ releaseCalls reason c (sc w)),
     Ok tt).
Proof.
  destruct w as [s st cs]. cbn [sc stats calls]. intros H.
  unfold ReleaseString, logReservedConn, getUsername, releasedStats,
    releaseCalls, userOf.
  unfold sbind at 1, getConn at 1. cbn [sc]. rewrite H.
  destruct s as [p d id skip tp rp t et to ex]. cbn in H. subst d.
  destruct rp as [rp|];
    [destruct (callerid.GetPrincipal (EffectiveCaller rp) =? "")%string eqn:E|];
    destruct p, skip;
    unfold sbind, getConn, call, setConn, setStats, sret, spanic; cbn;
    rewrite ?E; cbn; rewrite <- ?app_assoc; reflexivity.
Qed.

Lemma ReleaseString_dbConn reason now (w : World) :
  dbConn (sc (fst (ReleaseString userLabelDisabled reason now w))) = None.
Proof.
  destruct (dbConn (sc w)) as [c|] eqn:H.
  - rewrite (ReleaseString_live reason now w c H). reflexivity.
  - rewrite (ReleaseString_released reason now w H). exact H.
Qed.

(** A first [Taint] of a connection that has its backend connection. *)
Lemma Taint_live ctx tw now (w : World) (c : PooledConn) :
  dbConn (sc w) = Some c ->
  tainted (sc w) = false ->
  let rp := mkProperties (EffectiveCallerIDFromContext ctx)
                         (ImmediateCallerIDFromContext ctx) now tw in
  Taint userLabelDisabled ctx tw now w
  = (mkWorld
       (set_dbConn (Some (set_conn_Tainted true c))
                   (set_reserved true (Some rp) (sc w)))
       (set_UserActiveReservedCount
          (Add (UserActiveReservedCount (stats w))
               (reservedLabel userLabelDisabled (sc w) rp) 1)
          (stats w))
       (calls w),
     Ok tt).
Proof.
  destruct w as [s st cs]. cbn [sc stats calls]. intros Hc Ht. cbv zeta.
  unfold Taint, getUsername, reservedLabel, userOf.
  unfold sbind at 1, getConn at 1. cbn [sc]. rewrite Hc, Ht.
  destruct s as [p d id skip tp rp0 t et to ex]. cbn in Hc, Ht. subst d t.
  destruct (callerid.GetPrincipal (EffectiveCallerIDFromContext ctx) =? "")%string
    eqn:E; destruct skip;
    unfold sbind, getConn, call, setConn, setStats, sret, spanic; cbn;
    rewrite ?E; reflexivity.
Qed.

Lemma unregisterCount_release id reason c (s : StatefulConnection) cs :
  pool s = true -> ConnID_ s = id ->
  unregisterCount id (cs ++ releaseCalls reason c s)
  = S (unregisterCount id cs).
Proof.
  intros Hp <-. unfold unregisterCount, releaseCalls. rewrite Hp.
  rewrite List.filter_app, length_app. cbn. rewrite Z.eqb_refl.
  destruct (reservedProps s); cbn; lia.
Qed.

(** C8 (amended): [Taint] fails with FAILED_PRECONDITION on a released
    connection (one whose [dbConn] is nil; the error text calls it closed)
    and on a tainted one.  On any other connection, whether its backend
    connection is open or has been closed, it records the reserved
    properties from the caller ids of the context, sets [tainted], taints
    the backend connection, which then reads as tainted and is otherwise
    as it was, and adds one to [UserActiveReservedCount] under the user
    label, or under the disabled label when [SkipUserMetrics] is set.  A
    second [Taint] fails whatever the first did. *)
Theorem taint_once (ctx : Context) (tw : TimingsWrapper) (now : Time)
    (w : World) :
  (dbConn (sc w) = None ->
     Taint userLabelDisabled ctx tw now w
     = (w, Err (vterrors.New vtrpcpb.Code_FAILED_PRECONDITION
                  "connection is closed")))
  /\ (forall c, dbConn (sc w) = Some c -> tainted (sc w) = true ->
        Taint userLabelDisabled ctx tw now w
        = (w, Err (vterrors.New vtrpcpb.Code_FAILED_PRECONDITION
                     "connection is already reserved")))
  /\ (forall c, dbConn (sc w) = Some c -> tainted (sc w) = false ->
        let rp := mkProperties (EffectiveCallerIDFromContext ctx)
                               (ImmediateCallerIDFromContext ctx) now tw in
        let label := if SkipUserMetrics (sc w) then userLabelDisabled
                     else userOf rp in
        let w1 := fst (Taint userLabelDisabled ctx tw now w) in
        snd (Taint userLabelDisabled ctx tw now w) = Ok tt
        /\ reservedProps (sc w1) = Some rp
        /\ tainted (sc w1) = true
        /\ dbConn (sc w1) = Some (set_conn_Tainted true c)
        /\ (exists c',
              dbConn (sc w1) = Some c'
              /\ conn_Tainted c' = true
              /\ conn_IsClosed c' = conn_IsClosed c
              /\ conn_Setting c' = conn_Setting c
              /\ conn_ID c' = conn_ID c
              /\ conn_Current c' = conn_Current c
              /\ conn_IsUnixSocket c' = conn_IsUnixSocket c)
        /\ IsClosed (sc w1) = IsClosed (sc w)
        /\ UserActiveReservedCount (stats w1)
           = Add (UserActiveReservedCount (stats w)) label 1
        /\ valueAt (UserActiveReservedCount (stats w1)) label
           = (valueAt (UserActiveReservedCount (stats w)) label + 1)%Z
        /\ (forall other, other <> label ->
              valueAt (UserActiveReservedCount (stats w1)) other
              = valueAt (UserActiveReservedCount (stats w)) other))
  /\ (forall ctx' tw' now',
        exists msg,
          snd (Taint userLabelDisabled ctx' tw' now'
                 (fst (Taint userLabelDisabled ctx tw now w)))
          = Err (vterrors.New vtrpcpb.Code_FAILED_PRECONDITION msg)).
Proof.
  assert (Hclosed : forall ctx0 tw0 now0 w0, dbConn (sc w0) = None ->
     Taint userLabelDisabled ctx0 tw0 now0 w0
     = (w0, Err (vterrors.New vtrpcpb.Code_FAILED_PRECONDITION
                   "connection is closed"))).
  { intros ctx0 tw0 now0 w0 H. unfold Taint, sbind, getConn. rewrite H.
    reflexivity. }
  assert (Htainted : forall ctx0 tw0 now0 w0 c, dbConn (sc w0) = Some c ->
     tainted (sc w0) = true ->
     Taint userLabelDisabled ctx0 tw0 now0 w0
     = (w0, Err (vterrors.New vtrpcpb.Code_FAILED_PRECONDITION
                   "connection is already reserved"))).
  { intros ctx0 tw0 now0 w0 c H Ht. unfold Taint, sbind, getConn.
    rewrite H, Ht. reflexivity. }
  split; [apply Hclosed|]. split; [apply Htainted|]. split.
  - intros c Hc Ht rp label w1. subst w1.
    rewrite (Taint_live ctx tw now w c Hc Ht). cbn.
    fold rp. unfold reservedLabel. fold label.
    split; [reflexivity|]. split; [reflexivity|]. split; [reflexivity|].
    split; [reflexivity|].
    split; [exists (set_conn_Tainted true c); repeat split|].
    split; [unfold IsClosed; rewrite Hc; reflexivity|].
    split; [reflexivity|]. split.
    + apply valueAt_Add.
    + intros other Hne. apply valueAt_Add_ne. auto.
  - intros ctx' tw' now'.
    destruct (dbConn (sc w)) as [c|] eqn:Hc.
    + destruct (tainted (sc w)) eqn:Ht.
      * rewrite (Htainted ctx tw now w c Hc Ht). cbn [fst].
        rewrite (Htainted ctx' tw' now' w c Hc Ht). eexists. reflexivity.
      * rewrite (Taint_live ctx tw now w c Hc Ht). cbn [fst].
        erewrite Htainted; [eexists; reflexivity| |]; reflexivity.
    + rewrite (Hclosed ctx tw now w Hc). cbn [fst].
      rewrite (Hclosed ctx' tw' now' w Hc). eexists. reflexivity.
Qed.

(** C9 (amended): a [Taint] followed by the release of the connection adds
    one to [UserActiveReservedCount] and then takes one off under the same
    label (the user, or the disabled label when [SkipUserMetrics] is set),
    so the counter is back where it was.  Without [SkipUserMetrics] the
    release also adds one to [UserReservedCount] and the elapsed
    nanoseconds to [UserReservedTimesNs] under the user; with
    [SkipUserMetrics] it leaves these two counters as they are.  A further
    release changes nothing. *)
Theorem reserved_metrics_on_release
    (ctx : Context) (tw : TimingsWrapper) (now later : Time) (reason : string)
    (w : World) (c : PooledConn) :
  dbConn (sc w) = Some c ->
  tainted (sc w) = false ->
  let rp := mkProperties (EffectiveCallerIDFromContext ctx)
                         (ImmediateCallerIDFromContext ctx) now tw in
  let label := if SkipUserMetrics (sc w) then userLabelDisabled
               else userOf rp in
  let w1 := fst (Taint userLabelDisabled ctx tw now w) in
  let w2 := fst (ReleaseString userLabelDisabled reason later w1) in
  UserActiveReservedCount (stats w1)
  = Add (UserActiveReservedCount (stats w)) label 1
  /\ UserActiveReservedCount (stats w2)
     = Add (UserActiveReservedCount (stats w1)) label (-1)
  /\ valueAt (UserActiveReservedCount (stats w2)) label
     = valueAt (UserActiveReservedCount (stats w)) label
  /\ (SkipUserMetrics (sc w) = false ->
      UserReservedCount (stats w2)
      = Add (UserReservedCount (stats w)) (userOf rp) 1
      /\ UserReservedTimesNs (stats w2)
         = Add (UserReservedTimesNs (stats w)) (userOf rp) (later - now))
  /\ (SkipUserMetrics (sc w) = true ->
      UserReservedCount (stats w2) = UserReservedCount (stats w)
      /\ UserReservedTimesNs (stats w2) = UserReservedTimesNs (stats w))
  /\ (forall reason' later',
        ReleaseString userLabelDisabled reason' later' w2 = (w2, Ok tt)).
Proof.
  intros Hc Ht rp label w1 w2.
  pose proof (Taint_live ctx tw now w c Hc Ht) as E1. cbv zeta in E1.
  fold rp in E1. unfold reservedLabel in E1. fold label in E1.
  assert (Hc1 : dbConn (sc w1) = Some (set_conn_Tainted true c))
    by (unfold w1; rewrite E1; reflexivity).
  assert (Hrp : reservedProps (sc w1) = Some rp)
    by (unfold w1; rewrite E1; reflexivity).
  assert (Hsk : SkipUserMetrics (sc w1) = SkipUserMetrics (sc w))
    by (unfold w1; rewrite E1; reflexivity).
  assert (Hs1 : stats w1
                = set_UserActiveReservedCount
                    (Add (UserActiveReservedCount (stats w)) label 1) (stats w))
    by (unfold w1; rewrite E1; reflexivity).
  assert (Hs2 : stats w2
                = releasedStats userLabelDisabled later (sc w1) (stats w1))
    by (unfold w2; rewrite (ReleaseString_live reason later w1 _ Hc1);
        reflexivity).
  assert (Hc2 : dbConn (sc w2) = None) by apply ReleaseString_dbConn.
  clearbody w1 w2. rewrite Hs2. unfold releasedStats. rewrite Hrp, Hsk, Hs1.
  cbn [UserActiveReservedCount UserReservedCount UserReservedTimesNs
       set_UserActiveReservedCount StartTime rp].
  subst label. destruct (SkipUserMetrics (sc w)); cbn.
  - repeat split; try discriminate.
    rewrite !valueAt_Add. lia.
    intros; apply ReleaseString_released; exact Hc2.
  - repeat split; try discriminate.
    rewrite !valueAt_Add. lia.
    intros; apply ReleaseString_released; exact Hc2.
Qed.

(** What the guarded operations do on a connection whose [dbConn] is nil. *)
Lemma closed_Exec ctx query maxrows wantfields (w : World) :
  dbConn (sc w) = None ->
  Exec B ctx query maxrows wantfields w
  = (w, Err (vterrors.New vtrpcpb.Code_ABORTED
               match txProps (sc w) with
               | Some tp => "transaction was aborted: " ++ Conclusion tp
               | None => "connection was aborted"
               end)).
Proof.
  intros H. unfold Exec, sbind, getConn, IsClosed, IsInTransaction.
  rewrite H. destruct (txProps (sc w)); reflexivity.
Qed.

Lemma closed_execWithRetry ctx query maxrows wantfields (w : World) :
  dbConn (sc w) = None ->
  execWithRetry B ctx query maxrows wantfields w
  = (w, Err (vterrors.New vtrpcpb.Code_CANCELED "connection is closed")).
Proof.
  intros H. unfold execWithRetry, sbind, getConn, IsClosed. rewrite H.
  reflexivity.
Qed.

Lemma closed_FetchNext ctx maxrows wantfields (w : World) :
  dbConn (sc w) = None ->
  FetchNext B ctx maxrows wantfields w
  = (w, Err (vterrors.New vtrpcpb.Code_CANCELED "connection is closed")).
Proof.
  intros H. unfold FetchNext, sbind, getConn, IsClosed. rewrite H.
  reflexivity.
Qed.

Lemma closed_Taint ctx tw now (w : World) :
  dbConn (sc w) = None ->
  Taint userLabelDisabled ctx tw now w
  = (w, Err (vterrors.New vtrpcpb.Code_FAILED_PRECONDITION
               "connection is closed")).
Proof.
  intros H. unfold Taint, sbind, getConn. rewrite H. reflexivity.
Qed.

Lemma closed_unlock updateTime now (w : World) :
  dbConn (sc w) = None ->
  unlock userLabelDisabled updateTime now w = (w, Ok tt).
Proof.
  intros H. unfold unlock, sbind, getConn. rewrite H. reflexivity.
Qed.

Lemma closed_Close (w : World) :
  dbConn (sc w) = None -> Close w = (w, Ok tt).
Proof. intros H. unfold Close, sbind, getConn. rewrite H. reflexivity. Qed.

Lemma closed_Kill reason elapsed (w : World) :
  dbConn (sc w) = None -> Kill B reason elapsed w = (w, Panic nilDeref).
Proof. intros H. unfold Kill, sbind, getConn. rewrite H. reflexivity. Qed.

Lemma closed_ApplySetting ctx setting (w : World) :
  dbConn (sc w) = None ->
  ApplySetting B ctx setting w = (w, Panic nilDeref).
Proof.
  intros H. unfold ApplySetting, sbind, getConn. rewrite H. reflexivity.
Qed.

(** C2 (amended): after a release [dbConn] is nil; [Exec], [execWithRetry],
    [FetchNext] and [Taint] then return an error and leave the connection as
    it is, and [Unlock], [UnlockUpdateTime], [Close] and a further release
    do nothing.  [Kill] and [ApplySetting] have no test of [dbConn]: on a
    released connection they end in the nil-pointer panic of reaching for
    the absent backend connection. *)
Theorem released_connection_operations
    (reason : string) (now : Time) (w : World) :
  let w1 := fst (ReleaseString userLabelDisabled reason now w) in
  dbConn (sc w1) = None
  /\ (forall ctx query maxrows wantfields,
        exists msg,
          Exec B ctx query maxrows wantfields w1
          = (w1, Err (vterrors.New vtrpcpb.Code_ABORTED msg)))
  /\ (forall ctx query maxrows wantfields,
        execWithRetry B ctx query maxrows wantfields w1
        = (w1, Err (vterrors.New vtrpcpb.Code_CANCELED "connection is closed")))
  /\ (forall ctx maxrows wantfields,
        FetchNext B ctx maxrows wantfields w1
        = (w1, Err (vterrors.New vtrpcpb.Code_CANCELED "connection is closed")))
  /\ (forall ctx tw now',
        Taint userLabelDisabled ctx tw now' w1
        = (w1, Err (vterrors.New vtrpcpb.Code_FAILED_PRECONDITION
                      "connection is closed")))
  /\ (forall now', Unlock userLabelDisabled now' w1 = (w1, Ok tt))
  /\ (forall now', UnlockUpdateTime userLabelDisabled now' w1 = (w1, Ok tt))
  /\ Close w1 = (w1, Ok tt)
  /\ (forall reason' now',
        ReleaseString userLabelDisabled reason' now' w1 = (w1, Ok tt))
  /\ (forall reason' elapsed, Kill B reason' elapsed w1 = (w1, Panic nilDeref))
  /\ (forall ctx setting,
        ApplySetting B ctx setting w1 = (w1, Panic nilDeref)).
Proof.
  intros w1.
  assert (H : dbConn (sc w1) = None) by apply ReleaseString_dbConn.
  clearbody w1. split; [exact H|].
  split; [intros; eexists; apply closed_Exec; exact H|].
  split; [intros; apply closed_execWithRetry; exact H|].
  split; [intros; apply closed_FetchNext; exact H|].
  split; [intros; apply closed_Taint; exact H|].
  split; [intros; unfold Unlock, sbind, getConn; apply closed_unlock; exact H|].
  split; [intros; apply closed_unlock; exact H|].
  split; [apply closed_Close; exact H|].
  split; [intros; apply ReleaseString_released; exact H|].
  split; [intros; apply closed_Kill; exact H|].
  intros; apply closed_ApplySetting; exact H.
Qed.

(** C3 (amended): a release of a connection that has its backend connection
    leaves the transaction state as it is, and [Exec] after it returns
    ABORTED: "connection was aborted" when the connection has no transaction
    state, "transaction was aborted: ..." when it has.  With a pool, the
    release has called [unregister] once for the connection, and further
    releases call nothing. *)
Theorem exec_after_release
    (reason : string) (now : Time) (ctx : Context) (query : string)
    (maxrows : Z) (wantfields : bool) (w : World) (c : PooledConn) :
  dbConn (sc w) = Some c ->
  let w1 := fst (ReleaseString userLabelDisabled reason now w) in
  Exec B ctx query maxrows wantfields w1
  = (w1, Err (vterrors.New vtrpcpb.Code_ABORTED
                match txProps (sc w) with
                | Some tp => "transaction was aborted: " ++ Conclusion tp
                | None => "connection was aborted"
                end))
  /\ txProps (sc w1) = txProps (sc w)
  /\ (pool (sc w) = true ->
      unregisterCount (ConnID_ (sc w)) (calls w1)
      = S (unregisterCount (ConnID_ (sc w)) (calls w)))
  /\ (forall reason' now',
        ReleaseString userLabelDisabled reason' now' w1 = (w1, Ok tt)).
Proof.
  intros Hc w1.
  assert (Hd : dbConn (sc w1) = None) by apply ReleaseString_dbConn.
  assert (Htx : txProps (sc w1) = txProps (sc w)).
  { unfold w1. rewrite (ReleaseString_live reason now w c Hc).
    destruct w as [[]]; reflexivity. }
  assert (Hcalls : calls w1 = (calls w ++ releaseCalls reason c (sc w))%list).
  { unfold w1. rewrite (ReleaseString_live reason now w c Hc). reflexivity. }
  clearbody w1. split.
  - rewrite (closed_Exec ctx query maxrows wantfields w1 Hd), Htx.
    reflexivity.
  - split; [exact Htx|]. split.
    + intros Hp. rewrite Hcalls. apply unregisterCount_release; auto.
    + intros. apply ReleaseString_released. exact Hd.
Qed.

End connection_props.

(** C2 (as stated, refuted): on a released connection [Kill] and
    [ApplySetting] neither return an error nor return at all. *)
Lemma released_Kill_and_ApplySetting_panic :
  let w1 :=
    fst (tabletserver.ReleaseString demoConn.userLabelDisabled "kill" 5%Z
           (demoConn.world false)) in
  tabletserver.dbConn (tabletserver.sc w1) = None
  /\ tabletserver.Kill demoConn.backend "timeout" 1%Z w1
     = (w1, Panic tabletserver.nilDeref)
  /\ tabletserver.ApplySetting demoConn.backend demoConn.ctx (Some 1%N) w1
     = (w1, Panic tabletserver.nilDeref).
Proof. repeat split. Qed.

(** C3 (as stated, refuted): a connection with no transaction state is
    released; [Exec] then returns ABORTED, which is not CANCELED. *)
Lemma exec_after_release_is_not_canceled :
  let w1 :=
    fst (tabletserver.ReleaseString demoConn.userLabelDisabled "kill" 5%Z
           (demoConn.world false)) in
  let r := snd (tabletserver.Exec demoConn.backend demoConn.ctx "select 1"
                  10%Z false w1) in
  tabletserver.txProps (tabletserver.sc (demoConn.world false)) = None
  /\ r = Err (vterrors.New vtrpcpb.Code_ABORTED "connection was aborted")
  /\ (forall msg, r = Err (vterrors.New vtrpcpb.Code_CANCELED msg) -> False).
Proof. repeat split. discriminate. Qed.

(** C8 (as stated, refuted): a connection whose backend connection has
    been closed reads as closed, yet [Taint] on it does not fail: it
    reserves the connection. *)
Lemma taint_of_closed_connection_succeeds :
  let w1 := fst (tabletserver.Close (demoConn.world false)) in
  let run :=
    tabletserver.Taint demoConn.userLabelDisabled demoConn.ctx "reserved"
      100%Z w1 in
  tabletserver.IsClosed (tabletserver.sc w1) = true
  /\ snd run = Ok tt
  /\ tabletserver.tainted (tabletserver.sc (fst run)) = true
  /\ (forall msg,
        snd run = Err (vterrors.New vtrpcpb.Code_FAILED_PRECONDITION msg) ->
        False).
Proof. repeat split; try (vm_compute; reflexivity). discriminate. Qed.

Lemma exec_after_release_witness :
  let w1 :=
    fst (tabletserver.ReleaseString demoConn.userLabelDisabled "kill" 5%Z
           (demoConn.world false)) in
  tabletserver.Exec demoConn.backend demoConn.ctx "select 1" 10%Z false w1
  = (w1, Err (vterrors.New vtrpcpb.Code_ABORTED "connection was aborted"))
  /\ connVocabulary.unregisterCount 42%Z (tabletserver.calls w1) = 1.
Proof.
  pose proof (exec_after_release demoConn.backend demoConn.userLabelDisabled
                "kill" 5%Z demoConn.ctx "select 1" 10%Z false
                (demoConn.world false) demoConn.liveConn eq_refl) as H.
  cbv zeta in H. destruct H as (He & _ & Hu & _).
  split; [exact He|exact (Hu eq_refl)].
Defined.

(** C9 (as stated, refuted): with [SkipUserMetrics] set, a [Taint] and the
    release have taken [UserActiveReservedCount] under the disabled label
    up and down again, and have added nothing to [UserReservedCount] or
    [UserReservedTimesNs], under the disabled label or any other. *)
Lemma skipped_metrics_add_no_reserved_count :
  let w1 :=
    fst (tabletserver.Taint demoConn.userLabelDisabled demoConn.ctx "reserved"
           100%Z (demoConn.world true)) in
  let w2 :=
    fst (tabletserver.ReleaseString demoConn.userLabelDisabled "kill" 250%Z
           w1) in
  tabletserver.UserActiveReservedCount (tabletserver.stats w1)
    !! demoConn.userLabelDisabled = Some 1%Z
  /\ tabletserver.UserActiveReservedCount (tabletserver.stats w2)
     !! demoConn.userLabelDisabled = Some 0%Z
  /\ tabletserver.UserReservedCount (tabletserver.stats w2) = ∅
  /\ tabletserver.UserReservedTimesNs (tabletserver.stats w2) = ∅.
Proof. repeat split; vm_compute; reflexivity. Qed.

Lemma reserved_metrics_on_release_witness :
  let w1 :=
    fst (tabletserver.Taint demoConn.userLabelDisabled demoConn.ctx "reserved"
           100%Z (demoConn.world false)) in
  let w2 :=
    fst (tabletserver.ReleaseString demoConn.userLabelDisabled "kill" 250%Z
           w1) in
  connVocabulary.valueAt
    (tabletserver.UserActiveReservedCount (tabletserver.stats w2)) "bob"
  = connVocabulary.valueAt
      (tabletserver.UserActiveReservedCount
         (tabletserver.stats (demoConn.world false))) "bob"
  /\ tabletserver.UserReservedCount (tabletserver.stats w2)
     = tabletserver.Add ∅ "bob" 1
  /\ tabletserver.UserReservedTimesNs (tabletserver.stats w2)
     = tabletserver.Add ∅ "bob" 150.
Proof.
  pose proof (reserved_metrics_on_release demoConn.userLabelDisabled
                demoConn.ctx "reserved" 100%Z 250%Z "kill"
                (demoConn.world false) demoConn.liveConn eq_refl eq_refl) as H.
  cbv zeta in H. destruct H as (_ & _ & Hv & Hn & _).
  split; [exact Hv|exact (Hn eq_refl)].
Defined.

(** ** The scenarios of the specification, run on the small instances *)

Section scenarios.
Import sqlparser planbuilder.

(** [SELECT 1] is answered by the dual shortcut. *)
Example select_one_is_a_projection :
  gen4SelectStmtPlanner demo.X demo.vschema "select 1" Gen4 demo.reservedVars
    (SelectStmt (dualSelect [AliasedExpr (Literal IntVal "1") ""] "" None))
  = (SelectStmt (dualSelect [AliasedExpr (Literal IntVal "1") ""] "" None),
     Ok (newPlanResult
           (engine.PProjection [Some (evalengine.Compiled 1)] ["1"]
                               engine.PSingleRow)
           ["main.dual"])).
Proof. reflexivity. Qed.

(** [SELECT GET_LOCK('x', 0), 1 FROM dual] is refused. *)
Example lock_then_plain_is_refused :
  handleDualSelects demo.X demo.vschema
    (dualSelect [AliasedExpr (LockingFuncExpr demo.getLockX) "";
                 AliasedExpr (Literal IntVal "1") ""] "" None)
  = Err (vterrors.VT12001
           "LOCK function and other expression: [1] in same select query").
Proof. reflexivity. Qed.

(** A plan that is eligible for the retry is replaced by the rebuilt plan
    that found its table name. *)
Example retry_adopts_the_better_plan :
  snd (planWithRetry demo.X demo.vschema Gen4 demo.reservedVars
         (SelectStmt demo.selectWhere))
  = Ok (newPlanResult
          (engine.PRoute
             (engine.mkRoute engine.DBA []
                [("table_name", evalengine.Compiled 1)] false "is"))
          ["main.t"]).
Proof. reflexivity. Qed.

(** When the rewrite changes nothing the rebuilt plan is as eligible as the
    first, which is kept. *)
Example retry_keeps_the_first_plan :
  snd (planWithRetry (demo.collaborators (fun st => (st, Ok SameNode)))
         demo.vschema Gen4 demo.reservedVars (SelectStmt demo.selectWhere))
  = Ok (newPlanResult
          (engine.PRoute (engine.mkRoute engine.DBA [] [] false "is"))
          ["main.t"]).
Proof. reflexivity. Qed.

(** A first [Taint] succeeds and counts the user; a second is refused. *)
Example taint_twice :
  let first :=
    tabletserver.Taint demoConn.userLabelDisabled demoConn.ctx "reserved"
      100%Z (demoConn.world false) in
  snd first = Ok tt
  /\ tabletserver.UserActiveReservedCount (tabletserver.stats (fst first))
     !! "bob" = Some 1%Z
  /\ snd (tabletserver.Taint demoConn.userLabelDisabled demoConn.ctx
            "reserved" 101%Z (fst first))
     = Err (vterrors.New vtrpcpb.Code_FAILED_PRECONDITION
              "connection is already reserved").
Proof. repeat split; vm_compute; reflexivity. Qed.

(** A VARBINARY value comes back from [ReverseMap] of [Map] as it was. *)
Example binary_round_trip_of_varbinary :
  vindexes.ReverseMap
    (omap vindexes.keyspaceID
       (fst (vindexes.Map sqltypes.rawToBytes (vindexes.mkBinary "binary" [])
               [sqltypes.mkValue sqltypes.VarBinary (Some [x01; x02])])))
  = Ok [sqltypes.mkValue sqltypes.VarBinary (Some [x01; x02])].
Proof. reflexivity. Qed.

End scenarios.

(** ** More on the Binary vindex: [Map], [Verify] and [RangeMap] *)

Section binary_more_props.
Import vindexes.
Local Open Scope list_scope.
Variable ToBytes : sqltypes.Value -> key.bytes * option vterrors.error.

Lemma MapFrom_stops vind (pre : list sqltypes.Value) : forall bs out bad rest b0 err,
  Forall2 (fun id b => ToBytes id = (b, None)) pre bs ->
  ToBytes bad = (b0, Some err) ->
  MapFrom ToBytes vind (pre ++ bad :: rest) out
  = (out ++ map key.DestinationKeyspaceID bs, Some err).
Proof.
  induction pre as [|id pre IH]; intros bs out bad rest b0 err H Hbad;
    inversion H as [|? b ? bs' Hb Hrest]; subst; cbn.
  - unfold Hash. rewrite Hbad, app_nil_r. reflexivity.
  - unfold Hash at 1. rewrite Hb.
    rewrite (IH _ _ _ _ _ _ Hrest Hbad), <- app_assoc. reflexivity.
Qed.

(** X1: [Map] stops at the first id whose hash fails: it returns that error
    together with the destinations of the ids before it, and does not look
    at the ids after it. *)
Theorem Map_stops_at_first_error
    (vind : Binary) (pre rest : list sqltypes.Value) (bad : sqltypes.Value)
    (bs : list key.bytes) (b0 : key.bytes) (err : vterrors.error) :
  Forall2 (fun id b => ToBytes id = (b, None)) pre bs ->
  ToBytes bad = (b0, Some err) ->
  Map ToBytes vind (pre ++ bad :: rest)
  = (map key.DestinationKeyspaceID bs, Some err).
Proof.
  intros H Hbad. unfold Map.
  rewrite (MapFrom_stops vind pre bs [] bad rest b0 err H Hbad). reflexivity.
Qed.

Lemma MapFrom_success vind (ids : list sqltypes.Value) : forall acc out,
  MapFrom ToBytes vind ids acc = (out, None) ->
  exists bs, out = acc ++ map key.DestinationKeyspaceID bs
             /\ Forall2 (fun id b => ToBytes id = (b, None)) ids bs.
Proof.
  induction ids as [|id ids IH]; intros acc out; cbn.
  - intros [= <-]. exists []. rewrite app_nil_r. split; constructor.
  - unfold Hash at 1. destruct (ToBytes id) as [b [e|]] eqn:Hb;
      [discriminate|].
    intros H. destruct (IH _ _ H) as (bs & -> & Hall).
    exists (b :: bs). rewrite <- app_assoc. split; [reflexivity|].
    constructor; assumption.
Qed.

(** X2: when [Map] returns no error it has one destination for each id, in
    order, each a [DestinationKeyspaceID] holding the hash of its id; it
    never answers with a key range. *)
Theorem Map_success_shape
    (vind : Binary) (ids : list sqltypes.Value)
    (out : list key.ShardDestination) :
  Map ToBytes vind ids = (out, None) ->
  length out = length ids
  /\ exists bs, out = map key.DestinationKeyspaceID bs
                /\ Forall2 (fun id b => ToBytes id = (b, None)) ids bs.
Proof.
  intros H. destruct (MapFrom_success vind ids [] out H) as (bs & -> & Hall).
  cbn. split; [|exists bs; auto].
  rewrite length_map. symmetry. eapply Forall2_length. exact Hall.
Qed.

Lemma sameBytes_refl (a : list byte) : sameBytes a a = true.
Proof.
  induction a as [|x a IH]; cbn; [reflexivity|].
  rewrite (Byte.byte_dec_lb eq_refl), IH. reflexivity.
Qed.

Lemma sameBytes_eq (a b : list byte) : sameBytes a b = true <-> a = b.
Proof.
  split; [|intros ->; apply sameBytes_refl].
  revert b. induction a as [|x a IH]; intros [|y b]; cbn; try discriminate;
    [reflexivity|].
  intros H. apply andb_prop in H. destruct H as [Hx Hr].
  apply Byte.byte_dec_bl in Hx. rewrite (IH _ Hr), Hx. reflexivity.
Qed.

Lemma VerifyFrom_in_range vind (ids : list sqltypes.Value) :
  forall bs (seen ksids : list key.bytes) out,
  Forall2 (fun id b => ToBytes id = (b, None)) ids bs ->
  length ids <= length ksids ->
  VerifyFrom ToBytes vind ids (seen ++ ksids) (length seen) out
  = Ok (out ++ zip_with bytesEqual bs ksids, None).
Proof.
  induction ids as [|id ids IH]; intros bs seen ksids out H Hlen;
    inversion H as [|? b ? bs' Hb Hrest]; subst; cbn.
  - rewrite app_nil_r. reflexivity.
  - destruct ksids as [|k ksids]; [cbn in Hlen; lia|].
    unfold Hash at 1. rewrite Hb.
    rewrite lookup_app_r by lia. rewrite Nat.sub_diag. cbn.
    replace (seen ++ k :: ksids) with ((seen ++ [k]) ++ ksids)
      by (rewrite <- app_assoc; reflexivity).
    replace (S (length seen)) with (length (seen ++ [k]))
      by (rewrite length_app; cbn; lia).
    rewrite (IH bs' (seen ++ [k]) ksids _ Hrest) by (cbn in Hlen; lia).
    rewrite <- app_assoc. reflexivity.
Qed.

Lemma VerifyFrom_short vind (ids : list sqltypes.Value) :
  forall bs (seen ksids : list key.bytes) out,
  Forall2 (fun id b => ToBytes id = (b, None)) ids bs ->
  length ksids < length ids ->
  VerifyFrom ToBytes vind ids (seen ++ ksids) (length seen) out
  = Panic "index out of range".
Proof.
  induction ids as [|id ids IH]; intros bs seen ksids out H Hlen;
    inversion H as [|? b ? bs' Hb Hrest]; subst; cbn.
  - cbn in Hlen. lia.
  - unfold Hash at 1. rewrite Hb. destruct ksids as [|k ksids].
    + rewrite app_nil_r, lookup_ge_None_2 by lia. reflexivity.
    + rewrite lookup_app_r by lia. rewrite Nat.sub_diag. cbn.
      replace (seen ++ k :: ksids) with ((seen ++ [k]) ++ ksids)
        by (rewrite <- app_assoc; reflexivity).
      replace (S (length seen)) with (length (seen ++ [k]))
        by (rewrite length_app; cbn; lia).
      apply (IH bs' (seen ++ [k]) ksids _ Hrest). cbn in Hlen. lia.
Qed.

(** X3: for ids that all hash, [Verify] compares the hash of each id with
    the keyspace id at the same index, a nil slice and an empty one being
    equal; keyspace ids beyond the last id are not looked at, and a list of
    keyspace ids shorter than the ids ends in an index-out-of-range panic. *)
Theorem Verify_compares_by_index
    (vind : Binary) (ids : list sqltypes.Value) (bs ksids : list key.bytes) :
  Forall2 (fun id b => ToBytes id = (b, None)) ids bs ->
  (length ids <= length ksids ->
     Verify ToBytes vind ids ksids = Ok (zip_with bytesEqual bs ksids, None))
  /\ (length ksids < length ids ->
        Verify ToBytes vind ids ksids = Panic "index out of range")
  /\ (forall a b : list byte,
        bytesEqual (Some a) (Some b) = true <-> a = b)
  /\ bytesEqual None (Some []) = true.
Proof.
  intros H. split; [|split; [|split]].
  - intros Hlen. exact (VerifyFrom_in_range vind ids bs [] ksids [] H Hlen).
  - intros Hlen. exact (VerifyFrom_short vind ids bs [] ksids [] H Hlen).
  - intros a b. apply sameBytes_eq.
  - reflexivity.
Qed.

Lemma zip_with_bytesEqual_same (bs : list key.bytes) :
  zip_with bytesEqual bs bs = replicate (length bs) true.
Proof.
  induction bs as [|b bs IH]; cbn; [reflexivity|].
  unfold bytesEqual at 1. rewrite sameBytes_refl, IH. reflexivity.
Qed.

(** X4: the keyspace ids that [Map] gives for a list of ids verify against
    those ids: [Verify] answers true at every index. *)
Theorem Verify_accepts_Map
    (vind : Binary) (ids : list sqltypes.Value) (bs : list key.bytes) :
  Forall2 (fun id b => ToBytes id = (b, None)) ids bs ->
  Verify ToBytes vind ids
         (omap keyspaceID (fst (Map ToBytes vind ids)))
  = Ok (replicate (length ids) true, None).
Proof.
  intros H. unfold Map. rewrite (MapFrom_hashed ToBytes vind ids bs [] H).
  cbn [fst app]. rewrite keyspaceID_of_Map.
  assert (Hlen : length ids = length bs) by (eapply Forall2_length; exact H).
  unfold Verify.
  pose proof (VerifyFrom_in_range vind ids bs [] bs [] H) as Hv.
  cbn [app length] in Hv. rewrite Hv by lia.
  rewrite zip_with_bytesEqual_same, Hlen. reflexivity.
Qed.

(** X5: [RangeMap] and [Map] agree on the two ends: [RangeMap] of a start
    and an end answers the single key range from [a] to [b] exactly when
    [Map] of the two values answers the keyspace ids [a] and [b]; when the
    hash of the start fails, its error is the one returned. *)
Theorem RangeMap_agrees_with_Map
    (vind : Binary) (startId endId : sqltypes.Value) (a b : key.bytes) :
  (RangeMap ToBytes vind startId endId = Ok [key.DestinationKeyRange a b]
   <-> Map ToBytes vind [startId; endId]
       = ([key.DestinationKeyspaceID a; key.DestinationKeyspaceID b], None))
  /\ (forall err, snd (ToBytes startId) = Some err ->
        RangeMap ToBytes vind startId endId = Err err).
Proof.
  unfold RangeMap, Map, Hash; cbn. unfold Hash.
  destruct (ToBytes startId) as [sb [se|]] eqn:Hs;
    destruct (ToBytes endId) as [eb [ee|]] eqn:He; cbn;
    (split; [split; intros H; try discriminate H; injection H as <- <-;
             reflexivity
            |intros err [= <-] || intros err Herr; try discriminate Herr;
             reflexivity]).
Qed.

End binary_more_props.

Lemma Map_stops_at_first_error_witness :
  vindexes.Map sqltypes.rawToBytes demoBinary.vindex
    ([demoBinary.valueA] ++ demoBinary.expression :: [demoBinary.valueB])%list
  = ([key.DestinationKeyspaceID (Some [x61])], Some demoBinary.noBytes).
Proof.
  apply (Map_stops_at_first_error sqltypes.rawToBytes demoBinary.vindex
           [demoBinary.valueA] [demoBinary.valueB] demoBinary.expression
           [Some [x61]] None demoBinary.noBytes).
  - repeat constructor.
  - reflexivity.
Defined.

Lemma Map_success_shape_witness :
  length [key.DestinationKeyspaceID (Some [x61]);
          key.DestinationKeyspaceID (Some [x31; x32])]
  = length [demoBinary.valueA; demoBinary.valueB].
Proof.
  exact (proj1 (Map_success_shape sqltypes.rawToBytes demoBinary.vindex
                  [demoBinary.valueA; demoBinary.valueB]
                  [key.DestinationKeyspaceID (Some [x61]);
                   key.DestinationKeyspaceID (Some [x31; x32])]
                  eq_refl)).
Defined.

Lemma Verify_compares_by_index_witness :
  vindexes.Verify sqltypes.rawToBytes demoBinary.vindex
    [demoBinary.valueA; demoBinary.valueB]
    [Some [x61]; Some [x31]; None]
  = Ok ([true; false], None)
  /\ vindexes.Verify sqltypes.rawToBytes demoBinary.vindex
       [demoBinary.valueA; demoBinary.valueB] [Some [x61]]
     = Panic "index out of range".
Proof.
  pose proof (Verify_compares_by_index sqltypes.rawToBytes demoBinary.vindex
                [demoBinary.valueA; demoBinary.valueB]
                [Some [x61]; Some [x31; x32]]) as H.
  split.
  - refine (proj1 (H [Some [x61]; Some [x31]; None] _) _).
    + repeat constructor.
    + cbn. lia.
  - refine (proj1 (proj2 (H [Some [x61]] _)) _).
    + repeat constructor.
    + cbn. lia.
Defined.

Lemma Verify_accepts_Map_witness :
  vindexes.Verify sqltypes.rawToBytes demoBinary.vindex
    [demoBinary.valueA; demoBinary.valueB]
    (omap vindexes.keyspaceID
       (fst (vindexes.Map sqltypes.rawToBytes demoBinary.vindex
               [demoBinary.valueA; demoBinary.valueB])))
  = Ok ([true; true], None).
Proof.
  apply (Verify_accepts_Map sqltypes.rawToBytes demoBinary.vindex
           [demoBinary.valueA; demoBinary.valueB]
           [Some [x61]; Some [x31; x32]]).
  repeat constructor.
Defined.

(** ** More on the dual shortcut *)

Section dual_more_props.
Import sqlparser planbuilder.
Local Open Scope list_scope.
Variable X : Collaborators.
Variable vschema : VSchema.

Lemma limitReturns_None (sel : Select) :
  limitReturns sel = None <-> limitKeepsRow (Limit sel).
Proof.
  unfold limitReturns, limitKeepsRow.
  destruct (Limit sel) as [[off row]|]; cbn; [|split; auto].
  destruct off as [o|]; cbn.
  { split; [discriminate|].
    intros [H|(lim & Hl & Ho & _)]; [discriminate|].
    injection Hl as <-. discriminate. }
  destruct row as [e|].
  2:{ split; [|reflexivity]. intros _. right. eexists.
      split; [reflexivity|]. split; [reflexivity|]. left. reflexivity. }
  assert (Hother : (forall t v, e <> Literal t v) ->
            Some false = None <->
            Some {| Offset := None; Rowcount := Some e |} = None
            \/ (exists lim : LimitT,
                  Some {| Offset := None; Rowcount := Some e |} = Some lim
                  /\ Offset lim = None
                  /\ (Rowcount lim = None
                      \/ (exists t v, Rowcount lim = Some (Literal t v)
                                      /\ v <> "0")))).
  { intros Hn. split; [discriminate|].
    intros [H|(lim & Hl & _ & [Hr|(t & v & Hr & _)])]; [discriminate| |];
      injection Hl as <-; cbn in Hr; [discriminate|].
    injection Hr as ->. exfalso. eapply Hn. reflexivity. }
  destruct e as [t v| | | | |]; try (apply Hother; intros; discriminate).
  clear Hother. destruct (String.eqb_spec v "0") as [->|Hne].
  - split; [discriminate|].
    intros [H|(lim & Hl & _ & [Hr|(t' & v' & Hr & Hv)])]; [discriminate| |];
      injection Hl as <-; cbn in Hr; [discriminate|].
    injection Hr as _ <-. contradiction.
  - split; [|reflexivity]. intros _. right. eexists.
    split; [reflexivity|]. split; [reflexivity|]. right. exists t, v. auto.
Qed.

(** X6: [isOnlyDual] answers true exactly for a select with no WHERE, GROUP
    BY, HAVING or ORDER BY, a LIMIT that keeps the row, and the single
    FROM item [dual] with no qualifier (under any alias); with the same
    clauses and an empty FROM list it panics on [sel.From[0]], while an
    empty FROM list behind a WHERE clause just answers false. *)
Theorem isOnlyDual_true_iff (sel : Select) :
  (isOnlyDual sel = Ok true <->
     Where sel = None /\ GroupBy sel = None /\ Having sel = None
     /\ OrderBy sel = None /\ limitKeepsRow (Limit sel)
     /\ exists alias,
          From sel = [AliasedTableExpr (TableName "dual" "") alias])
  /\ ((exists w, isOnlyDual sel = Panic w) <->
        Where sel = None /\ GroupBy sel = None /\ Having sel = None
        /\ OrderBy sel = None /\ limitKeepsRow (Limit sel)
        /\ From sel = [])
  /\ (From sel = [] -> Where sel <> None -> isOnlyDual sel = Ok false).
Proof.
  rewrite <- limitReturns_None. unfold isOnlyDual.
  destruct (Where sel) as [w|], (GroupBy sel) as [g|], (Having sel) as [h|],
    (OrderBy sel) as [o|]; cbn [is_some orb].
  all: try (split; [split; [discriminate|intros (?&?&?&?&_); discriminate]
                   |split; [split; [intros [? ?]; discriminate
                                   |intros (?&?&?&?&_); discriminate]
                           |reflexivity]]).
  destruct (limitReturns sel) as [b|] eqn:Hl.
  { split; [split; [|intros (_&_&_&_&?&_); discriminate]|
            split; [split; [intros [? ?]; discriminate
                           |intros (_&_&_&_&?&_); discriminate]
                   |intros _ Hw; contradiction]].
    intros [= ->]. exfalso. revert Hl. unfold limitReturns.
    destruct (Limit sel) as [[off row]|]; [|discriminate].
    cbn. destruct off; [discriminate|].
    destruct row as [[t v| | | | |]|]; try discriminate.
    destruct (v =? "0")%string; discriminate. }
  destruct (From sel) as [|tbl rest] eqn:Hf.
  { cbn. split; [split; [discriminate|intros (_&_&_&_&_&a&?); discriminate]|].
    split; [|intros _ Hw; contradiction].
    split; [auto 10|intros _; eexists; reflexivity]. }
  split; [|split; [|discriminate]].
  - destruct rest as [|t2 rest]; cbn.
    + destruct tbl as [[name q|d] a|l r|es];
        try (split; [discriminate|intros (_&_&_&_&_&a'&?); discriminate]).
      split.
      * intros [= H]. apply andb_prop in H. destruct H as [Hn Hq].
        apply String.eqb_eq in Hn, Hq. subst. eauto 10.
      * intros (_&_&_&_&_&a'&[= -> -> ->]). reflexivity.
    + split; [discriminate|intros (_&_&_&_&_&a'&?); discriminate].
  - split; [|intros (_&_&_&_&_&?); discriminate].
    intros [w Hw]. exfalso. revert Hw.
    destruct (1 <? length (tbl :: rest))%nat; [discriminate|].
    destruct tbl as [[name q|d] a|l r|es]; discriminate.
Qed.

(** The loop over columns that are all plain and all translate: each
    writes its translated expression and its name at its own index. *)
Lemma dualColumns_all_plain (cs : list (Expr * string)) :
  forall (ees doneE : list evalengine.Expr) (doneC : list string),
  Forall2 (fun c ee => isLockingFunc (fst c) = false
                       /\ Translate X (fst c) (translateConfig vschema)
                          = Ok ee) cs ees ->
  length doneC = length doneE ->
  dualColumns X vschema (map plainColumn cs) (length doneE)
    (mkDualLoop (map Some doneE ++ replicate (length cs) None)
                (doneC ++ replicate (length cs) "") [])
  = Ok (Some (mkDualLoop (map Some doneE ++ map Some ees)
                         (doneC ++ map (columnName X) cs) [])).
Proof.
  induction cs as [|[e a] cs IH]; intros ees doneE doneC H Hlen;
    inversion H as [|? ee ? ees' [He Ht] Hrest]; subst; cbn [map length].
  - cbn. reflexivity.
  - change (plainColumn (e, a)) with (AliasedExpr e a). cbn in He, Ht.
    rewrite (dualColumns_plain_step X vschema e a _ _ _ He). cbn [lockFunctions length Nat.ltb Nat.leb exprs cols].
    rewrite Ht. cbn [replicate].
    replace (<[length doneE := Some ee]>
               (map Some doneE ++ None :: replicate (length cs) None))
      with (map Some (doneE ++ [ee]) ++ replicate (length cs) None)%list.
    2:{ rewrite map_app, <- app_assoc. cbn.
        replace (length doneE) with (length (map Some doneE) + 0)
          by (rewrite length_map; lia).
        rewrite insert_app_r. reflexivity. }
    replace (<[length doneE := if (a =? "")%string then String_Expr X e else a]>
               (doneC ++ "" :: replicate (length cs) ""))
      with ((doneC ++ [columnName X (e, a)]) ++ replicate (length cs) "")%list.
    2:{ rewrite <- app_assoc. cbn.
        replace (length doneE) with (length doneC + 0) by lia.
        rewrite insert_app_r. reflexivity. }
    replace (S (length doneE)) with (length (doneE ++ [ee]))
      by (rewrite length_app; cbn; lia).
    rewrite (IH ees' (doneE ++ [ee]) (doneC ++ [columnName X (e, a)]) Hrest)
      by (rewrite !length_app; cbn; lia).
    rewrite map_app, <- !app_assoc. reflexivity.
Qed.

(** X7: a select on dual only whose columns are aliased expressions, none a
    locking function, all of which translate, is planned as a [Projection]
    over [SingleRow], with the translated expressions in order and each
    column named by its alias or, without one, by the printed expression.
    The entry point returns it with the table "<keyspace>.dual", or "dual"
    when the selected keyspace cannot be found, and leaves the statement as
    it is. *)
Theorem dual_select_is_projection
    (query : string) (version : PlannerVersion) (rv : ReservedVars)
    (sel : Select) (cs : list (Expr * string))
    (ees : list evalengine.Expr) :
  isOnlyDual sel = Ok true ->
  GetColumns sel = map plainColumn cs ->
  Forall2 (fun c ee => isLockingFunc (fst c) = false
                       /\ Translate X (fst c) (translateConfig vschema)
                          = Ok ee) cs ees ->
  let projection :=
    engine.PProjection (map Some ees) (map (columnName X) cs)
                       engine.PSingleRow in
  handleDualSelects X vschema sel = Ok (Some projection)
  /\ (forall ks, SelectedKeyspace vschema = (Some ks, None) ->
        gen4SelectStmtPlanner X vschema query version rv (SelectStmt sel)
        = (SelectStmt sel,
           Ok (newPlanResult projection
                 [(vindexes.Name ks ++ ".dual")%string])))
  /\ (forall ks err, SelectedKeyspace vschema = (ks, Some err) ->
        gen4SelectStmtPlanner X vschema query version rv (SelectStmt sel)
        = (SelectStmt sel, Ok (newPlanResult projection ["dual"]))).
Proof.
  intros Hd Hc Hall projection.
  assert (Hh : handleDualSelects X vschema sel = Ok (Some projection)).
  { unfold handleDualSelects. rewrite Hd. cbn [obind negb]. rewrite Hc.
    rewrite length_map.
    pose proof (dualColumns_all_plain cs ees [] [] Hall eq_refl) as Hrun.
    cbn [map app length] in Hrun. rewrite Hrun. reflexivity. }
  split; [exact Hh|]. split.
  - intros ks Hks. unfold gen4SelectStmtPlanner, dualUsed.
    rewrite Hh, Hks. reflexivity.
  - intros ks err Hks. unfold gen4SelectStmtPlanner, dualUsed.
    rewrite Hh, Hks. destruct ks; reflexivity.
Qed.

(** X8: in a select on dual only whose earlier columns are all plain
    (non-locking) aliased expressions that translate, the next column, if
    it is not an aliased expression or is a plain expression whose
    translation fails, makes [handleDualSelects] return no plan and no
    error: the translation error is dropped and the columns after it are
    not looked at. *)
Theorem dual_select_falls_through
    (sel : Select) (pre : list (Expr * string)) (stop : SelectExpr)
    (rest : list SelectExpr) :
  isOnlyDual sel = Ok true ->
  GetColumns sel = (map plainColumn pre ++ stop :: rest)%list ->
  Forall (fun c => isLockingFunc (fst c) = false) pre ->
  Forall (fun c => exists ee,
            Translate X (fst c) (translateConfig vschema) = Ok ee) pre ->
  (match stop with
   | AliasedExpr e _ =>
       isLockingFunc e = false
       /\ exists err, Translate X e (translateConfig vschema) = Err err
   | _ => True
   end) ->
  handleDualSelects X vschema sel = Ok None.
Proof.
  intros Hd Hc Hpre Htr Hstop.
  unfold handleDualSelects. rewrite Hd. cbn [obind negb]. rewrite Hc.
  match goal with
  | |- context [dualColumns X vschema _ 0 ?a] => set (acc0 := a)
  end.
  destruct (dualColumns_plain_run_ok X vschema pre (stop :: rest) 0 acc0
              eq_refl Hpre Htr) as (acc' & Hacc' & ->).
  destruct stop as [e a|t|e]; [|reflexivity|reflexivity].
  destruct Hstop as [He [err Herr]].
  rewrite (dualColumns_plain_step X vschema e a _ _ _ He), Hacc', Herr.
  reflexivity.
Qed.

(** Every error that leaves the loop is the error of the mixed-expression
    check on one of the columns or the error of translating the name of a
    locking function among them. *)
Lemma dualColumns_error_source columns : forall i acc e,
  dualColumns X vschema columns i acc = Err e ->
  (exists col, In col columns /\ e = mixedLockError X col)
  \/ (exists f a name,
        In (AliasedExpr (LockingFuncExpr f) a) columns
        /\ lf_Name f = Some name
        /\ Translate X name (translateConfig vschema) = Err e).
Proof.
  induction columns as [|c rest IH]; intros i acc e; [discriminate|].
  destruct c as [ex a|t|ex]; [|discriminate|discriminate].
  destruct (isLockingFunc ex) eqn:He.
  - destruct ex; try discriminate. rewrite dualColumns_lock_step.
    unfold lockElem at 1. destruct (lf_Name f) as [name|] eqn:Hn; cbn.
    + destruct (Translate X name _) as [n|e'|w] eqn:Ht; cbn;
        [|intros [= ->]; right; exists f, a, name;
          split; [left; reflexivity|auto]
         |discriminate].
      intros H. destruct (IH _ _ _ H) as [(col & Hin & ->)|(f' & a' & n' & Hin & Hr)].
      * left. exists col. split; [right; exact Hin|reflexivity].
      * right. exists f', a', n'. split; [right; exact Hin|exact Hr].
    + intros H. destruct (IH _ _ _ H) as [(col & Hin & ->)|(f' & a' & n' & Hin & Hr)].
      * left. exists col. split; [right; exact Hin|reflexivity].
      * right. exists f', a', n'. split; [right; exact Hin|exact Hr].
  - rewrite (dualColumns_plain_step X vschema ex a _ _ _ He).
    destruct (0 <? length (lockFunctions acc))%nat.
    + intros [= <-]. left. exists (AliasedExpr ex a). split;
        [left; reflexivity|reflexivity].
    + destruct (Translate X ex _) as [ee|e'|w]; try discriminate.
      intros H. destruct (IH _ _ _ H) as [(col & Hin & ->)|(f' & a' & n' & Hin & Hr)].
      * left. exists col. split; [right; exact Hin|reflexivity].
      * right. exists f', a', n'. split; [right; exact Hin|exact Hr].
Qed.

(** X9: an error returned by [handleDualSelects] is always one of three:
    the VT12001 error of the mixed-expression check on one of the columns,
    the error of translating the name argument of one of the locking
    functions, or the error of looking up the first keyspace.  The error of
    translating any other expression never comes out. *)
Theorem handleDualSelects_error_source (sel : Select) (e : vterrors.error) :
  handleDualSelects X vschema sel = Err e ->
  (exists col, In col (GetColumns sel) /\ e = mixedLockError X col)
  \/ (exists f a name,
        In (AliasedExpr (LockingFuncExpr f) a) (GetColumns sel)
        /\ lf_Name f = Some name
        /\ Translate X name (translateConfig vschema) = Err e)
  \/ snd (FirstSortedKeyspace vschema) = Some e.
Proof.
  unfold handleDualSelects.
  destruct (isOnlyDual sel) as [[|]|e0|w] eqn:Hd; cbn [obind negb];
    try discriminate; [|intros _; exfalso; eapply isOnlyDual_no_error; exact Hd].
  match goal with
  | |- context [dualColumns X vschema _ 0 ?a] => set (acc0 := a)
  end.
  destruct (dualColumns X vschema (GetColumns sel) 0 acc0)
    as [[acc'|]|e1|w] eqn:Hrun; cbn [obind]; try discriminate.
  - destruct (0 <? length (lockFunctions acc'))%nat; [|discriminate].
    unfold buildLockingPrimitive.
    destruct (FirstSortedKeyspace vschema) as [ks [err|]]; cbn [obind];
      [|discriminate].
    intros [= ->]. right. right. reflexivity.
  - intros [= ->]. apply dualColumns_error_source in Hrun.
    destruct Hrun as [H|H]; [left; exact H|right; left; exact H].
Qed.

End dual_more_props.

Lemma dual_select_is_projection_witness :
  planbuilder.handleDualSelects demo.X demo.vschema selectTwoConstants
  = Ok (Some (engine.PProjection
                [Some (evalengine.Compiled 1); Some (evalengine.Compiled 2)]
                ["1"; "two"] engine.PSingleRow))
  /\ planbuilder.gen4SelectStmtPlanner demo.X demo.vschema "select 1, 'ab' two"
       planbuilder.Gen4 demo.reservedVars
       (sqlparser.SelectStmt selectTwoConstants)
     = (sqlparser.SelectStmt selectTwoConstants,
        Ok (planbuilder.newPlanResult
              (engine.PProjection
                 [Some (evalengine.Compiled 1); Some (evalengine.Compiled 2)]
                 ["1"; "two"] engine.PSingleRow)
              ["main.dual"])).
Proof.
  pose proof (dual_select_is_projection demo.X demo.vschema
                "select 1, 'ab' two" planbuilder.Gen4 demo.reservedVars
                selectTwoConstants
                [(sqlparser.Literal sqlparser.IntVal "1", "");
                 (sqlparser.Literal sqlparser.StrVal "ab", "two")]
                [evalengine.Compiled 1; evalengine.Compiled 2]
                eq_refl eq_refl) as H.
  cbv zeta in H. destruct H as (Hh & Hk & _); [repeat constructor|].
  split; [exact Hh|exact (Hk demo.mainKs eq_refl)].
Defined.

Lemma dual_select_falls_through_witness :
  planbuilder.handleDualSelects demo.X demo.vschema selectWithColumn = Ok None.
Proof.
  apply (dual_select_falls_through demo.X demo.vschema selectWithColumn
           [(sqlparser.Literal sqlparser.IntVal "1", "")]
           (sqlparser.AliasedExpr (sqlparser.ColName "a") "")
           [sqlparser.AliasedExpr (sqlparser.LockingFuncExpr demo.getLockX) ""]).
  - reflexivity.
  - reflexivity.
  - repeat constructor.
  - constructor; [|constructor]. eexists. reflexivity.
  - split; [reflexivity|]. eexists. reflexivity.
Defined.

Lemma handleDualSelects_error_source_witness :
  (exists col,
      In col (sqlparser.GetColumns selectLockThenOne)
      /\ vterrors.VT12001
           "LOCK function and other expression: [1] in same select query"
         = planbuilder.mixedLockError demo.X col)
  \/ (exists f a name,
        In (sqlparser.AliasedExpr (sqlparser.LockingFuncExpr f) a)
           (sqlparser.GetColumns selectLockThenOne)
        /\ sqlparser.lf_Name f = Some name
        /\ planbuilder.Translate demo.X name
             (planbuilder.translateConfig demo.vschema)
           = Err (vterrors.VT12001
                    "LOCK function and other expression: [1] in same select query"))
  \/ snd (planbuilder.FirstSortedKeyspace demo.vschema)
     = Some (vterrors.VT12001
               "LOCK function and other expression: [1] in same select query").
Proof.
  exact (handleDualSelects_error_source demo.X demo.vschema selectLockThenOne
           (vterrors.VT12001
              "LOCK function and other expression: [1] in same select query")
           eq_refl).
Defined.

(** ** More on the planner entry: errors, the retry and the guard *)

Section planner_more_props.
Import sqlparser planbuilder.
Variable X : Collaborators.
Variable vschema : VSchema.

Lemma gen4PredicateRewrite_no_error getPlan stmt :
  (forall st e, snd (RewritePredicate X st) <> Err e) ->
  forall e, snd (gen4PredicateRewrite X getPlan stmt) <> Err e.
Proof.
  intros Hrw e. unfold gen4PredicateRewrite, sbind.
  destruct (RewritePredicate X stmt) as [st1 [r|e1|w]] eqn:Hr; cbn.
  - destruct r as [|[rw|txt]]; cbn.
    + destruct (getPlan st1) as [st2 [[p t]|e2|w]]; cbn;
        [destruct (negb _)| |]; discriminate.
    + destruct (getPlan rw) as [st2 [[p t]|e2|w]]; cbn;
        [destruct (negb _)| |]; discriminate.
    + discriminate.
  - exfalso. apply (Hrw stmt e1). rewrite Hr. reflexivity.
  - discriminate.
Qed.

(** X10: [planWithRetry] (lines 65 to 99 of the entry point) returns an
    error exactly when the first build does, and then that error: whatever
    goes wrong in the rebuild after the predicate rewrite is dropped.
    ([RewritePredicate] itself has no error result.) *)
Theorem only_the_first_build_fails
    (version : PlannerVersion) (rv : ReservedVars) (stmt : SelectStatement) :
  (forall st e, snd (RewritePredicate X st) <> Err e) ->
  forall e,
    snd (planWithRetry X vschema version rv stmt) = Err e
    <-> snd (newBuildSelectPlan X vschema rv version stmt) = Err e.
Proof.
  intros Hrw e. unfold planWithRetry. unfold sbind at 1.
  destruct (newBuildSelectPlan X vschema rv version stmt)
    as [st1 [[plan t]|e1|w]] eqn:Hb; cbn [snd];
    [|split; intros [= ->]; reflexivity|split; discriminate].
  split; [|discriminate]. intros H. exfalso. revert H.
  unfold sbind at 1.
  destruct (shouldRetryAfterPredicateRewriting plan).
  - pose proof (gen4PredicateRewrite_no_error
                  (newBuildSelectPlan X vschema rv version) st1 Hrw) as Hn.
    destruct (gen4PredicateRewrite X _ st1) as [st2 [[[p2 t2]|]|e2|w]];
      cbn; try discriminate.
    + unfold sbind, sget. destruct st2 as [sel|l r]; [|discriminate].
      unfold slift. destruct (isOnlyDual sel) as [b|e3|w] eqn:Hd;
        [destruct (b || _); discriminate| |discriminate].
      exfalso. eapply isOnlyDual_no_error. exact Hd.
    + intros _. eapply Hn. reflexivity.
  - cbn. unfold sbind, sget. destruct st1 as [sel|l r]; [|discriminate].
    unfold slift. destruct (isOnlyDual sel) as [b|e3|w] eqn:Hd;
      [destruct (b || _); discriminate| |discriminate].
    exfalso. eapply isOnlyDual_no_error. exact Hd.
Qed.

(** X11: when the plan rebuilt after the predicate rewrite is adopted it is
    returned as the build made it: the guard for the empty result is not
    applied to it, so [NoRoutesSpecialHandling] is not set on it even for a
    select of aggregations only. *)
Theorem adopted_plan_is_returned_as_built
    (version : PlannerVersion) (rv : ReservedVars)
    (stmt st1 st2 : SelectStatement) (plan prim2 : engine.Primitive)
    (tablesUsed tablesUsed2 : list string) :
  newBuildSelectPlan X vschema rv version stmt = (st1, Ok (plan, tablesUsed)) ->
  shouldRetryAfterPredicateRewriting plan = true ->
  gen4PredicateRewrite X (newBuildSelectPlan X vschema rv version) st1
  = (st2, Ok (Some (prim2, tablesUsed2))) ->
  planWithRetry X vschema version rv stmt
  = (st2, Ok (newPlanResult prim2 tablesUsed2)).
Proof.
  intros Hb Hs Hr. unfold planWithRetry. unfold sbind at 1. rewrite Hb.
  unfold sbind at 1. rewrite Hs, Hr. reflexivity.
Qed.

(** X12: when the first plan is not eligible for the retry, the guard for
    the empty result reads the select as the build left it: for a select on
    dual only, or one with no GROUP BY whose select expressions are all
    aggregations, a [Route] plan gets [NoRoutesSpecialHandling] set, a
    [VindexLookup] gets it set on [SendTo], and any other plan is returned
    as it is; for other selects and for set operations the plan is returned
    as it is. *)
Theorem empty_result_guard
    (version : PlannerVersion) (rv : ReservedVars)
    (stmt st1 : SelectStatement) (plan : engine.Primitive)
    (tablesUsed : list string) :
  newBuildSelectPlan X vschema rv version stmt = (st1, Ok (plan, tablesUsed)) ->
  shouldRetryAfterPredicateRewriting plan = false ->
  (forall l r, st1 = UnionStmt l r ->
     planWithRetry X vschema version rv stmt
     = (st1, Ok (newPlanResult plan tablesUsed)))
  /\ (forall sel onlyDual,
        st1 = SelectStmt sel -> isOnlyDual sel = Ok onlyDual ->
        let guarded :=
          onlyDual || (negb (is_some (GroupBy sel))
                       && AllAggregation X (SelectExprs sel)) in
        (guarded = false ->
           planWithRetry X vschema version rv stmt
           = (st1, Ok (newPlanResult plan tablesUsed)))
        /\ (guarded = true ->
            exists marked,
              planWithRetry X vschema version rv stmt
              = (st1, Ok (newPlanResult marked tablesUsed))
              /\ (forall r, plan = engine.PRoute r ->
                    marked = engine.PRoute
                               (engine.set_NoRoutesSpecialHandling true r))
              /\ (forall r, plan = engine.PVindexLookup r ->
                    marked = engine.PVindexLookup
                               (engine.set_NoRoutesSpecialHandling true r))
              /\ ((forall r, plan <> engine.PRoute r) ->
                  (forall r, plan <> engine.PVindexLookup r) ->
                  marked = plan))).
Proof.
  intros Hb Hs.
  assert (Hrun : planWithRetry X vschema version rv stmt
    = (match st1 with
       | UnionStmt _ _ => sret (newPlanResult plan tablesUsed)
       | SelectStmt sel =>
           do onlyDual <- slift (isOnlyDual sel);
           if onlyDual
              || (negb (is_some (GroupBy sel))
                  && AllAggregation X (SelectExprs sel))
           then sret (newPlanResult (markNoRoutes plan) tablesUsed)
           else sret (newPlanResult plan tablesUsed)
       end) st1).
  { unfold planWithRetry. unfold sbind at 1. rewrite Hb.
    unfold sbind at 1. rewrite Hs. reflexivity. }
  rewrite Hrun. split.
  - intros l r ->. reflexivity.
  - intros sel onlyDual -> Hd guarded. unfold sbind, slift. rewrite Hd.
    fold guarded. split.
    + intros ->. reflexivity.
    + intros ->. exists (markNoRoutes plan). split; [reflexivity|].
      split; [intros r ->; reflexivity|].
      split; [intros r ->; reflexivity|].
      intros Hn1 Hn2. destruct plan; try reflexivity;
        exfalso; [eapply Hn1|eapply Hn2]; reflexivity.
Qed.

(** X13: [buildSQLCalcFoundRowsPlan] writes to the caller's statement only
    through the build of the limit plan: the re-parse and the build of the
    count plan work on a tree of their own, whatever the outcome. *)
Theorem found_rows_count_half_leaves_statement
    (originalQuery : string) (rv : ReservedVars) (stmt : SelectStatement) :
  fst (buildSQLCalcFoundRowsPlan X vschema originalQuery rv stmt)
  = fst (newBuildSelectPlan X vschema rv Gen4 stmt).
Proof.
  unfold buildSQLCalcFoundRowsPlan. unfold sbind at 1.
  destruct (newBuildSelectPlan X vschema rv Gen4 stmt)
    as [st1 [[lp lt]|e|w]]; [|reflexivity|reflexivity].
  cbn [fst]. unfold sbind at 1, slift at 1.
  destruct (Parse2 vschema originalQuery) as [[st2 r2]|e|w];
    [|reflexivity|reflexivity].
  destruct st2 as [[parsed|l r]|txt]; try reflexivity.
  unfold sbind, slift.
  destruct (snd (newBuildSelectPlan X vschema _ Gen4 _)) as [[cp ct]|e|w];
    reflexivity.
Qed.

(** The way [buildSQLCalcFoundRowsPlan] ends, from the ways its three
    steps end. *)
Lemma found_rows_outcome
    (originalQuery : string) (rv : ReservedVars) (stmt : SelectStatement) :
  snd (buildSQLCalcFoundRowsPlan X vschema originalQuery rv stmt)
  = match snd (newBuildSelectPlan X vschema rv Gen4 stmt) with
    | Ok (limitPlan, _) =>
        match Parse2 vschema originalQuery with
        | Ok (StmtSelect (SelectStmt parsed), reserved2) =>
            match snd (newBuildSelectPlan X vschema
                         (NewReservedVars "vtg" reserved2) Gen4
                         (SelectStmt (countSelect parsed))) with
            | Ok (countPlan, tablesUsed) =>
                Ok (engine.PSQLCalcFoundRows limitPlan (markRoute countPlan),
                    tablesUsed)
            | Err e => Err e
            | Panic w => Panic w
            end
        | Ok _ =>
            Panic "interface conversion: Statement is not *sqlparser.Select"
        | Err e => Err e
        | Panic w => Panic w
        end
    | Err e => Err e
    | Panic w => Panic w
    end.
Proof.
  unfold buildSQLCalcFoundRowsPlan. unfold sbind at 1.
  destruct (newBuildSelectPlan X vschema rv Gen4 stmt)
    as [st1 [[lp lt]|e|w]]; [|reflexivity|reflexivity].
  cbn [snd]. unfold sbind at 1, slift at 1.
  destruct (Parse2 vschema originalQuery) as [[st2 r2]|e|w];
    [|reflexivity|reflexivity].
  destruct st2 as [[parsed|l r]|txt]; try reflexivity.
  unfold sbind, slift.
  destruct (snd (newBuildSelectPlan X vschema _ Gen4 _)) as [[cp ct]|e|w];
    reflexivity.
Qed.

(** X14: [buildSQLCalcFoundRowsPlan] returns an error exactly when the
    build of the limit plan fails, or it succeeds and the re-parse fails, or
    both succeed and the build of the count plan fails, each time with that
    error; a re-parse that gives anything but a simple select ends in the
    panic of the type assertion. *)
Theorem found_rows_errors
    (originalQuery : string) (rv : ReservedVars) (stmt : SelectStatement)
    (e : vterrors.error) :
  (snd (buildSQLCalcFoundRowsPlan X vschema originalQuery rv stmt) = Err e
   <-> snd (newBuildSelectPlan X vschema rv Gen4 stmt) = Err e
       \/ (exists limitPlan limitTables,
             snd (newBuildSelectPlan X vschema rv Gen4 stmt)
             = Ok (limitPlan, limitTables)
             /\ (Parse2 vschema originalQuery = Err e
                 \/ exists parsed reserved2,
                      Parse2 vschema originalQuery
                      = Ok (StmtSelect (SelectStmt parsed), reserved2)
                      /\ snd (newBuildSelectPlan X vschema
                                (NewReservedVars "vtg" reserved2) Gen4
                                (SelectStmt (countSelect parsed)))
                         = Err e)))
  /\ (forall limitPlan limitTables other reserved2,
        snd (newBuildSelectPlan X vschema rv Gen4 stmt)
        = Ok (limitPlan, limitTables) ->
        Parse2 vschema originalQuery = Ok (other, reserved2) ->
        (forall parsed, other <> StmtSelect (SelectStmt parsed)) ->
        exists w,
          snd (buildSQLCalcFoundRowsPlan X vschema originalQuery rv stmt)
          = Panic w).
Proof.
  rewrite found_rows_outcome.
  destruct (snd (newBuildSelectPlan X vschema rv Gen4 stmt))
    as [[lp lt]|e1|w1].
  2:{ split; [|intros ? ? ? ? H; discriminate H].
      split; [intros [= ->]; left; reflexivity|].
      intros [[= ->]|(? & ? & H & _)]; [reflexivity|discriminate H]. }
  2:{ split; [|intros ? ? ? ? H; discriminate H].
      split; [discriminate|].
      intros [H|(? & ? & H & _)]; discriminate H. }
  destruct (Parse2 vschema originalQuery) as [[st2 r2]|e2|w2].
  - destruct st2 as [[parsed|l r]|txt].
    + destruct (snd (newBuildSelectPlan X vschema _ Gen4 _))
        as [[cp ct]|e3|w3] eqn:Hc.
      * split.
        -- split; [discriminate|].
           intros [H|(? & ? & _ & [H|(p' & r' & [= <- <-] & H)])];
             try discriminate H. rewrite Hc in H. discriminate H.
        -- intros ? ? other ? _ [= <- <-] Hn. exfalso. eapply Hn. reflexivity.
      * split.
        -- split.
           ++ intros [= ->]. right. exists lp, lt. split; [reflexivity|].
              right. exists parsed, r2. split; [reflexivity|exact Hc].
           ++ intros [H|(? & ? & _ & [H|(p' & r' & [= <- <-] & H)])];
                try discriminate H. rewrite Hc in H. exact H.
        -- intros ? ? other ? _ [= <- <-] Hn. exfalso. eapply Hn. reflexivity.
      * split.
        -- split; [discriminate|].
           intros [H|(? & ? & _ & [H|(p' & r' & [= <- <-] & H)])];
             try discriminate H. rewrite Hc in H. discriminate H.
        -- intros ? ? other ? _ [= <- <-] Hn. exfalso. eapply Hn. reflexivity.
    + split; [|intros; eexists; reflexivity].
      split; [discriminate|].
      intros [H|(? & ? & _ & [H|(p' & r' & H & _)])]; discriminate H.
    + split; [|intros; eexists; reflexivity].
      split; [discriminate|].
      intros [H|(? & ? & _ & [H|(p' & r' & H & _)])]; discriminate H.
  - split; [|intros ? ? ? ? _ H; discriminate H].
    split.
    + intros [= ->]. right. exists lp, lt. split; [reflexivity|].
      left. reflexivity.
    + intros [H|(? & ? & _ & [[= ->]|(p' & r' & H & _)])];
        [discriminate H|reflexivity|discriminate H].
  - split; [|intros ? ? ? ? _ H; discriminate H].
    split; [discriminate|].
    intros [H|(? & ? & _ & [H|(p' & r' & H & _)])]; discriminate H.
Qed.

End planner_more_props.

Lemma only_the_first_build_fails_witness :
  snd (planbuilder.planWithRetry failingX demo.vschema planbuilder.Gen4
         demo.reservedVars (sqlparser.SelectStmt (demo.selectA false None)))
  = Err cannotTransform.
Proof.
  apply (only_the_first_build_fails failingX demo.vschema planbuilder.Gen4
           demo.reservedVars (sqlparser.SelectStmt (demo.selectA false None))).
  - intros st e. cbn. discriminate.
  - vm_compute. reflexivity.
Defined.

Lemma adopted_plan_is_returned_as_built_witness :
  planbuilder.planWithRetry demo.X demo.vschema planbuilder.Gen4
    demo.reservedVars (sqlparser.SelectStmt selectCountWhere)
  = (demo.markWhere (sqlparser.SelectStmt selectCountWhere),
     Ok (planbuilder.newPlanResult
           (engine.PRoute
              (engine.mkRoute engine.DBA []
                 [("table_name", evalengine.Compiled 1)] false "is"))
           ["main.t"])).
Proof.
  apply (adopted_plan_is_returned_as_built demo.X demo.vschema
           planbuilder.Gen4 demo.reservedVars
           (sqlparser.SelectStmt selectCountWhere)
           (sqlparser.SelectStmt selectCountWhere)
           (demo.markWhere (sqlparser.SelectStmt selectCountWhere))
           (engine.PRoute (engine.mkRoute engine.DBA [] [] false "is"))
           (engine.PRoute
              (engine.mkRoute engine.DBA []
                 [("table_name", evalengine.Compiled 1)] false "is"))
           ["main.t"] ["main.t"]);
    vm_compute; reflexivity.
Defined.

Lemma empty_result_guard_witness :
  planbuilder.planWithRetry demo.X demo.vschema planbuilder.Gen4
    demo.reservedVars (sqlparser.SelectStmt selectCount)
  = (sqlparser.SelectStmt selectCount,
     Ok (planbuilder.newPlanResult (demo.scatter true) ["main.t"])).
Proof.
  assert (Hb : planbuilder.newBuildSelectPlan demo.X demo.vschema
                 demo.reservedVars planbuilder.Gen4
                 (sqlparser.SelectStmt selectCount)
               = (sqlparser.SelectStmt selectCount,
                  Ok (demo.scatter false, ["main.t"])))
    by (vm_compute; reflexivity).
  destruct (empty_result_guard demo.X demo.vschema planbuilder.Gen4
              demo.reservedVars (sqlparser.SelectStmt selectCount)
              (sqlparser.SelectStmt selectCount) (demo.scatter false)
              ["main.t"] Hb eq_refl) as [_ Hsel].
  destruct (Hsel selectCount false eq_refl eq_refl) as [_ Hg].
  destruct (Hg eq_refl) as (marked & Hrun & Hroute & _).
  rewrite Hrun, (Hroute _ eq_refl). reflexivity.
Defined.

(** ** The connection over sequences of calls *)

Section lifecycle_props.
Import tabletserver.
Variable B : Backend.
Variable userLabelDisabled : string.

Lemma set_dbConn_same (s : StatefulConnection) (c : PooledConn) :
  dbConn s = Some c -> set_dbConn (Some c) s = s.
Proof. destruct s; cbn. intros ->. reflexivity. Qed.

Lemma set_fields_same (s : StatefulConnection) :
  set_timeout (timeout s) (expiryTime s) (set_txProps (txProps s) s) = s.
Proof. destruct s; reflexivity. Qed.

Local Ltac backend_kind c c' extra :=
  apply (T_backend _ _ _ c c' extra); auto; cbn; rewrite ?app_nil_r; auto;
  repeat constructor.

Lemma logged_transition reasonName now (w w' : World) :
  Some (mkWorld (txConn (LogTransaction reasonName now (mkTxWorld (sc w) [])))
                (stats w) (calls w)) = Some w' ->
  Transition userLabelDisabled w w'.
Proof.
  intros [= <-]. unfold LogTransaction. cbn [txConn].
  destruct (txProps (sc w)) as [tp|] eqn:Htp; cbn [txConn].
  - apply (T_fields _ _ _ (Some (set_Conclusion now reasonName tp))
             (timeout (sc w)) (expiryTime (sc w))); try reflexivity;
      cbn; destruct w as [[]]; reflexivity.
  - apply T_same. destruct w; reflexivity.
Qed.

(** Every call that returns is one of the five kinds of transition. *)
Lemma step_transition (op : Op) (w w' : World) :
  step B userLabelDisabled op w = Some w' ->
  Transition userLabelDisabled w w'.
Proof.
  destruct (dbConn (sc w)) as [c|] eqn:Hc.
  2:{ (* a released connection *)
      destruct op; cbn [step].
      - rewrite (closed_Exec B _ _ _ _ w Hc). intros [= <-]. apply T_same; auto.
      - rewrite (closed_execWithRetry B _ _ _ _ w Hc). intros [= <-].
        apply T_same; auto.
      - rewrite (closed_FetchNext B _ _ _ w Hc). intros [= <-].
        apply T_same; auto.
      - unfold Unlock, sbind, getConn.
        rewrite (closed_unlock userLabelDisabled _ _ w Hc). intros [= <-].
        apply T_same; auto.
      - unfold UnlockUpdateTime.
        rewrite (closed_unlock userLabelDisabled _ _ w Hc). intros [= <-].
        apply T_same; auto.
      - rewrite (ReleaseString_released userLabelDisabled _ _ w Hc).
        intros [= <-]. apply T_same; auto.
      - rewrite (closed_Close w Hc). intros [= <-]. apply T_same; auto.
      - rewrite (closed_Kill B _ _ w Hc). discriminate.
      - rewrite (closed_Taint userLabelDisabled _ _ _ w Hc). intros [= <-].
        apply T_same; auto.
      - intros [= <-]. apply (T_fields _ _ _ None (timeout (sc w))
                                (expiryTime (sc w))); try reflexivity;
      cbn; destruct w as [[]]; reflexivity.
      - intros [= <-]. apply (T_fields _ _ _ (txProps (sc w)) d
                                (now + d)%Z); try reflexivity;
      cbn; destruct w as [[]]; reflexivity.
      - rewrite (closed_ApplySetting B _ _ w Hc). discriminate.
      - apply logged_transition.
      - intros [= <-]. apply (T_fields _ _ _ (txProps (sc w)) (timeout (sc w))
                                (now + timeout (sc w))%Z); try reflexivity;
      cbn; destruct w as [[]]; reflexivity. }
  assert (Hrel : forall reason now,
            Transition userLabelDisabled w
              (fst (ReleaseString userLabelDisabled reason now w))).
  { intros reason now. rewrite (ReleaseString_live userLabelDisabled _ _ w c Hc).
    apply (T_release _ _ _ c reason now); auto. }
  assert (Hunlock : forall u now w1,
            after (unlock userLabelDisabled u now w) = Some w1 ->
            Transition userLabelDisabled w w1).
  { intros u now w1. unfold unlock. unfold sbind at 1, getConn at 1.
    rewrite Hc. destruct (conn_IsClosed c).
    - specialize (Hrel "unlocked closed connection" now).
      rewrite (ReleaseString_live userLabelDisabled _ _ w c Hc) in *.
      intros [= <-]. exact Hrel.
    - destruct (pool (sc w)); [|discriminate]. intros [= <-].
      apply (T_backend _ _ _ c c [markAsNotInUse (ConnID_ (sc w)) u]);
        auto; cbn;
        first [symmetry; apply set_dbConn_same; exact Hc
              |repeat constructor]. }
  destruct op; cbn [step].
  - (* Exec *)
    unfold Exec. unfold sbind at 1, getConn at 1. unfold IsClosed.
    rewrite Hc. destruct (conn_IsClosed c).
    { destruct (IsInTransaction (sc w)); [destruct (txProps (sc w))|];
        cbn; try discriminate; intros [= <-]; apply T_same; auto. }
    destruct (ExecOnce B ctx query maxrows wantfields c) as [c' r].
    destruct r as [res|err|pw]; unfold sbind, setConn, sret, sfail, spanic,
      call; cbn; [| |discriminate].
    + intros [= <-]. backend_kind c c' (@nil Call).
    + destruct (IsConnErr B err); [destruct (Done ctx)|]; cbn;
        intros [= <-].
      * backend_kind c c' (@nil Call).
      * backend_kind c c' [CheckMySQL].
      * backend_kind c c' (@nil Call).
  - (* execWithRetry *)
    unfold execWithRetry. unfold sbind at 1, getConn at 1. unfold IsClosed.
    rewrite Hc. destruct (conn_IsClosed c).
    { intros [= <-]. apply T_same; auto. }
    destruct (Exec_ B ctx query maxrows wantfields c) as [c' r].
    destruct r as [res|err|pw]; unfold sbind, setConn, sret, slift; cbn;
      [| |discriminate]; intros [= <-];
      backend_kind c c' (@nil Call).
  - (* FetchNext *)
    unfold FetchNext. unfold sbind at 1, getConn at 1. unfold IsClosed.
    rewrite Hc. destruct (conn_IsClosed c).
    { intros [= <-]. apply T_same; auto. }
    destruct (FetchNext_ B ctx maxrows wantfields c) as [c' r].
    destruct r as [res|err|pw]; unfold sbind, setConn, sret, slift; cbn;
      [| |discriminate]; intros [= <-];
      backend_kind c c' (@nil Call).
  - (* Unlock *)
    unfold Unlock. unfold sbind at 1, getConn at 1. apply Hunlock.
  - (* UnlockUpdateTime *)
    unfold UnlockUpdateTime. apply Hunlock.
  - (* Release *)
    specialize (Hrel reason now).
    rewrite (ReleaseString_live userLabelDisabled _ _ w c Hc) in *.
    intros [= <-]. exact Hrel.
  - (* Close *)
    unfold Close, sbind, getConn, setConn. rewrite Hc. cbn. intros [= <-].
    backend_kind c (set_conn_IsClosed true c) (@nil Call).
  - (* Kill *)
    unfold Kill. unfold sbind at 1, getConn at 1. rewrite Hc.
    destruct (Kill_ B reason elapsed c) as [c' err].
    unfold sbind, setConn, sret, sfail; cbn.
    destruct err; cbn; intros [= <-];
      backend_kind c c' (@nil Call).
  - (* Taint *)
    destruct (tainted (sc w)) eqn:Ht.
    + unfold Taint, sbind, getConn. rewrite Hc, Ht. intros [= <-].
      apply T_same; auto.
    + match goal with
      | |- after (Taint _ ?cx ?tw ?nw _) = _ -> _ =>
          rewrite (Taint_live userLabelDisabled cx tw nw w c Hc Ht)
      end.
      intros [= <-]. eapply (T_taint _ _ _ c); eauto.
  - (* CleanTxState *)
    intros [= <-]. apply (T_fields _ _ _ None (timeout (sc w))
                            (expiryTime (sc w))); try reflexivity;
      cbn; destruct w as [[]]; reflexivity.
  - (* SetTimeout *)
    intros [= <-]. apply (T_fields _ _ _ (txProps (sc w)) d (now + d)%Z);
      try reflexivity;
      cbn; destruct w as [[]]; reflexivity.
  - (* ApplySetting *)
    unfold ApplySetting. unfold sbind at 1, getConn at 1. rewrite Hc.
    destruct (bool_decide (conn_Setting c = setting)).
    { intros [= <-]. apply T_same; auto. }
    destruct (ApplySetting_ B ctx setting c) as [c' err].
    unfold sbind, setConn, sret; cbn. intros [= <-].
    backend_kind c c' (@nil Call).
  - (* LogTransaction *)
    apply logged_transition.
  - (* resetExpiryTime *)
    intros [= <-]. apply (T_fields _ _ _ (txProps (sc w)) (timeout (sc w))
                            (now + timeout (sc w))%Z); try reflexivity;
      cbn; destruct w as [[]]; reflexivity.
Qed.

(** A property of a start and a current world that holds at the start
    and survives every transition holds after every sequence of calls. *)
Lemma steps_invariant (P : World -> World -> Prop) :
  (forall w, P w w) ->
  (forall w0 w1 w2,
     P w0 w1 -> Transition userLabelDisabled w1 w2 -> P w0 w2) ->
  forall ops w w', steps B userLabelDisabled ops w = Some w' -> P w w'.
Proof.
  intros Hrefl Hstep ops w.
  assert (Hgen : forall ops w1 w', P w w1 ->
            steps B userLabelDisabled ops w1 = Some w' -> P w w').
  { clear ops. induction ops as [|op ops IH]; intros w1 w' HP; cbn.
    - intros [= <-]. exact HP.
    - destruct (step B userLabelDisabled op w1) as [w2|] eqn:Hs;
        [|discriminate].
      apply IH. eapply Hstep; [exact HP|]. eapply step_transition. exact Hs. }
  intros w'. apply Hgen. apply Hrefl.
Qed.

(** X15: a released connection stays released under every sequence of calls
    other than [Renew] that return ([Close], [Exec], [execWithRetry],
    [FetchNext], [Unlock], [UnlockUpdateTime], the releases, [Kill],
    [Taint], [CleanTxState], [SetTimeout], [ApplySetting],
    [LogTransaction], [resetExpiryTime]), and nothing more happens around
    it: none of them calls the pool or the backend connection, no
    reserved-connection counter moves, and the reservation it carries is
    left as it is.  ([Renew] is the exception: it hands even a released
    connection to the pool.) *)
Theorem released_connection_stays_silent
    (ops : list Op) (w w' : World) :
  dbConn (sc w) = None ->
  steps B userLabelDisabled ops w = Some w' ->
  dbConn (sc w') = None
  /\ calls w' = calls w
  /\ stats w' = stats w
  /\ tainted (sc w') = tainted (sc w)
  /\ reservedProps (sc w') = reservedProps (sc w).
Proof.
  intros Hd Hs. revert Hd.
  apply (steps_invariant
           (fun w0 w1 => dbConn (sc w0) = None ->
              dbConn (sc w1) = None /\ calls w1 = calls w0
              /\ stats w1 = stats w0
              /\ tainted (sc w1) = tainted (sc w0)
              /\ reservedProps (sc w1) = reservedProps (sc w0)))
    with (ops := ops); [auto| |exact Hs].
  intros w0 w1 w2 HP Ht Hd0. destruct (HP Hd0) as (Hd1 & Hc1 & Hs1 & Ht1 & Hr1).
  destruct Ht as [->|c c' extra Hc|c reason now Hc|c rp Hc|tp d e Hsc Hst Hca];
    try congruence; auto.
  rewrite Hsc, Hst, Hca. destruct (sc w1); cbn in *. auto.
Qed.

(** X16: a reservation is kept: under every sequence of calls that return,
    a tainted connection stays tainted with the reserved properties it has,
    and a connection on which tainted entails reserved properties keeps
    that. *)
Theorem reservation_is_kept (ops : list Op) (w w' : World) :
  steps B userLabelDisabled ops w = Some w' ->
  (forall rp, tainted (sc w) = true -> reservedProps (sc w) = Some rp ->
     tainted (sc w') = true /\ reservedProps (sc w') = Some rp)
  /\ ((tainted (sc w) = true -> reservedProps (sc w) <> None) ->
      (tainted (sc w') = true -> reservedProps (sc w') <> None)).
Proof.
  intros Hs.
  apply (steps_invariant
           (fun w0 w1 =>
              (forall rp, tainted (sc w0) = true ->
                 reservedProps (sc w0) = Some rp ->
                 tainted (sc w1) = true /\ reservedProps (sc w1) = Some rp)
              /\ ((tainted (sc w0) = true -> reservedProps (sc w0) <> None) ->
                  (tainted (sc w1) = true -> reservedProps (sc w1) <> None))))
    with (ops := ops); [auto| |exact Hs].
  intros w0 w1 w2 [HA HB] Ht.
  assert (Hsame : tainted (sc w2) = tainted (sc w1)
                  /\ reservedProps (sc w2) = reservedProps (sc w1)
                  \/ tainted (sc w1) = false
                     /\ tainted (sc w2) = true
                     /\ exists rp, reservedProps (sc w2) = Some rp).
  { destruct Ht as [->|c c' extra Hc Hsc|c reason now Hc Hsc
                   |c rp Hc Htf Hsc|tp d e Hsc]; auto;
      try solve [left; rewrite Hsc; destruct (sc w1); cbn; auto].
    right. rewrite Hsc. destruct (sc w1); cbn in *. eauto. }
  split.
  - intros rp H0 Hr0. destruct (HA rp H0 Hr0) as [H1 Hr1].
    destruct Hsame as [[-> ->]|(Hf & _)]; [auto|congruence].
  - intros Hinv0 H2.
    destruct Hsame as [[Ht2 Hr2]|(_ & _ & rp & Hr2)].
    + rewrite Hr2. apply HB; [exact Hinv0|]. rewrite <- Ht2. exact H2.
    + rewrite Hr2. discriminate.
Qed.

Lemma unregisterCount_quiet id (cs extra : list Call) :
  Forall (fun x => quietCall x = true) extra ->
  unregisterCount id (cs ++ extra) = unregisterCount id cs
  /\ recycleCount (cs ++ extra) = recycleCount cs.
Proof.
  intros H. unfold unregisterCount, recycleCount.
  rewrite !List.filter_app, !length_app.
  assert (Hz : length (List.filter (isUnregister id) extra) = 0
               /\ length (List.filter isRecycle extra) = 0).
  { induction H as [|x extra Hx _ [IH1 IH2]]; [split; reflexivity|].
    destruct x; cbn in *; try discriminate; auto. }
  destruct Hz as [-> ->]. lia.
Qed.

Lemma counts_release id reason c (s : StatefulConnection) cs :
  ConnID_ s = id ->
  unregisterCount id (cs ++ releaseCalls reason c s)
  = unregisterCount id cs + (if pool s then 1 else 0)
  /\ recycleCount (cs ++ releaseCalls reason c s) = S (recycleCount cs).
Proof.
  intros <-. unfold unregisterCount, recycleCount, releaseCalls.
  rewrite !List.filter_app, !length_app.
  destruct (pool s), (reservedProps s); cbn; rewrite ?Z.eqb_refl; cbn; lia.
Qed.

(** X17: under every sequence of calls other than [Renew] that return
    ([Close], [Exec], [execWithRetry], [FetchNext], [Unlock],
    [UnlockUpdateTime], the releases, [Kill], [Taint], [CleanTxState],
    [SetTimeout], [ApplySetting], [LogTransaction], [resetExpiryTime]),
    the pool's [unregister] is called for the connection exactly once if
    the sequence takes it from having its backend connection to released
    and it has a pool, and not at all otherwise; likewise the backend
    connection is handed back ([Recycle]) exactly once in the first case
    and never otherwise.  None of these calls changes the connection id or
    the pool, and a released connection does not come back.  ([Renew],
    which gives the connection a new id through the pool, is outside this
    statement.) *)
Theorem unregister_exactly_once (ops : list Op) (w w' : World) :
  steps B userLabelDisabled ops w = Some w' ->
  let released :=
    is_some (dbConn (sc w)) && negb (is_some (dbConn (sc w'))) in
  ConnID_ (sc w') = ConnID_ (sc w)
  /\ pool (sc w') = pool (sc w)
  /\ (dbConn (sc w) = None -> dbConn (sc w') = None)
  /\ unregisterCount (ConnID_ (sc w)) (calls w')
     = unregisterCount (ConnID_ (sc w)) (calls w)
       + (if released && pool (sc w) then 1 else 0)
  /\ recycleCount (calls w')
     = recycleCount (calls w) + (if released then 1 else 0).
Proof.
  intros Hs. cbv zeta.
  apply (steps_invariant
           (fun w0 w1 =>
              ConnID_ (sc w1) = ConnID_ (sc w0)
              /\ pool (sc w1) = pool (sc w0)
              /\ (dbConn (sc w0) = None -> dbConn (sc w1) = None)
              /\ unregisterCount (ConnID_ (sc w0)) (calls w1)
                 = unregisterCount (ConnID_ (sc w0)) (calls w0)
                   + (if is_some (dbConn (sc w0))
                         && negb (is_some (dbConn (sc w1)))
                         && pool (sc w0) then 1 else 0)
              /\ recycleCount (calls w1)
                 = recycleCount (calls w0)
                   + (if is_some (dbConn (sc w0))
                         && negb (is_some (dbConn (sc w1)))
                      then 1 else 0)))
    with (ops := ops); [| |exact Hs].
  { intros w0. destruct (dbConn (sc w0)); cbn; repeat split; auto; lia. }
  intros w0 w1 w2 (Hid & Hp & Hdead & Hu & Hr) Ht.
  destruct Ht as [->|c c' extra Hc Hsc Hst Hca Hq|c reason now Hc Hsc Hst Hca
                 |c rp Hc Htf Hsc Hst Hca|tp d e Hsc Hst Hca].
  - auto.
  - assert (Hlive : is_some (dbConn (sc w0)) = true).
    { destruct (dbConn (sc w0)); [reflexivity|]. rewrite Hdead in Hc; auto.
      discriminate. }
    destruct (unregisterCount_quiet (ConnID_ (sc w0)) (calls w1) extra Hq)
      as [Hq1 Hq2].
    rewrite Hca, Hq1, Hq2, Hu, Hr, Hc, Hsc, Hlive.
    destruct (sc w1); cbn in *. subst. repeat split; auto.
    intros H0. rewrite H0 in Hlive. discriminate.
  - assert (Hlive : is_some (dbConn (sc w0)) = true).
    { destruct (dbConn (sc w0)); [reflexivity|]. rewrite Hdead in Hc; auto.
      discriminate. }
    destruct (counts_release (ConnID_ (sc w0)) reason c (sc w1) (calls w1) Hid)
      as [Hq1 Hq2].
    rewrite Hca, Hq1, Hq2, Hu, Hr, Hc, Hsc, Hlive, Hp.
    destruct (sc w1); cbn in *. subst.
    repeat split; auto; destruct (pool (sc w0)); cbn; lia.
  - assert (Hlive : is_some (dbConn (sc w0)) = true).
    { destruct (dbConn (sc w0)); [reflexivity|]. rewrite Hdead in Hc; auto.
      discriminate. }
    rewrite Hca, Hu, Hr, Hc, Hsc, Hlive.
    destruct (sc w1); cbn in *. subst. repeat split; auto.
    intros H0. rewrite H0 in Hlive. discriminate.
  - rewrite Hca, Hu, Hr, Hsc. destruct (sc w1); cbn in *. subst.
    repeat split; auto.
Qed.

Lemma set_dbConn_gauges lab (s : StatefulConnection) c c' :
  dbConn s = Some c ->
  heldAt userLabelDisabled lab (set_dbConn (Some c') s)
  = heldAt userLabelDisabled lab s
  /\ servedAt lab (set_dbConn (Some c') s) = servedAt lab s.
Proof.
  destruct s; cbn. intros ->. unfold heldAt, servedAt, reservedLabel. cbn.
  auto.
Qed.

Lemma set_fields_gauges lab (s : StatefulConnection) tp d e :
  heldAt userLabelDisabled lab (set_timeout d e (set_txProps tp s))
  = heldAt userLabelDisabled lab s
  /\ servedAt lab (set_timeout d e (set_txProps tp s)) = servedAt lab s.
Proof. destruct s; cbn. unfold heldAt, servedAt, reservedLabel. auto. Qed.

(** X18: the reserved-connection counters balance over every sequence of
    calls that return.  For a connection that starts unreserved, the active
    counter at each label stands above its start by one exactly while the
    connection is reserved and unreleased, at its reservation label; the
    count of reserved connections served stands above its start by one
    exactly once the reserved connection is released, at its user, and
    never when user metrics are skipped. *)
Theorem reserved_counters_balance (ops : list Op) (w w' : World) :
  tainted (sc w) = false ->
  reservedProps (sc w) = None ->
  steps B userLabelDisabled ops w = Some w' ->
  forall label : string,
    valueAt (UserActiveReservedCount (stats w')) label
    = (valueAt (UserActiveReservedCount (stats w)) label
       + heldAt userLabelDisabled label (sc w'))%Z
    /\ valueAt (UserReservedCount (stats w')) label
       = (valueAt (UserReservedCount (stats w)) label
          + servedAt label (sc w'))%Z.
Proof.
  intros Ht0 Hr0 Hs.
  enough (Hinv : (tainted (sc w') = false -> reservedProps (sc w') = None)
                 /\ forall label : string,
                   valueAt (UserActiveReservedCount (stats w')) label
                   = (valueAt (UserActiveReservedCount (stats w)) label
                      + heldAt userLabelDisabled label (sc w'))%Z
                   /\ valueAt (UserReservedCount (stats w')) label
                      = (valueAt (UserReservedCount (stats w)) label
                         + servedAt label (sc w'))%Z) by apply Hinv.
  revert Ht0 Hr0.
  apply (steps_invariant
           (fun w0 w1 =>
              tainted (sc w0) = false -> reservedProps (sc w0) = None ->
              (tainted (sc w1) = false -> reservedProps (sc w1) = None)
              /\ forall label : string,
                valueAt (UserActiveReservedCount (stats w1)) label
                = (valueAt (UserActiveReservedCount (stats w0)) label
                   + heldAt userLabelDisabled label (sc w1))%Z
                /\ valueAt (UserReservedCount (stats w1)) label
                   = (valueAt (UserReservedCount (stats w0)) label
                      + servedAt label (sc w1))%Z))
    with (ops := ops); [| |exact Hs].
  { intros w0 Ht0 Hr0. split; [auto|]. intros lab.
    unfold heldAt, servedAt. rewrite Hr0. lia. }
  intros w0 w1 w2 HP Ht Ht0 Hr0. destruct (HP Ht0 Hr0) as [Hinv Hbal].
  destruct Ht as [->|c c' extra Hc Hsc Hst Hca Hq|c reason now Hc Hsc Hst Hca
                 |c rp Hc Htf Hsc Hst Hca|tp d e Hsc Hst Hca].
  - auto.
  - split.
    + rewrite Hsc. destruct (sc w1); exact Hinv.
    + intros lab. rewrite Hst, Hsc.
      destruct (set_dbConn_gauges lab (sc w1) c c' Hc) as [-> ->].
      apply Hbal.
  - split.
    + rewrite Hsc. destruct (sc w1); exact Hinv.
    + intros lab. destruct (Hbal lab) as [Ha Hb]. rewrite Hst, Hsc.
      revert Ha Hb. unfold releasedStats, heldAt, servedAt, reservedLabel.
      destruct (sc w1) as [p dc id skip txp [rp|] t et to ex]; cbn in *;
        [|auto].
      subst dc. destruct skip; cbn; intros Ha Hb.
      * split; [|lia]. revert Ha. case_bool_decide as Hl; intros Ha.
        -- subst lab. rewrite valueAt_Add. lia.
        -- rewrite valueAt_Add_ne by congruence. lia.
      * revert Ha. case_bool_decide as Hl; intros Ha.
        -- subst lab. rewrite !valueAt_Add. lia.
        -- rewrite !valueAt_Add_ne by congruence. lia.
  - split.
    + rewrite Hsc. destruct (sc w1); cbn. discriminate.
    + intros lab. destruct (Hbal lab) as [Ha Hb]. rewrite Hst, Hsc.
      revert Ha Hb. unfold heldAt, servedAt, reservedLabel.
      rewrite (Hinv Htf).
      destruct (sc w1) as [p dc id skip txp rp0 t et to ex]; cbn in *.
      intros Ha Hb. split; [|lia]. case_bool_decide as Hl.
      * rewrite <- Hl. rewrite valueAt_Add. lia.
      * rewrite valueAt_Add_ne by congruence. lia.
  - split.
    + rewrite Hsc. destruct (sc w1); exact Hinv.
    + intros lab. rewrite Hst, Hsc.
      destruct (set_fields_gauges lab (sc w1) tp d e) as [-> ->].
      apply Hbal.
Qed.

End lifecycle_props.

Lemma released_connection_stays_silent_witness :
  tabletserver.dbConn (tabletserver.sc sessionAgain) = None
  /\ tabletserver.calls sessionAgain = tabletserver.calls sessionEnd
  /\ tabletserver.stats sessionAgain = tabletserver.stats sessionEnd
  /\ tabletserver.tainted (tabletserver.sc sessionAgain)
     = tabletserver.tainted (tabletserver.sc sessionEnd).
Proof.
  assert (Hd : tabletserver.dbConn (tabletserver.sc sessionEnd) = None)
    by (vm_compute; reflexivity).
  assert (Hs : steps demoConn.backend demoConn.userLabelDisabled session
                 sessionEnd = Some sessionAgain)
    by (vm_compute; reflexivity).
  destruct (released_connection_stays_silent demoConn.backend
              demoConn.userLabelDisabled session sessionEnd sessionAgain
              Hd Hs) as (H1 & H2 & H3 & H4 & _).
  repeat split; assumption.
Defined.

Lemma reservation_is_kept_witness :
  tabletserver.tainted (tabletserver.sc sessionAgain) = true
  /\ tabletserver.reservedProps (tabletserver.sc sessionAgain)
     = Some (tabletserver.mkProperties
               (tabletserver.EffectiveCallerIDFromContext demoConn.ctx)
               (tabletserver.ImmediateCallerIDFromContext demoConn.ctx)
               100%Z "reserved").
Proof.
  assert (Hs : steps demoConn.backend demoConn.userLabelDisabled session
                 sessionEnd = Some sessionAgain)
    by (vm_compute; reflexivity).
  destruct (reservation_is_kept demoConn.backend demoConn.userLabelDisabled
              session sessionEnd sessionAgain Hs) as [Hk _].
  apply Hk; vm_compute; reflexivity.
Defined.

Lemma unregister_exactly_once_witness :
  connVocabulary.unregisterCount 42%Z (tabletserver.calls sessionEnd) = 1
  /\ recycleCount (tabletserver.calls sessionEnd) = 1.
Proof.
  assert (Hs : steps demoConn.backend demoConn.userLabelDisabled session
                 (demoConn.world false) = Some sessionEnd)
    by (vm_compute; reflexivity).
  pose proof (unregister_exactly_once demoConn.backend
                demoConn.userLabelDisabled session (demoConn.world false)
                sessionEnd Hs) as H.
  cbv zeta in H. destruct H as (_ & _ & _ & Hu & Hr).
  split; (etransitivity; [eassumption|vm_compute; reflexivity]).
Defined.

Lemma reserved_counters_balance_witness :
  connVocabulary.valueAt
    (tabletserver.UserActiveReservedCount (tabletserver.stats sessionEnd))
    "bob" = 0%Z
  /\ connVocabulary.valueAt
       (tabletserver.UserReservedCount (tabletserver.stats sessionEnd))
       "bob" = 1%Z.
Proof.
  assert (Hs : steps demoConn.backend demoConn.userLabelDisabled session
                 (demoConn.world false) = Some sessionEnd)
    by (vm_compute; reflexivity).
  destruct (reserved_counters_balance demoConn.backend
              demoConn.userLabelDisabled session (demoConn.world false)
              sessionEnd eq_refl eq_refl Hs "bob") as [Ha Hb].
  split; (etransitivity; [eassumption|vm_compute; reflexivity]).
Defined.

(** ** Single calls on a connection: timeout, queries, unlock, renewal *)

Section connection_more_props.
Import tabletserver.
Variable B : Backend.
Variable userLabelDisabled : string.

(** X19: after [SetTimeout d] at time [now], the connection has timed out
    at a later time exactly when timeouts are enforced on it, [d] is
    positive and more than [d] has passed since [now]; at [now] itself it
    has not timed out, and nothing but the timeout and the expiry time is
    written. *)
Theorem SetTimeout_then_ElapsedTimeout (d : Duration) (now later : Time)
    (w : World) :
  let w' := fst (SetTimeout d now w) in
  ElapsedTimeout later (sc w')
  = enforceTimeout (sc w) && (0 <? d)%Z && (now + d <? later)%Z
  /\ ElapsedTimeout now (sc w') = false
  /\ w' = mkWorld (set_timeout d (now + d)%Z (sc w)) (stats w) (calls w).
Proof.
  destruct w as [s st cs]. destruct s as [p dc id skip txp rp t et to ex].
  cbn. unfold ElapsedTimeout. cbn.
  repeat split; destruct et; cbn; auto;
    destruct (Z.leb_spec d 0), (Z.ltb_spec 0 d); try lia; auto.
Qed.

(** X20: a query on a connection whose backend connection is open ends as
    the backend's [ExecOnce] ends, error or panic included; the connection
    keeps its backend connection, as the call left it, and the counters;
    and the health check of the server is asked for exactly when the
    backend failed with a connection error and the context is not done. *)
Theorem Exec_passes_backend_outcome (ctx : Context) (query : string)
    (maxrows : Z) (wantfields : bool) (w : World) (c : PooledConn) :
  dbConn (sc w) = Some c ->
  conn_IsClosed c = false ->
  let backendRun := ExecOnce B ctx query maxrows wantfields c in
  let run := Exec B ctx query maxrows wantfields w in
  snd run = snd backendRun
  /\ sc (fst run) = set_dbConn (Some (fst backendRun)) (sc w)
  /\ stats (fst run) = stats w
  /\ calls (fst run)
     = (calls w
        ++ match snd backendRun with
           | Err err =>
               if IsConnErr B err && negb (Done ctx) then [CheckMySQL] else []
           | _ => []
           end)%list.
Proof.
  intros Hc Hopen. cbv zeta.
  destruct w as [s st cs]. cbn [sc stats calls] in *.
  assert (Hrun :
    Exec B ctx query maxrows wantfields (mkWorld s st cs)
    = let (c', r) := ExecOnce B ctx query maxrows wantfields c in
      (mkWorld (set_dbConn (Some c') s) st
         (cs ++ match r with
                | Err err =>
                    if IsConnErr B err && negb (Done ctx)
                    then [CheckMySQL] else []
                | _ => []
                end), r)).
  { unfold Exec. unfold sbind at 1, getConn at 1. cbn [sc].
    unfold IsClosed. rewrite Hc, Hopen.
    destruct (ExecOnce B ctx query maxrows wantfields c)
      as [c' [res|err|why]]; cbn; rewrite ?app_nil_r; auto.
    destruct (IsConnErr B err), (Done ctx); cbn; rewrite ?app_nil_r; auto. }
  rewrite Hrun.
  destruct (ExecOnce B ctx query maxrows wantfields c) as [c' r]. cbn. auto.
Qed.

(** X21: [Unlock] parks an open connection and releases a closed one.  On
    a connection with a pool and an open backend connection it only tells
    the pool that the connection is no longer in use, asking to update the
    time exactly when no transaction is open; after [Close] it releases
    the connection with the reason "unlocked closed connection". *)
Theorem Unlock_parks_or_releases (now : Time) (w : World) (c : PooledConn) :
  dbConn (sc w) = Some c ->
  (conn_IsClosed c = false -> pool (sc w) = true ->
   Unlock userLabelDisabled now w
   = (mkWorld (sc w) (stats w)
              (calls w ++ [markAsNotInUse (ConnID_ (sc w))
                                          (negb (IsInTransaction (sc w)))]),
      Ok tt))
  /\ Unlock userLabelDisabled now (fst (Close w))
     = (mkWorld (set_dbConn None (sc w))
                (releasedStats userLabelDisabled now (sc w) (stats w))
                (calls w ++ releaseCalls "unlocked closed connection"
                                         (set_conn_IsClosed true c) (sc w)),
        Ok tt).
Proof.
  intros Hc. split.
  - intros Hopen Hpool. destruct w as [s st cs]. cbn [sc stats calls] in *.
    unfold Unlock, unlock, sbind, getConn. cbn [sc].
    rewrite Hc, Hopen, Hpool. reflexivity.
  - assert (Hclose : Close w
                     = (mkWorld (set_dbConn (Some (set_conn_IsClosed true c))
                                            (sc w)) (stats w) (calls w),
                        Ok tt)).
    { destruct w as [s st cs]. cbn [sc stats calls] in *.
      unfold Close, sbind, getConn. cbn [sc]. rewrite Hc. reflexivity. }
    rewrite Hclose. cbn [fst].
    unfold Unlock, unlock. unfold sbind at 1 2, getConn at 1 2.
    cbn [sc stats calls fst snd].
    replace (dbConn (set_dbConn (Some (set_conn_IsClosed true c)) (sc w)))
      with (Some (set_conn_IsClosed true c)) by (destruct (sc w); reflexivity).
    cbn [conn_IsClosed set_conn_IsClosed].
    rewrite (ReleaseString_live userLabelDisabled
               "unlocked closed connection" now _
               (set_conn_IsClosed true c))
      by (destruct (sc w); reflexivity).
    destruct (sc w); reflexivity.
Qed.

(** X22: [Renew] hands the connection to its pool.  When the pool renews
    it, the call returns with the connection as the pool left it; when the
    pool fails, the call closes the backend connection the pool left, if
    there is one, keeps the rest of the connection as the pool left it, and
    returns the pool's error wrapped as "connection renew failed", under
    the same code. *)
Theorem Renew_failure_closes (w : World) :
  pool (sc w) = true ->
  let renewed := renewConn B (sc w) in
  let run := Renew B w in
  match snd renewed with
  | None => snd run = Ok tt /\ sc (fst run) = fst renewed
  | Some e =>
      snd run = Err (vterrors.Wrap e "connection renew failed")
      /\ (forall e', snd run = Err e' -> vterrors.Code e' = vterrors.Code e)
      /\ IsClosed (sc (fst run)) = true
      /\ sc (fst run)
         = match dbConn (fst renewed) with
           | Some c' =>
               set_dbConn (Some (set_conn_IsClosed true c')) (fst renewed)
           | None => fst renewed
           end
  end.
Proof.
  intros Hp. cbv zeta. destruct w as [s st cs]. cbn [sc stats calls] in *.
  assert (Hrun :
    Renew B (mkWorld s st cs)
    = match renewConn B s with
      | (s', Some e) =>
          (mkWorld match dbConn s' with
                   | Some c' => set_dbConn (Some (set_conn_IsClosed true c')) s'
                   | None => s'
                   end st cs,
           Err (vterrors.Wrap e "connection renew failed"))
      | (s', None) => (mkWorld s' st cs, Ok tt)
      end).
  { unfold Renew. unfold sbind at 1, getConn at 1. cbn [sc]. rewrite Hp.
    cbn [negb]. destruct (renewConn B s) as [s' [e|]]; [|reflexivity].
    unfold Close, sbind, getConn, setConn, sfail. cbn.
    destruct (dbConn s'); reflexivity. }
  rewrite Hrun.
  destruct (renewConn B s) as [s' [e|]]; cbn [fst snd stats calls sc].
  - split; [reflexivity|].
    split; [intros e' [= <-]; reflexivity|].
    split; [|reflexivity].
    unfold IsClosed. destruct (dbConn s') as [c'|] eqn:Hd.
    + destruct s'; reflexivity.
    + rewrite Hd. reflexivity.
  - auto.
Qed.

End connection_more_props.

Lemma Exec_passes_backend_outcome_witness :
  snd (tabletserver.Exec brokenBackend demoConn.ctx "select 1" 10%Z true
         (demoConn.world false))
  = Err lostConnection
  /\ tabletserver.calls
       (fst (tabletserver.Exec brokenBackend demoConn.ctx "select 1" 10%Z
               true (demoConn.world false)))
     = [tabletserver.CheckMySQL].
Proof.
  pose proof (Exec_passes_backend_outcome brokenBackend demoConn.ctx
                "select 1" 10%Z true (demoConn.world false)
                demoConn.liveConn eq_refl eq_refl) as H.
  cbv zeta in H. destruct H as (Ho & _ & _ & Hc).
  split; [exact Ho|exact Hc].
Defined.

Lemma Unlock_parks_or_releases_witness :
  tabletserver.calls
    (fst (tabletserver.Unlock demoConn.userLabelDisabled 5%Z
            (demoConn.world true)))
  = [tabletserver.markAsNotInUse 42%Z true]
  /\ tabletserver.calls
       (fst (tabletserver.Unlock demoConn.userLabelDisabled 5%Z
               (fst (tabletserver.Close (demoConn.world true)))))
     = [tabletserver.unregister 42%Z "unlocked closed connection";
        tabletserver.Recycle
          (tabletserver.set_conn_IsClosed true demoConn.liveConn)].
Proof.
  destruct (Unlock_parks_or_releases demoConn.userLabelDisabled 5%Z
              (demoConn.world true) demoConn.liveConn eq_refl) as [Hp Hr].
  split.
  - rewrite (Hp eq_refl eq_refl). reflexivity.
  - rewrite Hr. reflexivity.
Defined.

Lemma Renew_failure_closes_witness :
  snd (tabletserver.Renew brokenBackend (demoConn.world false))
  = Err (vterrors.Wrap lostConnection "connection renew failed")
  /\ tabletserver.IsClosed
       (tabletserver.sc
          (fst (tabletserver.Renew brokenBackend (demoConn.world false))))
     = true.
Proof.
  pose proof (Renew_failure_closes brokenBackend (demoConn.world false)
                eq_refl) as H.
  cbv zeta in H. destruct H as (He & _ & Hc & _).
  split; [exact He|exact Hc].
Defined.

(** ** The log of a transaction *)

Section txlog_props.
Import tabletserver.
Variable B : Backend.

(** X23: [LogTransaction] does nothing on a connection with no
    transaction.  On one with a transaction it writes the name of the
    reason and the end time into the transaction and nothing else into the
    connection; it then adds the duration, from the start of the
    transaction to that end time, to the timings of the transaction under
    the reason; unless user metrics are skipped it next calls [Add] on the
    transaction count with the labels user and reason and the value one,
    and on the transaction time with the same labels and the duration, and
    when they are skipped it calls neither; last it sends the connection,
    as concluded, to the transaction logger. *)
Theorem LogTransaction_concludes (reasonName : string) (now : Time)
    (w : TxWorld) :
  (txProps (txConn w) = None -> LogTransaction reasonName now w = w)
  /\ (forall tp, txProps (txConn w) = Some tp ->
      let w' := LogTransaction reasonName now w in
      let duration := (now - tx_StartTime tp)%Z in
      (exists tp',
         txProps (txConn w') = Some tp'
         /\ Conclusion tp' = reasonName
         /\ tx_EndTime tp' = now
         /\ tx_StartTime tp' = tx_StartTime tp
         /\ tx_EffectiveCaller tp' = tx_EffectiveCaller tp
         /\ tx_ImmediateCaller tp' = tx_ImmediateCaller tp)
      /\ set_txProps (Some tp) (txConn w') = txConn w
      /\ events w'
         = (events w
            ++ TimingsAdd reasonName duration
            :: (if SkipUserMetrics (txConn w) then []
                else [UserTransactionCountAdd [txUser tp; reasonName] 1;
                      UserTransactionTimesNsAdd [txUser tp; reasonName]
                                                duration])
            ++ [TxLoggerSend (txConn w')])%list).
Proof.
  split.
  - intros H. unfold LogTransaction. rewrite H. reflexivity.
  - intros tp H. cbv zeta. unfold LogTransaction. rewrite H.
    destruct w as [s ev]. destruct s as [p dc id skip txp rp t et to ex].
    cbn in *. subst txp. unfold txUser. cbn.
    split; [eexists; repeat split; reflexivity|].
    split; [reflexivity|]. destruct skip; reflexivity.
Qed.

(** X24: the conclusion [LogTransaction] writes is the one a later query
    reports: once a connection with a transaction is logged under a reason
    and then closed, [Exec] fails with code ABORTED and the message
    "transaction was aborted: " followed by the name of that reason, and
    sends nothing to the backend. *)
Theorem logged_reason_is_reported (reasonName : string) (now : Time)
    (w : TxWorld) (tp : tx_Properties) (st : StatsT) (cs : list Call)
    (ctx : Context) (query : string) (maxrows : Z) (wantfields : bool) :
  txProps (txConn w) = Some tp ->
  let logged := mkWorld (txConn (LogTransaction reasonName now w)) st cs in
  let closed := fst (Close logged) in
  Exec B ctx query maxrows wantfields closed
  = (closed,
     Err (vterrors.New vtrpcpb.Code_ABORTED
            ("transaction was aborted: " ++ reasonName))).
Proof.
  intros H. cbv zeta. unfold LogTransaction. rewrite H.
  destruct w as [s ev]. destruct s as [p dc id skip txp rp t et to ex].
  cbn in H. subst txp. destruct dc as [c|]; reflexivity.
Qed.

End txlog_props.

Lemma logged_reason_is_reported_witness :
  snd (tabletserver.Exec demoConn.backend demoConn.ctx "select 1" 10%Z true
         (fst (tabletserver.Close
                 (tabletserver.mkWorld
                    (txConn (LogTransaction "kill" 25%Z inTx))
                    (tabletserver.mkStats ∅ ∅ ∅) []))))
  = Err (vterrors.New vtrpcpb.Code_ABORTED "transaction was aborted: kill").
Proof.
  rewrite (logged_reason_is_reported demoConn.backend "kill" 25%Z inTx
             bobsTx (tabletserver.mkStats ∅ ∅ ∅) [] demoConn.ctx "select 1"
             10%Z true eq_refl).
  reflexivity.
Defined.

(** ** The planner entry under SQL_CALC_FOUND_ROWS with a LIMIT *)

Section directive_props.
Import sqlparser planbuilder.
Variable X : Collaborators.
Variable vschema : VSchema.

(** X25: for a select with SQL_CALC_FOUND_ROWS and a LIMIT the planner
    version the caller asks for is not read: [gen4SelectStmtPlanner] gives
    the same result under every version.  When the select is not answered
    on dual, a plan it returns is an [engine.SQLCalcFoundRows] whose count
    half, if it is a [Route], has [NoRoutesSpecialHandling] set. *)
Theorem found_rows_ignores_planner_version
    (query : string) (version : PlannerVersion) (rv : ReservedVars)
    (sel : Select) :
  SQLCalcFoundRows sel = true ->
  is_some (Limit sel) = true ->
  (forall version',
     gen4SelectStmtPlanner X vschema query version rv (SelectStmt sel)
     = gen4SelectStmtPlanner X vschema query version' rv (SelectStmt sel))
  /\ (handleDualSelects X vschema sel = Ok None ->
      forall st' pr,
        gen4SelectStmtPlanner X vschema query version rv (SelectStmt sel)
        = (st', Ok pr) ->
        exists limitPlan countPlan,
          primitive pr = engine.PSQLCalcFoundRows limitPlan countPlan
          /\ (forall r, countPlan = engine.PRoute r ->
                engine.NoRoutesSpecialHandling r = true)).
Proof.
  intros Hf Hl. split.
  - intros version'. unfold gen4SelectStmtPlanner. rewrite Hf, Hl.
    reflexivity.
  - intros Hd st' pr. unfold gen4SelectStmtPlanner. rewrite Hd, Hf, Hl.
    cbn [andb]. unfold gen4planSQLCalcFoundRows. unfold sbind at 1.
    destruct (Analyze X _ (SelectStmt sel)) as [st1 [warning|e|w]];
      [|discriminate|discriminate].
    unfold sbind at 1.
    pose proof (found_rows_outcome X vschema query rv st1) as Ho.
    destruct (buildSQLCalcFoundRowsPlan X vschema query rv st1)
      as [st2 [[plan tablesUsed]|e|w]]; [|discriminate|discriminate].
    cbn [snd] in Ho. intros [= _ <-]. cbn [primitive].
    destruct (snd (newBuildSelectPlan X vschema rv Gen4 st1))
      as [[lp lt]|e|w]; [|discriminate|discriminate].
    destruct (Parse2 vschema query) as [[[[parsed|l r]|txt] r2]|e|w];
      try discriminate.
    destruct (snd (newBuildSelectPlan X vschema _ Gen4 _))
      as [[cp ct]|e|w]; [|discriminate|discriminate].
    injection Ho as -> _. exists lp, (markRoute cp). split; [reflexivity|].
    intros r. destruct cp; cbn; try discriminate. intros [= <-]. reflexivity.
Qed.

End directive_props.

Lemma found_rows_ignores_planner_version_witness :
  planbuilder.gen4SelectStmtPlanner demo.X demo.vschema demo.foundRowsQuery
    planbuilder.Gen4Left2Right demo.reservedVars
    (sqlparser.SelectStmt (demo.selectA true (Some demo.limit10)))
  = planbuilder.gen4SelectStmtPlanner demo.X demo.vschema demo.foundRowsQuery
      planbuilder.Gen4 demo.reservedVars
      (sqlparser.SelectStmt (demo.selectA true (Some demo.limit10))).
Proof.
  destruct (found_rows_ignores_planner_version demo.X demo.vschema
              demo.foundRowsQuery planbuilder.Gen4Left2Right
              demo.reservedVars (demo.selectA true (Some demo.limit10))
              eq_refl eq_refl) as [Hv _].
  exact (Hv planbuilder.Gen4).
Defined.
